(** * CEDHBC case-file manager: validation, repository and notification layer

    A shallow embedding of the client-side core of the CEDHBC application
    (TypeScript/React over a hosted backend):

    - [Js]            the string and date built-ins the code relies on;
    - [Utils]         [lib/utils.ts]: folio, date and text normalisers;
    - [Expedientes]   [context/ExpedientesContext.tsx]: the case repository;
    - [Notifications] [context/NotificationsContext.tsx]: the bounded log;
    - [Panels]        the status projections of the dashboard, the report
                      page and the list page;
    - [Configuracion] the backup import of the settings page.

    Text is modelled by [string]: a sequence of bytes, letters outside
    ASCII in UTF-8.  The case mappings and the white-space class are those
    of the ASCII range; bytes above 127 are carried through unchanged, and
    lengths count bytes. *)

From Stdlib Require Import ZArith NArith List String Ascii Bool Lia Arith.
From Stdlib Require Import Numbers.DecimalString.
From Stdlib Require Import Sorting.Sorted Sorting.Permutation.
Import ListNotations.

Open Scope string_scope.

(* ================================================================== *)
(** ** JavaScript built-ins *)
(* ================================================================== *)

Module Js.

Definition code (c : ascii) : N := N_of_ascii c.

Definition in_range (lo hi : N) (c : ascii) : bool :=
  ((lo <=? code c) && (code c <=? hi))%N.

(** The class [\s] (also the characters removed by [trim]). *)
Definition is_space (c : ascii) : bool :=
  in_range 9 13 c || (code c =? 32)%N.

Definition is_digit (c : ascii) : bool := in_range 48 57 c.
Definition is_lower (c : ascii) : bool := in_range 97 122 c.
Definition is_upper (c : ascii) : bool := in_range 65 90 c.

Definition upper_char (c : ascii) : ascii :=
  if is_lower c then ascii_of_N (code c - 32) else c.

Definition lower_char (c : ascii) : ascii :=
  if is_upper c then ascii_of_N (code c + 32) else c.

Fixpoint map_str (f : ascii -> ascii) (s : string) : string :=
  match s with
  | EmptyString => EmptyString
  | String c s' => String (f c) (map_str f s')
  end.

Definition toUpperCase : string -> string := map_str upper_char.
Definition toLowerCase : string -> string := map_str lower_char.

Fixpoint forall_str (p : ascii -> bool) (s : string) : bool :=
  match s with
  | EmptyString => true
  | String c s' => p c && forall_str p s'
  end.

(** [s.replace(/[cls]+/g, rep)]: every maximal run of characters of the
    class becomes one copy of [rep].  [in_run] tells whether the previous
    character belonged to the run being replaced. *)
Fixpoint replace_runs_from (cls : ascii -> bool) (rep : string)
         (in_run : bool) (s : string) : string :=
  match s with
  | EmptyString => EmptyString
  | String c s' =>
      if cls c then
        if in_run then replace_runs_from cls rep true s'
        else rep ++ replace_runs_from cls rep true s'
      else String c (replace_runs_from cls rep false s')
  end.

Definition replace_runs (cls : ascii -> bool) (rep s : string) : string :=
  replace_runs_from cls rep false s.

Fixpoint trimStart (s : string) : string :=
  match s with
  | EmptyString => EmptyString
  | String c s' => if is_space c then trimStart s' else s
  end.

Fixpoint trimEnd (s : string) : string :=
  match s with
  | EmptyString => EmptyString
  | String c s' =>
      match trimEnd s' with
      | EmptyString => if is_space c then EmptyString else String c EmptyString
      | t => String c t
      end
  end.

Definition trim (s : string) : string := trimEnd (trimStart s).

(** [s.slice(0, n)] for [n >= 0]. *)
Fixpoint slice0 (n : nat) (s : string) : string :=
  match n, s with
  | S n', String c s' => String c (slice0 n' s')
  | _, _ => EmptyString
  end.

(** [s.includes(needle)]. *)
Fixpoint includes (needle s : string) : bool :=
  String.prefix needle s
  || match s with
     | EmptyString => false
     | String _ s' => includes needle s'
     end.

(** Truthiness of a string: the empty string is falsy. *)
Definition truthy (s : string) : bool := negb (s =? "").

(** Truthiness of an optional string property: [undefined] and [null]
    are falsy as well. *)
Definition truthy_opt (o : option string) : bool :=
  match o with
  | Some s => truthy s
  | None => false
  end.

(** [a ?? b]. *)
Definition nullish {A} (a : option A) (b : A) : A :=
  match a with
  | Some x => x
  | None => b
  end.

(** *** Regular expressions

    Every pattern of the code base is anchored at both ends and is a
    sequence of character classes, each with a repetition range.  An
    atom [(cls, lo, hi)] stands for [[cls]{lo,hi}]; matching is greedy
    with backtracking, as in the engine. *)
Record Atom := mkAtom { a_cls : ascii -> bool; a_min : nat; a_max : nat }.

Fixpoint match_rep (cls : ascii -> bool) (lo hi : nat)
         (k : string -> bool) (s : string) : bool :=
  match hi with
  | O => (lo =? 0)%nat && k s
  | S hi' =>
      match s with
      | String c s' => cls c && match_rep cls (Nat.pred lo) hi' k s'
      | EmptyString => false
      end
      || ((lo =? 0)%nat && k s)
  end.

Fixpoint match_atoms (p : list Atom) : string -> bool :=
  match p with
  | [] => fun s => s =? ""
  | a :: p' => match_rep (a_cls a) (a_min a) (a_max a) (match_atoms p')
  end.

Definition one (cls : ascii -> bool) : Atom := mkAtom cls 1 1.
Definition rep (cls : ascii -> bool) (lo hi : nat) : Atom := mkAtom cls lo hi.

(** A literal character; under the [i] flag both cases match. *)
Definition lit (c : ascii) : ascii -> bool := fun x => Ascii.eqb x c.
Definition lit_i (c : ascii) : ascii -> bool :=
  fun x => Ascii.eqb (upper_char x) (upper_char c).

Definition max_len (p : list Atom) : nat :=
  fold_right (fun a n => (a_max a + n)%nat) 0%nat p.

(** *** Numbers as text *)

(** [String(n)] for an integer [n]. *)
Definition String_of_Z (z : Z) : string :=
  DecimalString.NilZero.string_of_int (Z.to_int z).

Fixpoint repeat_char (c : ascii) (n : nat) : string :=
  match n with
  | O => EmptyString
  | S n' => String c (repeat_char c n')
  end.

(** [s.padStart(n, c)] for a one-character filler. *)
Definition padStart (n : nat) (c : ascii) (s : string) : string :=
  repeat_char c (n - String.length s) ++ s.

(** *** Dates

    A [Date] is its time value: milliseconds since the epoch, [None]
    standing for the invalid date ([NaN]).  What the engine and the host
    decide (how a text is parsed, the clock, the local time zone, the
    locale) is the environment [Env]; the UTC calendar fields are
    computed from the time value as the language defines them.  The
    clock is read once for an operation: every [new Date()] of a run
    sees [Date_now]. *)
Record Env := mkEnv {
  (** [new Date(text).getTime()] *)
  Date_parse : string -> option Z;
  (** [new Date().getTime()] *)
  Date_now : Z;
  (** the time value after [setHours(0, 0, 0, 0)] *)
  startOfLocalDay : Z -> Z;
  (** [toLocaleDateString('es-MX', { month: 'long', year: 'numeric' })] *)
  toLocaleMonthYear : Z -> string
}.

Definition msPerDay : Z := 86400000.

(** [Day(t)] *)
Definition Day (t : Z) : Z := (t / msPerDay)%Z.

(** Year, month (1..12) and day of month of a day number. *)
Definition civil_from_days (days : Z) : Z * Z * Z :=
  (let z := days + 719468 in
   let era := z / 146097 in
   let doe := z - era * 146097 in
   let yoe := (doe - doe / 1460 + doe / 36524 - doe / 146096) / 365 in
   let y := yoe + era * 400 in
   let doy := doe - (365 * yoe + yoe / 4 - yoe / 100) in
   let mp := (5 * doy + 2) / 153 in
   let d := doy - (153 * mp + 2) / 5 + 1 in
   let m := if mp <? 10 then mp + 3 else mp - 9 in
   (if m <=? 2 then y + 1 else y, m, d))%Z.

Definition days_from_civil (y m d : Z) : Z :=
  (let y' := if m <=? 2 then y - 1 else y in
   let era := y' / 400 in
   let yoe := y' - era * 400 in
   let mp := if m <=? 2 then m + 9 else m - 3 in
   let doy := (153 * mp + 2) / 5 + d - 1 in
   let doe := yoe * 365 + yoe / 4 - yoe / 100 + doy in
   era * 146097 + doe - 719468)%Z.

Definition getUTCFullYear (t : Z) : Z := fst (fst (civil_from_days (Day t))).
(** months count from 0 *)
Definition getUTCMonth (t : Z) : Z := (snd (fst (civil_from_days (Day t))) - 1)%Z.
Definition getUTCDate (t : Z) : Z := snd (civil_from_days (Day t)).

(** [date.toISOString().split('T')[0]]: the date part of the ISO text,
    with a four-digit year, or a sign and six digits outside 0..9999. *)
Definition isoDatePart (t : Z) : string :=
  let y := getUTCFullYear t in
  let year :=
    if ((0 <=? y) && (y <=? 9999))%Z then padStart 4 "0" (String_of_Z y)
    else if (y <? 0)%Z then "-" ++ padStart 6 "0" (String_of_Z (- y))
    else "+" ++ padStart 6 "0" (String_of_Z y) in
  year ++ "-" ++ padStart 2 "0" (String_of_Z (getUTCMonth t + 1))
       ++ "-" ++ padStart 2 "0" (String_of_Z (getUTCDate t)).

(** [new Date().toISOString().split('T')[0]] *)
Definition todayISO (env : Env) : string := isoDatePart (Date_now env).

(** [a > b] on time values; a comparison with [NaN] is false. *)
Definition time_gt (a : option Z) (b : Z) : bool :=
  match a with
  | Some x => (x >? b)%Z
  | None => false
  end.

End Js.

(* ================================================================== *)
(** ** lib/utils.ts: text and folio *)
(* ================================================================== *)

Module Utils.
Import Js.

(** [FIELD_LIMITS] *)
Definition FIELD_LIMITS_folio : nat := 32.
Definition FIELD_LIMITS_tipoDerecho : nat := 120.
Definition FIELD_LIMITS_autoridad : nat := 160.
Definition FIELD_LIMITS_visitador : nat := 120.
Definition FIELD_LIMITS_notas : nat := 2500.

Definition normalizeWhitespace (value : string) : string :=
  trim (replace_runs is_space " " value).

Definition is_space_or_slash (c : ascii) : bool :=
  is_space c || Ascii.eqb c "/".

Definition normalizeFolio (value : string) : string :=
  replace_runs is_space_or_slash "-" (toUpperCase (normalizeWhitespace value)).

Definition dash_or_slash (c : ascii) : bool :=
  Ascii.eqb c "-" || Ascii.eqb c "/".

(** [/^CEDHBC[-/][0-9]{4}[-/][0-9]{3,6}$/i] *)
Definition FOLIO_RE : list Atom :=
  [ one (lit_i "C"); one (lit_i "E"); one (lit_i "D");
    one (lit_i "H"); one (lit_i "B"); one (lit_i "C");
    one dash_or_slash; rep is_digit 4 4;
    one dash_or_slash; rep is_digit 3 6 ].

Definition isValidFolio (value : string) : bool :=
  match_atoms FOLIO_RE (normalizeWhitespace value).

(** [Math.max(0, maxLength)] is the identity on [nat]. *)
Definition truncateText (value : string) (maxLength : nat) : string :=
  slice0 maxLength (normalizeWhitespace value).

(** [ESTADOS] *)
Definition ESTADOS : list string :=
  [ "Admitida"; "En integración"; "En conciliación"; "Resuelta"; "Archivada" ].

Definition ESTADOS_includes (e : string) : bool :=
  existsb (String.eqb e) ESTADOS.

Definition normalizeDateOnly (env : Env) (value : string) : option string :=
  if negb (truthy value) then None
  else
    match Date_parse env value with
    | None => None
    | Some date =>
        let year := String_of_Z (getUTCFullYear date) in
        let month := padStart 2 "0" (String_of_Z (getUTCMonth date + 1)) in
        let day := padStart 2 "0" (String_of_Z (getUTCDate date)) in
        Some (year ++ "-" ++ month ++ "-" ++ day)
    end.

Definition isFutureDate (env : Env) (value : string) : bool :=
  match normalizeDateOnly env value with
  | None => false
  | Some normalized =>
      let target := Date_parse env (normalized ++ "T00:00:00") in
      let today := startOfLocalDay env (Date_now env) in
      time_gt target today
  end.

Definition getMesRegistro (env : Env) (dateStr : string) : string :=
  match Date_parse env (dateStr ++ "T00:00:00") with
  | None => toLocaleMonthYear env (Date_now env)
  | Some date => toLocaleMonthYear env date
  end.

End Utils.


(* ================================================================== *)
(** ** types/database.ts *)
(* ================================================================== *)

(** A stored case record.  [estado] is a plain text on the wire: the table
    accepts the two accented states in an unaccented spelling as well. *)
Module Expediente.
Record t := mk {
  id : string;
  folio : string;
  fecha_presentacion : string;
  tipo_derecho : string;
  autoridad_responsable : string;
  visitador_asignado : string;
  estado : string;
  fecha_ultimo_movimiento : string;
  notas_seguimiento : string;
  mes_registro : string;
  created_at : string;
  updated_at : string
}.
End Expediente.

(** The input of a creation.  The four fields the code reads through [??]
    may be [undefined] or [null]. *)
Module ExpedienteInsert.
Record t := mk {
  folio : string;
  fecha_presentacion : string;
  tipo_derecho : string;
  autoridad_responsable : string;
  visitador_asignado : string;
  estado : option string;
  fecha_ultimo_movimiento : option string;
  notas_seguimiento : option string;
  mes_registro : option string
}.
End ExpedienteInsert.

(** A patch: a field is [Some] when [typeof] it is ['string']. *)
Module ExpedienteUpdate.
Record t := mk {
  folio : option string;
  fecha_presentacion : option string;
  tipo_derecho : option string;
  autoridad_responsable : option string;
  visitador_asignado : option string;
  estado : option string;
  fecha_ultimo_movimiento : option string;
  notas_seguimiento : option string;
  mes_registro : option string
}.
End ExpedienteUpdate.

(** The row sent by an insert. *)
Module InsertRow.
Record t := mk {
  folio : string;
  fecha_presentacion : string;
  tipo_derecho : string;
  autoridad_responsable : string;
  visitador_asignado : string;
  estado : string;
  fecha_ultimo_movimiento : string;
  notas_seguimiento : string;
  mes_registro : string
}.
End InsertRow.

(** The columns sent by an update; [None] is an absent key. *)
Module UpdateRow.
Record t := mk {
  folio : option string;
  fecha_presentacion : option string;
  tipo_derecho : option string;
  autoridad_responsable : option string;
  visitador_asignado : option string;
  estado : option string;
  fecha_ultimo_movimiento : option string;
  notas_seguimiento : option string;
  mes_registro : option string
}.

Definition empty : t := mk None None None None None None None None None.

Definition set_folio v p :=
  mk (Some v) (fecha_presentacion p) (tipo_derecho p) (autoridad_responsable p)
     (visitador_asignado p) (estado p) (fecha_ultimo_movimiento p)
     (notas_seguimiento p) (mes_registro p).
Definition set_fecha_presentacion v p :=
  mk (folio p) (Some v) (tipo_derecho p) (autoridad_responsable p)
     (visitador_asignado p) (estado p) (fecha_ultimo_movimiento p)
     (notas_seguimiento p) (mes_registro p).
Definition set_tipo_derecho v p :=
  mk (folio p) (fecha_presentacion p) (Some v) (autoridad_responsable p)
     (visitador_asignado p) (estado p) (fecha_ultimo_movimiento p)
     (notas_seguimiento p) (mes_registro p).
Definition set_autoridad_responsable v p :=
  mk (folio p) (fecha_presentacion p) (tipo_derecho p) (Some v)
     (visitador_asignado p) (estado p) (fecha_ultimo_movimiento p)
     (notas_seguimiento p) (mes_registro p).
Definition set_visitador_asignado v p :=
  mk (folio p) (fecha_presentacion p) (tipo_derecho p) (autoridad_responsable p)
     (Some v) (estado p) (fecha_ultimo_movimiento p)
     (notas_seguimiento p) (mes_registro p).
Definition set_estado v p :=
  mk (folio p) (fecha_presentacion p) (tipo_derecho p) (autoridad_responsable p)
     (visitador_asignado p) (Some v) (fecha_ultimo_movimiento p)
     (notas_seguimiento p) (mes_registro p).
Definition set_fecha_ultimo_movimiento v p :=
  mk (folio p) (fecha_presentacion p) (tipo_derecho p) (autoridad_responsable p)
     (visitador_asignado p) (estado p) (Some v)
     (notas_seguimiento p) (mes_registro p).
Definition set_notas_seguimiento v p :=
  mk (folio p) (fecha_presentacion p) (tipo_derecho p) (autoridad_responsable p)
     (visitador_asignado p) (estado p) (fecha_ultimo_movimiento p)
     (Some v) (mes_registro p).
Definition set_mes_registro v p :=
  mk (folio p) (fecha_presentacion p) (tipo_derecho p) (autoridad_responsable p)
     (visitador_asignado p) (estado p) (fecha_ultimo_movimiento p)
     (notas_seguimiento p) (Some v).

Definition present {A} (o : option A) : nat :=
  match o with Some _ => 1 | None => 0 end.

(** [Object.keys(payload).length] *)
Definition keys_length (p : t) : nat :=
  present (folio p) + present (fecha_presentacion p) + present (tipo_derecho p)
  + present (autoridad_responsable p) + present (visitador_asignado p)
  + present (estado p) + present (fecha_ultimo_movimiento p)
  + present (notas_seguimiento p) + present (mes_registro p).
End UpdateRow.

(** [{ payload, error }], the result of a validator. *)
Module Validated.
Record t (A : Type) := mk { payload : option A; error : option string }.
Arguments mk {A}.
Arguments payload {A}.
Arguments error {A}.

Definition fail {A} (reason : string) : t A := mk None (Some reason).
Definition ok {A} (p : A) : t A := mk (Some p) None.
End Validated.

(** [{ error, data }], the result of a repository operation. *)
Module OpResult.
Record t := mk { error : option string; data : option Expediente.t }.
Definition fail (reason : string) : t := mk (Some reason) None.
End OpResult.

(* ================================================================== *)
(** ** context/ExpedientesContext.tsx: the validators *)
(* ================================================================== *)

Module Validators.
Import Js Utils.

Definition HEX (c : ascii) : bool :=
  is_digit c || in_range 97 102 c || in_range 65 70 c.

(** [/^[0-9a-f]{8}-[0-9a-f]{4}-[1-5][0-9a-f]{3}-[89ab][0-9a-f]{3}-[0-9a-f]{12}$/i] *)
Definition UUID_RE : list Atom :=
  [ rep HEX 8 8; one (lit "-"); rep HEX 4 4; one (lit "-");
    one (in_range 49 53); rep HEX 3 3; one (lit "-");
    one (fun c => lit "8" c || lit "9" c || lit_i "a" c || lit_i "b" c);
    rep HEX 3 3; one (lit "-"); rep HEX 12 12 ].

Definition isUuid (value : string) : bool := match_atoms UUID_RE value.

Definition normalizeCreatePayload (env : Env) (data : ExpedienteInsert.t)
  : Validated.t InsertRow.t :=
  let folio := slice0 FIELD_LIMITS_folio (normalizeFolio (ExpedienteInsert.folio data)) in
  if negb (truthy folio) then Validated.fail "El folio es obligatorio."
  else if negb (isValidFolio folio) then
    Validated.fail "El folio debe usar formato CEDHBC-AAAA-000."
  else
  match normalizeDateOnly env (ExpedienteInsert.fecha_presentacion data) with
  | None => Validated.fail "La fecha de presentacion es invalida."
  | Some fechaPresentacion =>
  if isFutureDate env fechaPresentacion then
    Validated.fail "La fecha de presentacion no puede ser futura."
  else
  let tipoDerecho :=
    truncateText (ExpedienteInsert.tipo_derecho data) FIELD_LIMITS_tipoDerecho in
  if negb (truthy tipoDerecho) then
    Validated.fail "El tipo de derecho es obligatorio."
  else
  let autoridad :=
    truncateText (ExpedienteInsert.autoridad_responsable data) FIELD_LIMITS_autoridad in
  if negb (truthy autoridad) then
    Validated.fail "La autoridad responsable es obligatoria."
  else
  let visitador :=
    truncateText (ExpedienteInsert.visitador_asignado data) FIELD_LIMITS_visitador in
  if negb (truthy visitador) then
    Validated.fail "El visitador asignado es obligatorio."
  else
  let estado := nullish (ExpedienteInsert.estado data) "Admitida" in
  if negb (ESTADOS_includes estado) then
    Validated.fail "El estado seleccionado no es valido."
  else
  let notas :=
    slice0 FIELD_LIMITS_notas
           (trim (nullish (ExpedienteInsert.notas_seguimiento data) "")) in
  match normalizeDateOnly env
          (nullish (ExpedienteInsert.fecha_ultimo_movimiento data) fechaPresentacion) with
  | None => Validated.fail "La fecha de ultimo movimiento es invalida."
  | Some fechaMovimiento =>
  if isFutureDate env fechaMovimiento then
    Validated.fail "La fecha de ultimo movimiento no puede ser futura."
  else if fechaMovimiento <? fechaPresentacion then
    Validated.fail
      "La fecha de ultimo movimiento no puede ser anterior a la fecha de presentacion."
  else
  let mesRegistro :=
    let m := truncateText
               (nullish (ExpedienteInsert.mes_registro data)
                        (getMesRegistro env fechaPresentacion)) 60 in
    if truthy m then m else getMesRegistro env fechaPresentacion in
  Validated.ok
    (InsertRow.mk folio fechaPresentacion tipoDerecho autoridad visitador
                  estado fechaMovimiento notas mesRegistro)
  end
  end.

(** The update validator fills [payload] field by field and leaves at the
    first failure: each block of the source is a step from the payload so
    far to the next one, or to the reason of the failure. *)
Definition Step := UpdateRow.t -> string + UpdateRow.t.

Definition andThen (a : string + UpdateRow.t) (f : Step) : string + UpdateRow.t :=
  match a with
  | inl reason => inl reason
  | inr p => f p
  end.

Definition on_field (field : option string) (f : string -> Step) : Step :=
  fun payload =>
    match field with
    | Some value => f value payload
    | None => inr payload
    end.

Definition step_folio (data : ExpedienteUpdate.t) : Step :=
  on_field (ExpedienteUpdate.folio data) (fun value payload =>
    let folio := slice0 FIELD_LIMITS_folio (normalizeFolio value) in
    if negb (truthy folio) then inl "El folio no puede quedar vacio."
    else if negb (isValidFolio folio) then
      inl "El folio debe usar formato CEDHBC-AAAA-000."
    else inr (UpdateRow.set_folio folio payload)).

Definition step_fecha_presentacion (env : Env) (data : ExpedienteUpdate.t) : Step :=
  on_field (ExpedienteUpdate.fecha_presentacion data) (fun value payload =>
    match normalizeDateOnly env value with
    | None => inl "La fecha de presentacion es invalida."
    | Some fecha =>
        if isFutureDate env fecha then
          inl "La fecha de presentacion no puede ser futura."
        else
          let payload := UpdateRow.set_fecha_presentacion fecha payload in
          if negb (truthy_opt (UpdateRow.mes_registro payload)) then
            inr (UpdateRow.set_mes_registro (getMesRegistro env fecha) payload)
          else inr payload
    end).

Definition step_tipo_derecho (data : ExpedienteUpdate.t) : Step :=
  on_field (ExpedienteUpdate.tipo_derecho data) (fun value payload =>
    let tipoDerecho := truncateText value FIELD_LIMITS_tipoDerecho in
    if negb (truthy tipoDerecho) then
      inl "El tipo de derecho no puede quedar vacio."
    else inr (UpdateRow.set_tipo_derecho tipoDerecho payload)).

Definition step_autoridad_responsable (data : ExpedienteUpdate.t) : Step :=
  on_field (ExpedienteUpdate.autoridad_responsable data) (fun value payload =>
    let autoridad := truncateText value FIELD_LIMITS_autoridad in
    if negb (truthy autoridad) then
      inl "La autoridad responsable no puede quedar vacia."
    else inr (UpdateRow.set_autoridad_responsable autoridad payload)).

Definition step_visitador_asignado (data : ExpedienteUpdate.t) : Step :=
  on_field (ExpedienteUpdate.visitador_asignado data) (fun value payload =>
    let visitador := truncateText value FIELD_LIMITS_visitador in
    if negb (truthy visitador) then
      inl "El visitador asignado no puede quedar vacio."
    else inr (UpdateRow.set_visitador_asignado visitador payload)).

Definition step_estado (data : ExpedienteUpdate.t) : Step :=
  on_field (ExpedienteUpdate.estado data) (fun estado payload =>
    if negb (ESTADOS_includes estado) then
      inl "El estado seleccionado no es valido."
    else inr (UpdateRow.set_estado estado payload)).

Definition step_notas_seguimiento (data : ExpedienteUpdate.t) : Step :=
  on_field (ExpedienteUpdate.notas_seguimiento data) (fun value payload =>
    inr (UpdateRow.set_notas_seguimiento
           (slice0 FIELD_LIMITS_notas (trim value)) payload)).

Definition step_fecha_ultimo_movimiento (env : Env) (data : ExpedienteUpdate.t) : Step :=
  on_field (ExpedienteUpdate.fecha_ultimo_movimiento data) (fun value payload =>
    match normalizeDateOnly env value with
    | None => inl "La fecha de ultimo movimiento es invalida."
    | Some fecha =>
        if isFutureDate env fecha then
          inl "La fecha de ultimo movimiento no puede ser futura."
        else inr (UpdateRow.set_fecha_ultimo_movimiento fecha payload)
    end).

Definition step_mes_registro (data : ExpedienteUpdate.t) : Step :=
  on_field (ExpedienteUpdate.mes_registro data) (fun value payload =>
    let mesRegistro := truncateText value 60 in
    if negb (truthy mesRegistro) then
      inl "El mes de registro no puede quedar vacio."
    else inr (UpdateRow.set_mes_registro mesRegistro payload)).

(** The nine field blocks, in the order of the source. *)
Definition fill_payload (env : Env) (data : ExpedienteUpdate.t)
  : string + UpdateRow.t :=
  andThen (andThen (andThen (andThen (andThen (andThen (andThen (andThen
    (step_folio data UpdateRow.empty)
    (step_fecha_presentacion env data))
    (step_tipo_derecho data))
    (step_autoridad_responsable data))
    (step_visitador_asignado data))
    (step_estado data))
    (step_notas_seguimiento data))
    (step_fecha_ultimo_movimiento env data))
    (step_mes_registro data).

Definition defined {A} (o : option A) : bool :=
  match o with Some _ => true | None => false end.

Definition shouldTouchLastMovement (payload : UpdateRow.t) : bool :=
  negb (truthy_opt (UpdateRow.fecha_ultimo_movimiento payload))
  && (defined (UpdateRow.estado payload)
      || defined (UpdateRow.tipo_derecho payload)
      || defined (UpdateRow.autoridad_responsable payload)
      || defined (UpdateRow.visitador_asignado payload)
      || defined (UpdateRow.notas_seguimiento payload)).

(** [a && b && b < a] on two optional texts. *)
Definition movement_precedes (presentacion movimiento : option string) : bool :=
  match presentacion, movimiento with
  | Some a, Some b => truthy a && truthy b && (b <? a)
  | _, _ => false
  end.

Definition normalizeUpdatePayload (env : Env) (data : ExpedienteUpdate.t)
  : Validated.t UpdateRow.t :=
  match fill_payload env data with
  | inl reason => Validated.fail reason
  | inr payload =>
      if movement_precedes (UpdateRow.fecha_presentacion payload)
                           (UpdateRow.fecha_ultimo_movimiento payload) then
        Validated.fail
          "La fecha de ultimo movimiento no puede ser anterior a la fecha de presentacion."
      else if (UpdateRow.keys_length payload =? 0)%nat then
        Validated.fail "No hay cambios para guardar."
      else if shouldTouchLastMovement payload then
        Validated.ok (UpdateRow.set_fecha_ultimo_movimiento (todayISO env) payload)
      else Validated.ok payload
  end.

End Validators.

(* ================================================================== *)
(** ** context/ExpedientesContext.tsx: the repository *)
(* ================================================================== *)

Module Repository.
Import Js Utils Validators.

(** The calls the provider can make to the backend table. *)
Inductive Request :=
| Insert (payload : InsertRow.t)
| Update (id : string) (payload : UpdateRow.t)
| Delete (id : string)
| SelectAll.

(** What comes back from a call: [{ data, error: null }], an [error]
    object with its [code] and [message], or a rejected promise. *)
Inductive Response (A : Type) :=
| Data (a : A)
| Failure (code message : string)
| Thrown.
Arguments Data {A}.
Arguments Failure {A}.
Arguments Thrown {A}.

(** The backend is any function of the calls made so far. *)
Record Backend := mkBackend {
  on_insert : list Request -> InsertRow.t -> Response (option Expediente.t);
  on_update : list Request -> string -> UpdateRow.t -> Response (option Expediente.t);
  on_delete : list Request -> string -> Response unit;
  on_select : list Request -> Response (option (list Expediente.t))
}.

(** The state of the provider, and the calls attempted so far (oldest
    first). *)
Module World.
Record t := mk {
  expedientes : list Expediente.t;
  loading : bool;
  error : option string;
  session : bool;
  calls : list Request
}.
Definition setExpedientes v w := mk v (loading w) (error w) (session w) (calls w).
Definition setLoading v w := mk (expedientes w) v (error w) (session w) (calls w).
Definition setError v w := mk (expedientes w) (loading w) v (session w) (calls w).
Definition call r w :=
  mk (expedientes w) (loading w) (error w) (session w) (calls w ++ [r]).
End World.

Definition fetchExpedientes (be : Backend) (w : World.t) : World.t :=
  if negb (World.session w) then
    World.setLoading false (World.setError None (World.setExpedientes [] w))
  else
    let w := World.setError None (World.setLoading true w) in
    let response := on_select be (World.calls w) in
    let w := World.call SelectAll w in
    match response with
    | Failure _ message =>
        World.setLoading false
          (World.setError
             (Some (if truthy message then message
                    else "No se pudieron cargar los expedientes.")) w)
    | Data data =>
        World.setLoading false (World.setExpedientes (nullish data []) w)
    | Thrown =>
        World.setLoading false
          (World.setError (Some "Error de conexion al consultar expedientes.") w)
    end.

Definition is_none {A} (o : option A) : bool :=
  match o with Some _ => false | None => true end.

Definition same_folio (a b : string) : bool :=
  toUpperCase a =? toUpperCase b.

(** [expedientes] is the snapshot the closure captured at the last
    render: [World.expedientes] of the world the caller saw then. *)
Definition createExpediente (env : Env) (be : Backend)
           (expedientes : list Expediente.t) (data : ExpedienteInsert.t)
           (w : World.t) : OpResult.t * World.t :=
  let v := normalizeCreatePayload env data in
  match Validated.payload v with
  | None =>
      (OpResult.fail (nullish (Validated.error v) "Datos invalidos para crear expediente."), w)
  | Some payload =>
  if truthy_opt (Validated.error v) then
    (OpResult.fail (nullish (Validated.error v) "Datos invalidos para crear expediente."), w)
  else
  let duplicate :=
    existsb (fun item => same_folio (Expediente.folio item) (InsertRow.folio payload))
            expedientes in
  if duplicate then
    (OpResult.fail ("El folio " ++ InsertRow.folio payload ++ " ya existe."), w)
  else
    let response := on_insert be (World.calls w) payload in
    let w := World.call (Insert payload) w in
    match response with
    | Failure code message =>
        (OpResult.fail (if code =? "23505" then "El folio ya existe en base de datos."
                        else message), w)
    | Data inserted => (OpResult.mk None inserted, fetchExpedientes be w)
    | Thrown =>
        (OpResult.fail "No se pudo crear el expediente por un error de red.", w)
    end
  end.

Definition updateExpediente (env : Env) (be : Backend)
           (expedientes : list Expediente.t) (id : string)
           (data : ExpedienteUpdate.t) (w : World.t) : OpResult.t * World.t :=
  if negb (isUuid id) then
    (OpResult.fail "Identificador de expediente invalido.", w)
  else
  match find (fun item => Expediente.id item =? id) expedientes with
  | None => (OpResult.fail "No se encontro el expediente a actualizar.", w)
  | Some current =>
  let v := normalizeUpdatePayload env data in
  match Validated.payload v with
  | None =>
      (OpResult.fail
         (nullish (Validated.error v) "Datos invalidos para actualizar expediente."), w)
  | Some payload =>
  if truthy_opt (Validated.error v) then
    (OpResult.fail
       (nullish (Validated.error v) "Datos invalidos para actualizar expediente."), w)
  else
  let duplicate :=
    match UpdateRow.folio payload with
    | Some folio =>
        truthy folio
        && existsb (fun item => negb (Expediente.id item =? id)
                                && same_folio (Expediente.folio item) folio)
                   expedientes
    | None => false
    end in
  if duplicate then
    (OpResult.fail ("El folio " ++ nullish (UpdateRow.folio payload) "" ++ " ya existe."), w)
  else
  let nextFechaPresentacion :=
    nullish (UpdateRow.fecha_presentacion payload) (Expediente.fecha_presentacion current) in
  let nextFechaMovimiento :=
    nullish (UpdateRow.fecha_ultimo_movimiento payload)
            (Expediente.fecha_ultimo_movimiento current) in
  if nextFechaMovimiento <? nextFechaPresentacion then
    (OpResult.fail
       "La fecha de ultimo movimiento no puede ser anterior a la fecha de presentacion.", w)
  else if isFutureDate env nextFechaMovimiento then
    (OpResult.fail "La fecha de ultimo movimiento no puede ser futura.", w)
  else
    let response := on_update be (World.calls w) id payload in
    let w := World.call (Update id payload) w in
    match response with
    | Failure code message =>
        (OpResult.fail (if code =? "23505" then "El folio ya existe en base de datos."
                        else message), w)
    | Data updated => (OpResult.mk None updated, fetchExpedientes be w)
    | Thrown =>
        (OpResult.fail "No se pudo actualizar el expediente por un error de red.", w)
    end
  end
  end.

(** The result of a deletion is its [error] alone. *)
Definition deleteExpediente (be : Backend) (id : string) (w : World.t)
  : option string * World.t :=
  if negb (isUuid id) then (Some "Identificador de expediente invalido.", w)
  else
    let response := on_delete be (World.calls w) id in
    let w := World.call (Delete id) w in
    match response with
    | Failure _ message => (Some message, w)
    | Data _ => (None, fetchExpedientes be w)
    | Thrown => (Some "No se pudo eliminar el expediente por un error de red.", w)
    end.

End Repository.

(* ================================================================== *)
(** ** context/NotificationsContext.tsx

    The provider that keeps the list in local storage.  The provider that
    keeps it in the backend computes the same lists, with the system key
    in a field of its own and a remote write after each change. *)
(* ================================================================== *)

Module Notifications.
Import Js.

Inductive NotificationType := success | warning | info | error.

Definition NotificationType_eqb (a b : NotificationType) : bool :=
  match a, b with
  | success, success | warning, warning | info, info | error, error => true
  | _, _ => false
  end.

(** A notification; [timestamp] is the time value of its [Date]. *)
Module Notification.
Record t := mk {
  id : string;
  type : NotificationType;
  title : string;
  message : string;
  read : bool;
  timestamp : Z
}.
End Notification.

(** The argument of [addNotification]. *)
Module AddInput.
Record t := mk { type : NotificationType; title : string; message : string }.
End AddInput.

(** The argument of [upsertSystemNotification]; [read] is optional. *)
Module UpsertInput.
Record t := mk {
  type : NotificationType;
  title : string;
  message : string;
  read : option bool
}.
End UpsertInput.

Definition MAX_NOTIFICATIONS : nat := 80.

(** [items.sort((a, b) => b.timestamp.getTime() - a.timestamp.getTime())]:
    newest first.  The sort of the language is stable, and the stable
    sort of a list is unique; it is computed here by insertion, an entry
    going before the first one that is not strictly newer. *)
Fixpoint insert_newest_first (x : Notification.t) (l : list Notification.t)
  : list Notification.t :=
  match l with
  | [] => [x]
  | y :: l' =>
      if (Notification.timestamp y >? Notification.timestamp x)%Z
      then y :: insert_newest_first x l'
      else x :: l
  end.

Definition sort_newest_first (l : list Notification.t) : list Notification.t :=
  fold_right insert_newest_first [] l.

(** [.sort(...).slice(0, MAX_NOTIFICATIONS)] *)
Definition retain (l : list Notification.t) : list Notification.t :=
  firstn MAX_NOTIFICATIONS (sort_newest_first l).

(** [loadNotifications]; [stored] is the parsed array of the local
    storage, [None] when it is missing or not an array. *)
Definition loadNotifications (stored : option (list Notification.t))
  : list Notification.t :=
  match stored with
  | None => []
  | Some items =>
      retain (filter (fun item => truthy (Notification.id item)
                                  && truthy (Notification.title item)
                                  && truthy (Notification.message item)) items)
  end.

(** [uuid] is the value drawn by [crypto.randomUUID()], [now] the time
    value of [new Date()]. *)
Definition addNotification (uuid : string) (now : Z) (n : AddInput.t)
           (prev : list Notification.t) : list Notification.t :=
  let notification :=
    Notification.mk uuid (AddInput.type n) (AddInput.title n) (AddInput.message n)
                    false now in
  retain (notification :: prev).

Definition has_id (id : string) (item : Notification.t) : bool :=
  Notification.id item =? id.

Definition rewrite_entry (id : string) (n : UpsertInput.t) (nextTimestamp : Z)
           (item : Notification.t) : Notification.t :=
  if negb (has_id id item) then item
  else Notification.mk (Notification.id item) (UpsertInput.type n)
                       (UpsertInput.title n) (UpsertInput.message n)
                       (nullish (UpsertInput.read n) false) nextTimestamp.

Definition contentChanged (found : Notification.t) (n : UpsertInput.t) : bool :=
  negb (Notification.title found =? UpsertInput.title n)
  || negb (Notification.message found =? UpsertInput.message n)
  || negb (NotificationType_eqb (Notification.type found) (UpsertInput.type n))
  || negb (Bool.eqb (Notification.read found)
                    (nullish (UpsertInput.read n) (Notification.read found))).

Definition upsertSystemNotification (now : Z) (id : string) (n : UpsertInput.t)
           (prev : list Notification.t) : list Notification.t :=
  let nextTimestamp := now in
  match find (has_id id) prev with
  | None =>
      let created :=
        Notification.mk id (UpsertInput.type n) (UpsertInput.title n)
                        (UpsertInput.message n)
                        (nullish (UpsertInput.read n) false) nextTimestamp in
      retain (created :: prev)
  | Some found =>
      if negb (contentChanged found n) then prev
      else retain (map (rewrite_entry id n nextTimestamp) prev)
  end.

Definition removeNotification (id : string) (prev : list Notification.t) :=
  filter (fun n => negb (has_id id n)) prev.

Definition mark (n : Notification.t) : Notification.t :=
  Notification.mk (Notification.id n) (Notification.type n) (Notification.title n)
                  (Notification.message n) true (Notification.timestamp n).

Definition markRead (id : string) (prev : list Notification.t) :=
  map (fun n => if has_id id n then mark n else n) prev.

Definition markAllRead (prev : list Notification.t) := map mark prev.

Definition clearAll (prev : list Notification.t) : list Notification.t := [].

(** The lists the provider can hold: the one loaded at start, and
    whatever the callbacks make of it. *)
Inductive reachable : list Notification.t -> Prop :=
| reach_load stored : reachable (loadNotifications stored)
| reach_add uuid now n l :
    reachable l -> reachable (addNotification uuid now n l)
| reach_upsert now id n l :
    reachable l -> reachable (upsertSystemNotification now id n l)
| reach_remove id l : reachable l -> reachable (removeNotification id l)
| reach_markRead id l : reachable l -> reachable (markRead id l)
| reach_markAllRead l : reachable l -> reachable (markAllRead l)
| reach_clearAll l : reachable l -> reachable (clearAll l).

(** A run of [addNotification]: each step with the identifier and the
    time value it drew. *)
Definition addMany (steps : list (string * Z * AddInput.t))
           (start : list Notification.t) : list Notification.t :=
  fold_left (fun l '(uuid, now, n) => addNotification uuid now n l) steps start.

(** The entries made by a run, the latest first. *)
Definition made (steps : list (string * Z * AddInput.t)) : list Notification.t :=
  rev (map (fun '(uuid, now, n) =>
              Notification.mk uuid (AddInput.type n) (AddInput.title n)
                              (AddInput.message n) false now) steps).

End Notifications.

(* ================================================================== *)
(** ** Status projections: dashboard, reports, list *)
(* ================================================================== *)

Module Panels.
Import Js.

(** components/dashboard/Dashboard.tsx *)
Definition normalizeEstado (value : string) : string :=
  let lower := toLowerCase value in
  if includes "integr" lower then "En integracion"
  else if includes "concili" lower then "En conciliacion"
  else value.

(** [counts[key] = (counts[key] ?? 0) + 1] on a [Record<string, number>]
    whose keys keep their insertion order. *)
Fixpoint bump (key : string) (counts : list (string * nat)) : list (string * nat) :=
  match counts with
  | [] => [(key, 1)]
  | (k, v) :: rest =>
      if k =? key then (k, v + 1) :: rest else (k, v) :: bump key rest
  end.

(** [estadoData] of the dashboard: [Object.entries(estadoCounts)]. *)
Definition estadoData (expedientes : list Expediente.t) : list (string * nat) :=
  fold_left (fun counts e => bump (normalizeEstado (Expediente.estado e)) counts)
            expedientes [].

(** components/reportes/Reportes.tsx: [reportData.byEstado].  [inPeriod]
    is the period test of the selected report on a creation time. *)
Definition byEstado (inPeriod : string -> bool) (expedientes : list Expediente.t)
  : list (string * nat) :=
  let enPeriodo := filter (fun item => inPeriod (Expediente.created_at item)) expedientes in
  fold_left (fun counts item => bump (Expediente.estado item) counts) enPeriodo [].

(** components/expedientes/ExpedientesList.tsx: [matchEstado]. *)
Definition matchEstado (filterEstado : string) (e : Expediente.t) : bool :=
  (filterEstado =? "Todos") || (Expediente.estado e =? filterEstado).

(** [abiertos] / [isOpenCase] *)
Definition abiertos (estado : string) : bool :=
  negb (existsb (String.eqb estado) ["Resuelta"; "Archivada"]).

End Panels.

(* ================================================================== *)
(** ** components/configuracion/Configuracion.tsx: backup import *)
(* ================================================================== *)

Module Configuracion.
Import Js Utils Repository.

#[local] Set Warnings "-register-all".

(** The value [JSON.parse] gives back (numbers restricted to integers;
    an object lists its members in the order of the text). *)
Inductive Json :=
| JNull
| JBool (b : bool)
| JNumber (n : Z)
| JString (s : string)
| JArray (items : list Json)
| JObject (members : list (string * Json)).

(** [String(value)] *)
Fixpoint String_of (v : Json) : string :=
  match v with
  | JNull => "null"
  | JBool true => "true"
  | JBool false => "false"
  | JNumber n => String_of_Z n
  | JString s => s
  | JArray items =>
      (fix join (l : list Json) : string :=
         match l with
         | [] => ""
         | x :: l' =>
             let head := match x with JNull => "" | _ => String_of x end in
             match l' with
             | [] => head
             | _ => head ++ "," ++ join l'
             end
         end) items
  | JObject _ => "[object Object]"
  end.

(** [record[key]]: the last member of that name, [None] for [undefined]. *)
Fixpoint prop (key : string) (members : list (string * Json)) : option Json :=
  match members with
  | [] => None
  | (k, v) :: rest =>
      match prop key rest with
      | Some later => Some later
      | None => if k =? key then Some v else None
      end
  end.

(** [value ?? fallback] on a property: [undefined] and [null] give way. *)
Definition orElse (value : option Json) (fallback : Json) : Json :=
  match value with
  | None | Some JNull => fallback
  | Some v => v
  end.

Definition MAX_BACKUP_FILE_BYTES : Z := 5 * 1024 * 1024.
Definition MAX_BACKUP_RECORDS : nat := 5000.

Definition sanitizeDate (env : Env) (value : Json) : string :=
  let fallback := todayISO env in
  match value with
  | JString value =>
      if (String.length value <? 10)%nat then fallback
      else
        match Date_parse env value with
        | None => fallback
        | Some maybeDate =>
            let normalized := isoDatePart maybeDate in
            if fallback <? normalized then fallback else normalized
        end
  | _ => fallback
  end.

Definition sanitizeEstado (value : Json) : string :=
  let normalized := match value with JString s => trim s | _ => "" end in
  if ESTADOS_includes normalized then normalized
  else if includes "integr" (toLowerCase normalized) then "En integración"
  else if includes "concili" (toLowerCase normalized) then "En conciliación"
  else if includes "archiv" (toLowerCase normalized) then "Archivada"
  else if includes "resuel" (toLowerCase normalized) then "Resuelta"
  else "Admitida".

(** The members of an item that passes [item && typeof item === 'object'];
    an array passes and has none of the names read. *)
Definition as_record (item : Json) : option (list (string * Json)) :=
  match item with
  | JObject members => Some members
  | JArray _ => Some []
  | _ => None
  end.

Definition parseRecord (env : Env) (fallbackVisitador : string) (item : Json)
  : option ExpedienteInsert.t :=
  match as_record item with
  | None => None
  | Some record =>
      let folio :=
        slice0 FIELD_LIMITS_folio
               (normalizeFolio (String_of (orElse (prop "folio" record) (JString "")))) in
      let fechaPresentacion :=
        sanitizeDate env (orElse (prop "fecha_presentacion" record) JNull) in
      let fechaUltimoMovimiento :=
        sanitizeDate env (orElse (prop "fecha_ultimo_movimiento" record)
                                 (JString fechaPresentacion)) in
      let tipoDerecho :=
        slice0 FIELD_LIMITS_tipoDerecho
               (normalizeWhitespace
                  (String_of (orElse (prop "tipo_derecho" record) (JString "Otro")))) in
      let autoridad :=
        slice0 FIELD_LIMITS_autoridad
               (normalizeWhitespace
                  (String_of (orElse (prop "autoridad_responsable" record)
                                     (JString "No especificada")))) in
      let visitador :=
        slice0 FIELD_LIMITS_visitador
               (normalizeWhitespace
                  (String_of (orElse (prop "visitador_asignado" record)
                                     (JString fallbackVisitador)))) in
      let estado := sanitizeEstado (orElse (prop "estado" record) JNull) in
      let notas :=
        slice0 FIELD_LIMITS_notas
               (trim (String_of (orElse (prop "notas_seguimiento" record) (JString "")))) in
      if negb (truthy folio) || negb (isValidFolio folio) || negb (truthy tipoDerecho)
         || negb (truthy autoridad) || negb (truthy visitador)
      then None
      else
        Some (ExpedienteInsert.mk folio fechaPresentacion tipoDerecho autoridad
                visitador (Some estado) (Some fechaUltimoMovimiento) (Some notas)
                (Some (String_of (orElse (prop "mes_registro" record)
                                         (JString (getMesRegistro env fechaPresentacion))))))
  end.

Definition backupSource (raw : Json) : list Json :=
  match raw with
  | JArray items => items
  | JObject members =>
      match prop "expedientes" members with
      | Some (JArray items) => items
      | _ => []
      end
  | _ => []
  end.

Fixpoint filter_map {A B} (f : A -> option B) (l : list A) : list B :=
  match l with
  | [] => []
  | x :: l' =>
      match f x with
      | Some y => y :: filter_map f l'
      | None => filter_map f l'
      end
  end.

(** [source.map(...).filter((item) => !!item)] *)
Definition parseBackupRecords (env : Env) (raw : Json) (fallbackVisitador : string)
  : list ExpedienteInsert.t :=
  filter_map (parseRecord env fallbackVisitador) (backupSource raw).

(** The counters of the import loop. *)
Record Tally := mkTally { imported : nat; skipped : nat; failed : nat }.

(** The [for] loop of [handleImportRespaldo].  [expedientes] is the
    snapshot captured at render time, the same for every
    [createExpediente] of the loop; [existingFolios] is the [Set]. *)
Fixpoint importLoop (env : Env) (be : Backend) (expedientes : list Expediente.t)
         (records : list ExpedienteInsert.t) (existingFolios : list string)
         (tally : Tally) (w : World.t) : Tally * World.t :=
  match records with
  | [] => (tally, w)
  | record :: rest =>
      let key := toUpperCase (ExpedienteInsert.folio record) in
      if existsb (String.eqb key) existingFolios then
        importLoop env be expedientes rest existingFolios
                   (mkTally (imported tally) (skipped tally + 1) (failed tally)) w
      else
        let '(result, w) := createExpediente env be expedientes record w in
        if truthy_opt (OpResult.error result) then
          importLoop env be expedientes rest existingFolios
                     (mkTally (imported tally) (skipped tally) (failed tally + 1)) w
        else
          importLoop env be expedientes rest (key :: existingFolios)
                     (mkTally (imported tally + 1) (skipped tally) (failed tally)) w
  end.

Definition report (t : Tally) : string :=
  "Importados: " ++ String_of_Z (Z.of_nat (imported t))
  ++ ". Omitidos: " ++ String_of_Z (Z.of_nat (skipped t))
  ++ ". Fallidos: " ++ String_of_Z (Z.of_nat (failed t)) ++ ".".

(** [/\.json$/i.test(name)] *)
Fixpoint endsWithJson (name : string) : bool :=
  (toLowerCase name =? ".json")
  || match name with
     | EmptyString => false
     | String _ rest => endsWithJson rest
     end.

(** What an import leaves behind: the counters when the loop ran, the
    notifications raised, and the provider state. *)
Record ImportOutcome := mkOutcome {
  tally : option Tally;
  raised : list Notifications.AddInput.t;
  world : World.t
}.

Definition notice := Notifications.AddInput.mk.

(** [handleImportRespaldo] for a chosen file: its name, its size, and
    the value of [JSON.parse] on its text ([None] when parsing throws). *)
Definition handleImportRespaldo (env : Env) (be : Backend)
           (visitadoresCatalog : list string)
           (name : string) (size : Z) (parsed : option Json)
           (w : World.t) : ImportOutcome :=
  if negb (endsWithJson name) then
    mkOutcome None
      [notice Notifications.error "Formato invalido" "Seleccione un archivo .json valido."] w
  else if (size >? MAX_BACKUP_FILE_BYTES)%Z then
    mkOutcome None
      [notice Notifications.error "Archivo demasiado grande"
              "El respaldo supera 5 MB. Dividalo en archivos mas pequenos."] w
  else
  match parsed with
  | None =>
      mkOutcome None
        [notice Notifications.error "Importacion fallida"
                "No se pudo leer el archivo JSON seleccionado."] w
  | Some parsed =>
      let parsedRecords :=
        parseBackupRecords env parsed
          (nullish (hd_error visitadoresCatalog) "Visitador General I") in
      let records := firstn MAX_BACKUP_RECORDS parsedRecords in
      let partial :=
        if (MAX_BACKUP_RECORDS <? List.length parsedRecords)%nat then
          [notice Notifications.warning "Importacion parcial"
                  "Se procesaron solo los primeros 5000 registros por seguridad."]
        else [] in
      if (List.length records =? 0)%nat then
        mkOutcome None
          (partial ++ [notice Notifications.warning "Archivo sin datos validos"
                              "El respaldo no contiene expedientes importables."]) w
      else
        let existingFolios :=
          map (fun item => toUpperCase (Expediente.folio item)) (World.expedientes w) in
        let '(t, w') :=
          importLoop env be (World.expedientes w) records existingFolios
                     (mkTally 0 0 0) w in
        let w' := fetchExpedientes be w' in
        mkOutcome (Some t)
          (partial ++ [notice (if (0 <? failed t)%nat then Notifications.warning
                               else Notifications.success)
                              "Importacion completada" (report t)])
          w'
  end.

End Configuracion.

(* ================================================================== *)
(** ** A reference environment and backend

    One concrete host, used to run the code on examples: dates are read
    in the ISO form [YYYY-MM-DD] (UTC) and [YYYY-MM-DDT00:00:00] (local
    time), the local clock is a fixed offset from UTC, and the backend is
    a table in memory with the unique index on [upper(folio)]. *)
(* ================================================================== *)

Module Sample.
Import Js Repository.

Fixpoint number_from (acc : Z) (s : string) : option Z :=
  match s with
  | EmptyString => Some acc
  | String c s' =>
      if is_digit c then number_from (10 * acc + Z.of_N (code c) - 48)%Z s'
      else None
  end.

Definition number (s : string) : option Z :=
  match s with
  | EmptyString => None
  | _ => number_from 0 s
  end.

(** [offset] is local time minus UTC, in milliseconds. *)
Definition parseISO (offset : Z) (s : string) : option Z :=
  let date := substring 0 10 s in
  let rest := substring 10 (String.length s - 10) s in
  if negb ((substring 4 1 date =? "-") && (substring 7 1 date =? "-")) then None
  else
    match number (substring 0 4 date), number (substring 5 2 date),
          number (substring 8 2 date) with
    | Some y, Some m, Some d =>
        let days := days_from_civil y m d in
        if negb ((1 <=? m) && (m <=? 12) && (1 <=? d))%Z then None
        else if negb (snd (civil_from_days days) =? d)%Z then None
        else if rest =? "" then Some (days * msPerDay)%Z
        else if rest =? "T00:00:00" then Some (days * msPerDay - offset)%Z
        else None
    | _, _, _ => None
    end.

Definition MESES : list string :=
  [ "enero"; "febrero"; "marzo"; "abril"; "mayo"; "junio"; "julio";
    "agosto"; "septiembre"; "octubre"; "noviembre"; "diciembre" ].

Definition env_at (now offset : Z) : Env :=
  mkEnv (parseISO offset) now
        (fun t => ((t + offset) / msPerDay * msPerDay - offset)%Z)
        (fun t => nth (Z.to_nat (getUTCMonth (t + offset))) MESES ""
                  ++ " de " ++ String_of_Z (getUTCFullYear (t + offset))).

(** Noon UTC of 2 November 2026, in a zone eight hours behind UTC. *)
Definition noon : Z := (days_from_civil 2026 11 2 * msPerDay + 12 * 3600000)%Z.
Definition pacific : Z := (- 8 * 3600000)%Z.
Definition env : Env := env_at noon pacific.

(** Half past seven in the evening of the same local day: the UTC date
    is already 3 November. *)
Definition evening : Z := (days_from_civil 2026 11 3 * msPerDay + 3 * 3600000 + 1800000)%Z.
Definition env_evening : Env := env_at evening pacific.

(** *** The table in memory *)

Definition rowId (n : nat) : string :=
  "00000000-0000-4000-8000-" ++ padStart 12 "0" (String_of_Z (Z.of_nat n)).

Definition stamp : string := "2026-11-02T12:00:00.000Z".

Definition rowOf (n : nat) (p : InsertRow.t) : Expediente.t :=
  Expediente.mk (rowId n) (InsertRow.folio p) (InsertRow.fecha_presentacion p)
    (InsertRow.tipo_derecho p) (InsertRow.autoridad_responsable p)
    (InsertRow.visitador_asignado p) (InsertRow.estado p)
    (InsertRow.fecha_ultimo_movimiento p) (InsertRow.notas_seguimiento p)
    (InsertRow.mes_registro p) stamp stamp.

Definition patch (p : UpdateRow.t) (e : Expediente.t) : Expediente.t :=
  Expediente.mk (Expediente.id e)
    (nullish (UpdateRow.folio p) (Expediente.folio e))
    (nullish (UpdateRow.fecha_presentacion p) (Expediente.fecha_presentacion e))
    (nullish (UpdateRow.tipo_derecho p) (Expediente.tipo_derecho e))
    (nullish (UpdateRow.autoridad_responsable p) (Expediente.autoridad_responsable e))
    (nullish (UpdateRow.visitador_asignado p) (Expediente.visitador_asignado e))
    (nullish (UpdateRow.estado p) (Expediente.estado e))
    (nullish (UpdateRow.fecha_ultimo_movimiento p) (Expediente.fecha_ultimo_movimiento e))
    (nullish (UpdateRow.notas_seguimiento p) (Expediente.notas_seguimiento e))
    (nullish (UpdateRow.mes_registro p) (Expediente.mes_registro e))
    (Expediente.created_at e) stamp.

Definition taken (folio : string) (table : list Expediente.t) : bool :=
  existsb (fun e => same_folio (Expediente.folio e) folio) table.

(** The rows after one more call, the newest first. *)
Definition apply (table : list Expediente.t) (r : Request) : list Expediente.t :=
  match r with
  | Insert p =>
      if taken (InsertRow.folio p) table then table
      else rowOf (List.length table) p :: table
  | Update id p =>
      map (fun e => if Expediente.id e =? id then patch p e else e) table
  | Delete id => filter (fun e => negb (Expediente.id e =? id)) table
  | SelectAll => table
  end.

Definition tableAfter (initial : list Expediente.t) (calls : list Request)
  : list Expediente.t :=
  fold_left apply calls initial.

Definition memory (initial : list Expediente.t) : Backend :=
  mkBackend
    (fun calls p =>
       let table := tableAfter initial calls in
       if taken (InsertRow.folio p) table then
         Failure "23505" "duplicate key value violates unique constraint"
       else Data (Some (rowOf (List.length table) p)))
    (fun calls id p =>
       Data (option_map (patch p)
               (find (fun e => Expediente.id e =? id) (tableAfter initial calls))))
    (fun calls id => Data tt)
    (fun calls => Data (Some (tableAfter initial calls))).

Definition start (initial : list Expediente.t) : World.t :=
  World.mk initial false None true [].

(** A stored case with the given identifier, folio and status. *)
Definition caseOf (id folio estado : string) : Expediente.t :=
  Expediente.mk id folio "2026-01-15" "Derecho a la Salud" "Secretaria de Salud"
                "Visitador General I" estado "2026-01-15" "" "enero de 2026"
                "2026-01-15T18:00:00.000Z" "2026-01-15T18:00:00.000Z".

(** A creation input with the given folio and dates. *)
Definition inputOf (folio fecha : string) (movimiento : option string)
  : ExpedienteInsert.t :=
  ExpedienteInsert.mk folio fecha "Derecho a la Salud" "Secretaria de Salud"
                      "Visitador General I" None movimiento None None.

Definition noPatch : ExpedienteUpdate.t :=
  ExpedienteUpdate.mk None None None None None None None None None.

(** The first scenario: a case filed on 15 January 2026. *)
Definition firstInput : ExpedienteInsert.t :=
  inputOf "cedhbc 2026 001" "2026-01-15" None.

Definition firstRow : InsertRow.t :=
  InsertRow.mk "CEDHBC-2026-001" "2026-01-15" "Derecho a la Salud"
               "Secretaria de Salud" "Visitador General I" "Admitida"
               "2026-01-15" "" "enero de 2026".

Definition firstCase : Expediente.t :=
  caseOf (rowId 0) "CEDHBC-2026-001" "Admitida".

(** The second scenario: the status alone is patched. *)
Definition resolve : ExpedienteUpdate.t :=
  ExpedienteUpdate.mk None None None None None (Some "Resuelta") None None None.

Definition resolved (today : string) : UpdateRow.t :=
  UpdateRow.mk None None None None None (Some "Resuelta") (Some today) None None.

(** An identifier of version 7: well formed for the column type of the
    table, outside the versions [isUuid] admits. *)
Definition idV7 : string := "018f4e2a-7b3c-7d2e-9f10-3a5b6c7d8e9f".

(** A patch that moves the last movement before the filing date of the
    first case. *)
Definition backdate : ExpedienteUpdate.t :=
  ExpedienteUpdate.mk None None None None None None (Some "2026-01-10") None None.

(** *** Notifications *)

(** One hundred additions, one per millisecond. *)
Definition hundred : list (string * Z * Notifications.AddInput.t) :=
  map (fun i => (rowId i, Z.of_nat i,
                 Notifications.AddInput.mk Notifications.info "Aviso" "Mensaje"))
      (seq 0 100).

(** The two system notices of the layout, with the count they report. *)
Definition staleCases (count : string) : Notifications.UpsertInput.t :=
  Notifications.UpsertInput.mk Notifications.warning "Casos sin movimiento"
    ("Hay " ++ count ++ " expedientes con mas de 30 dias sin actualizacion.") None.

Definition createdToday (count : string) : Notifications.UpsertInput.t :=
  Notifications.UpsertInput.mk Notifications.info "Nuevos expedientes hoy"
    ("Se registraron " ++ count ++ " expedientes durante el dia.") None.

(** One pass of the layout effect at time [now]: the stale notice, then
    the notice of the cases created today. *)
Definition layoutPass (now : Z) (stale created : string)
           (l : list Notifications.Notification.t) : list Notifications.Notification.t :=
  Notifications.upsertSystemNotification now "system-created-today" (createdToday created)
    (Notifications.upsertSystemNotification now "system-stale-cases" (staleCases stale) l).

(** *** A backup file *)

Definition backupItem (folio : string) : Configuracion.Json :=
  Configuracion.JObject
    [ ("folio", Configuracion.JString folio);
      ("fecha_presentacion", Configuracion.JString "2026-01-15");
      ("tipo_derecho", Configuracion.JString "Derecho a la Salud");
      ("autoridad_responsable", Configuracion.JString "Secretaria de Salud");
      ("visitador_asignado", Configuracion.JString "Visitador General I");
      ("estado", Configuracion.JString "Admitida");
      ("fecha_ultimo_movimiento", Configuracion.JString "2026-01-15");
      ("notas_seguimiento", Configuracion.JString "");
      ("mes_registro", Configuracion.JString "enero de 2026") ].

(** Ten records: the first two carry folios of stored cases, the fifth a
    folio that is not of the required form. *)
Definition backup : Configuracion.Json :=
  Configuracion.JObject
    [ ("expedientes",
       Configuracion.JArray
         (map backupItem
              [ "CEDHBC-2026-001"; "cedhbc-2026-002"; "CEDHBC-2026-003";
                "CEDHBC-2026-004"; "EXP-2026-5"; "CEDHBC-2026-006";
                "CEDHBC-2026-007"; "CEDHBC-2026-008"; "CEDHBC-2026-009";
                "CEDHBC-2026-010" ]));
      ("exportedAt", Configuracion.JString "2026-11-01T10:00:00.000Z") ].

Definition stored : list Expediente.t :=
  [ caseOf (rowId 1) "CEDHBC-2026-002" "Admitida";
    caseOf (rowId 0) "CEDHBC-2026-001" "Admitida" ].

(** Eighty entries stamped later than the clock will read. *)
Definition ahead : list Notifications.Notification.t :=
  map (fun i => Notifications.Notification.mk (rowId i) Notifications.info
                  "Aviso" "Mensaje" false 5000)
      (seq 0 80).

(** *** Dates out of the ordinary *)

(** A creation whose last movement lies a thousand years before its
    filing date. *)
Definition ancient : ExpedienteInsert.t :=
  inputOf "CEDHBC-2024-001" "2024-01-15" (Some "0999-01-01").

Definition ancientRow : InsertRow.t :=
  InsertRow.mk "CEDHBC-2024-001" "2024-01-15" "Derecho a la Salud"
               "Secretaria de Salud" "Visitador General I" "Admitida"
               "999-01-01" "" "enero de 2024".

(** The same creation with a last movement five days before the filing
    date. *)
Definition fiveDaysBefore : ExpedienteInsert.t :=
  inputOf "CEDHBC-2024-001" "2024-01-15" (Some "2024-01-10").

(** A patch that moves the last movement of a case to the year 999. *)
Definition ancientPatch : ExpedienteUpdate.t :=
  ExpedienteUpdate.mk None None None None None None (Some "0999-01-01") None None.

Definition ancientUpdate : UpdateRow.t :=
  UpdateRow.mk None None None None None None (Some "999-01-01") None None.

(** The same noon in a zone eight hours ahead of UTC. *)
Definition east : Z := (8 * 3600000)%Z.
Definition env_east : Env := env_at noon east.

(** Resolving a case with the date of 20 October, written with its
    local midnight. *)
Definition resolveDated : ExpedienteUpdate.t :=
  ExpedienteUpdate.mk None None None None None (Some "Resuelta")
                      (Some "2026-10-20T00:00:00") None None.

(** The date of the local calendar in a zone of the given offset. *)
Definition localDate (now offset : Z) : string := isoDatePart (now + offset).

(** *** A backup file with a record that fails *)

Definition backupItemDated (folio fecha movimiento : string) : Configuracion.Json :=
  Configuracion.JObject
    [ ("folio", Configuracion.JString folio);
      ("fecha_presentacion", Configuracion.JString fecha);
      ("tipo_derecho", Configuracion.JString "Derecho a la Salud");
      ("autoridad_responsable", Configuracion.JString "Secretaria de Salud");
      ("visitador_asignado", Configuracion.JString "Visitador General I");
      ("estado", Configuracion.JString "Admitida");
      ("fecha_ultimo_movimiento", Configuracion.JString movimiento);
      ("notas_seguimiento", Configuracion.JString "");
      ("mes_registro", Configuracion.JString "enero de 2026") ].

(** Ten records: the first two carry folios of stored cases, the fourth
    a last movement before its filing date, the fifth a folio that is not
    of the required form. *)
Definition backupWithFailure : Configuracion.Json :=
  Configuracion.JArray
    [ backupItem "CEDHBC-2026-001"; backupItem "cedhbc-2026-002";
      backupItem "CEDHBC-2026-003";
      backupItemDated "CEDHBC-2026-004" "2026-01-15" "2026-01-10";
      backupItem "EXP-2026-5"; backupItem "CEDHBC-2026-006";
      backupItem "CEDHBC-2026-007"; backupItem "CEDHBC-2026-008";
      backupItem "CEDHBC-2026-009"; backupItem "CEDHBC-2026-010" ].

(** A table that already holds a case the snapshot does not show. *)
Definition unseen : list Expediente.t :=
  [ caseOf (rowId 2) "CEDHBC-2026-003" "Admitida";
    caseOf (rowId 1) "CEDHBC-2026-002" "Admitida";
    caseOf (rowId 0) "CEDHBC-2026-001" "Admitida" ].

End Sample.

(* ================================================================== *)
(** ** Vocabulary of the statements *)
(* ================================================================== *)

Import Js Utils Validators Repository.

(** The characters of a normalised folio: no white space, no slash, no
    lower-case letter. *)
Definition folio_char (c : ascii) : bool :=
  negb (is_space_or_slash c) && Ascii.eqb (upper_char c) c.

Definition bindo {A B} (o : option A) (f : A -> option B) : option B :=
  match o with
  | Some a => f a
  | None => None
  end.

Definition put (set : string -> UpdateRow.t -> UpdateRow.t) (o : option string)
           (p : UpdateRow.t) : UpdateRow.t :=
  match o with
  | Some v => set v p
  | None => p
  end.

(** The payload the nine field blocks build when none of them fails. *)
Definition filled (env : Env) (data : ExpedienteUpdate.t) : UpdateRow.t :=
  put UpdateRow.set_mes_registro
      (option_map (fun v => truncateText v 60) (ExpedienteUpdate.mes_registro data))
  (put UpdateRow.set_fecha_ultimo_movimiento
      (bindo (ExpedienteUpdate.fecha_ultimo_movimiento data) (normalizeDateOnly env))
  (put UpdateRow.set_notas_seguimiento
      (option_map (fun v => slice0 FIELD_LIMITS_notas (trim v))
                  (ExpedienteUpdate.notas_seguimiento data))
  (put UpdateRow.set_estado (ExpedienteUpdate.estado data)
  (put UpdateRow.set_visitador_asignado
      (option_map (fun v => truncateText v FIELD_LIMITS_visitador)
                  (ExpedienteUpdate.visitador_asignado data))
  (put UpdateRow.set_autoridad_responsable
      (option_map (fun v => truncateText v FIELD_LIMITS_autoridad)
                  (ExpedienteUpdate.autoridad_responsable data))
  (put UpdateRow.set_tipo_derecho
      (option_map (fun v => truncateText v FIELD_LIMITS_tipoDerecho)
                  (ExpedienteUpdate.tipo_derecho data))
  (put (fun d q => UpdateRow.set_mes_registro (getMesRegistro env d)
                     (UpdateRow.set_fecha_presentacion d q))
      (bindo (ExpedienteUpdate.fecha_presentacion data) (normalizeDateOnly env))
  (put UpdateRow.set_folio
      (option_map (fun v => slice0 FIELD_LIMITS_folio (normalizeFolio v))
                  (ExpedienteUpdate.folio data))
      UpdateRow.empty)))))))).

(** A date block of the update validator keeps the date only when it
    parses and is not in the future. *)
Definition date_ok (env : Env) (field : option string) : Prop :=
  match field with
  | None => True
  | Some value =>
      exists d, normalizeDateOnly env value = Some d /\ isFutureDate env d = false
  end.

(** An operation that stopped before the network: it reports a reason and
    leaves the provider as it was, calls included. *)
Definition stopped_locally {R} (fail : string -> R) (w : World.t)
           (out : R * World.t) : Prop :=
  exists reason, out = (fail reason, w).

(** Newest first: every entry is at least as recent as those after it. *)
Definition newest_first (l : list Notifications.Notification.t) : Prop :=
  StronglySorted
    (fun a b => (Notifications.Notification.timestamp b
                 <= Notifications.Notification.timestamp a)%Z) l.

(** The number of entries that carry a key. *)
Definition entries_with (id : string) (l : list Notifications.Notification.t) : nat :=
  List.length (filter (Notifications.has_id id) l).

(** The entries a truncation leaves out. *)
Definition dropped (l : list Notifications.Notification.t)
  : list Notifications.Notification.t :=
  skipn Notifications.MAX_NOTIFICATIONS (Notifications.sort_newest_first l).

(** The records an import has counted. *)
Definition counted (t : Configuracion.Tally) : nat :=
  Configuracion.imported t + Configuracion.skipped t + Configuracion.failed t.

(** The three classes of a record of an import. *)
Inductive Verdict := Imported | Skipped | Failed.

Definition Verdict_eqb (a b : Verdict) : bool :=
  match a, b with
  | Imported, Imported | Skipped, Skipped | Failed, Failed => true
  | _, _ => false
  end.

(** The class of one record and the provider after it: the record is
    skipped, and nothing is done, when its folio in upper case is among
    the folios [seen] (those of the snapshot and of the records imported
    before it); otherwise its creation is attempted, and the record is
    failed when the creation reports an error and imported when it does
    not. *)
Definition verdict (env : Env) (be : Backend) (expedientes : list Expediente.t)
           (seen : list string) (w : World.t) (record : ExpedienteInsert.t)
  : Verdict * World.t :=
  if existsb (String.eqb (toUpperCase (ExpedienteInsert.folio record))) seen
  then (Skipped, w)
  else
    let out := createExpediente env be expedientes record w in
    (if truthy_opt (OpResult.error (fst out)) then Failed else Imported, snd out).

(** The folios seen after a record. *)
Definition seen_after (v : Verdict) (record : ExpedienteInsert.t) (seen : list string)
  : list string :=
  match v with
  | Imported => toUpperCase (ExpedienteInsert.folio record) :: seen
  | _ => seen
  end.

(** The classes of the records of a run, one for each, in order. *)
Fixpoint verdicts (env : Env) (be : Backend) (expedientes : list Expediente.t)
         (records : list ExpedienteInsert.t) (seen : list string) (w : World.t)
  : list Verdict :=
  match records with
  | [] => []
  | record :: rest =>
      let out := verdict env be expedientes seen w record in
      fst out :: verdicts env be expedientes rest (seen_after (fst out) record seen)
                          (snd out)
  end.

Definition count_of (v : Verdict) (vs : list Verdict) : nat :=
  List.length (filter (Verdict_eqb v) vs).

(** The counters after the records of the given classes. *)
Definition tallied (t : Configuracion.Tally) (vs : list Verdict) : Configuracion.Tally :=
  Configuracion.mkTally
    (Configuracion.imported t + count_of Imported vs)
    (Configuracion.skipped t + count_of Skipped vs)
    (Configuracion.failed t + count_of Failed vs).

(** *** Proof steps *)

(** Reduce the projections of a validator result. *)
Ltac reduce_validated :=
  cbn [Validated.payload Validated.error Validated.fail Validated.ok negb].

(** Open a field block of the update validator: the field is absent, and
    the payload unchanged, or it has a value. *)
Ltac open_step :=
  unfold on_field; intros p p';
  match goal with
  | |- context [match ?field with Some _ => _ | None => _ end] =>
      destruct field as [value|]; cbn [option_map bindo put]
  end;
  [| now intros [= <-]].

(* ================================================================== *)
(** ** Exports: lib/utils.ts and components/reportes/Reportes.tsx *)
(* ================================================================== *)

Module Sheets.

(** [code <= 31 || code === 127] *)
Definition is_control (char : ascii) : bool :=
  (code char <=? 31)%N || (code char =? 127)%N.

(** The class [[=+\-@]]. *)
Definition formula_lead (c : ascii) : bool :=
  Ascii.eqb c "=" || Ascii.eqb c "+" || Ascii.eqb c "-" || Ascii.eqb c "@".

(** [/^[cls]/.test(s)] *)
Definition starts_with (cls : ascii -> bool) (s : string) : bool :=
  match s with
  | String c _ => cls c
  | EmptyString => false
  end.

(** lib/utils.ts *)
Definition sanitizeSpreadsheetCell (value : string) : string :=
  let normalized :=
    trim (map_str (fun char => if is_control char then " "%char else char) value) in
  if negb (truthy normalized) then ""
  else if starts_with formula_lead normalized then String "'" normalized
  else normalized.

(** [s.replace(/c/g, rep)] for one character [c]. *)
Fixpoint replace_char (c : ascii) (rep : string) (s : string) : string :=
  match s with
  | EmptyString => EmptyString
  | String x s' =>
      (if Ascii.eqb x c then rep else String x EmptyString) ++ replace_char c rep s'
  end.

(** The double quote. *)
Definition dquote : ascii := "034"%char.

(** [csvEscape] of the report page, on [String(value)]; the list page
    builds its cells with the same expression. *)
Definition csvEscape (value : string) : string :=
  let safe := sanitizeSpreadsheetCell value in
  String dquote
    (replace_char dquote (String dquote (String dquote EmptyString)) safe
     ++ String dquote EmptyString).

Definition xmlEscape (value : string) : string :=
  replace_char "'" "&apos;"
    (replace_char dquote "&quot;"
       (replace_char ">" "&gt;"
          (replace_char "<" "&lt;"
             (replace_char "&" "&amp;" value)))).

End Sheets.

(* ================================================================== *)
(** ** components/reportes/Reportes.tsx: the period of a report *)
(* ================================================================== *)

Module Reportes.

Inductive ReportType := mensual | trimestral | anual.

(** [inPeriod(date)].  [date] is the pair [(getYear(date), getMonth(date))]
    of the local calendar, [None] for an invalid date, whose fields are
    [NaN]. *)
Definition inPeriod (reportType : ReportType) (selectedMonth selectedYear : Z)
           (date : option (Z * Z)) : bool :=
  match date with
  | None => false
  | Some (y, m) =>
      match reportType with
      | anual => (y =? selectedYear)%Z
      | trimestral =>
          let quarterStart := (selectedMonth / 3 * 3)%Z in
          (y =? selectedYear)%Z && (m >=? quarterStart)%Z && (m <=? quarterStart + 2)%Z
      | mensual => (y =? selectedYear)%Z && (m =? selectedMonth)%Z
      end
  end.

(** [reportData.enPeriodo]; [calendar] gives the local year and month of
    [new Date(created_at)]. *)
Definition enPeriodo (calendar : string -> option (Z * Z)) (reportType : ReportType)
           (selectedMonth selectedYear : Z) (expedientes : list Expediente.t)
  : list Expediente.t :=
  filter (fun item => inPeriod reportType selectedMonth selectedYear
                               (calendar (Expediente.created_at item)))
         expedientes.

Definition resueltos (enPeriodo : list Expediente.t) : nat :=
  List.length (filter (fun item => Expediente.estado item =? "Resuelta") enPeriodo).

Definition pendientes (enPeriodo : list Expediente.t) : nat :=
  List.length enPeriodo - resueltos enPeriodo.

End Reportes.

(* ================================================================== *)
(** ** Array built-ins with an index *)
(* ================================================================== *)

Module Arrays.

(** [items.findIndex(p)]; [None] stands for [-1]. *)
Fixpoint findIndex {A} (p : A -> bool) (items : list A) : option nat :=
  match items with
  | [] => None
  | item :: rest =>
      if p item then Some 0%nat else option_map S (findIndex p rest)
  end.

(** [items.map((item, idx) => f idx item)] *)
Fixpoint mapi_from {A B} (idx : nat) (f : nat -> A -> B) (items : list A) : list B :=
  match items with
  | [] => []
  | item :: rest => f idx item :: mapi_from (S idx) f rest
  end.

Definition mapi {A B} (f : nat -> A -> B) (items : list A) : list B :=
  mapi_from 0 f items.

(** [items.filter((item, idx) => p idx item)] *)
Fixpoint filteri_from {A} (idx : nat) (p : nat -> A -> bool) (items : list A) : list A :=
  match items with
  | [] => []
  | item :: rest =>
      if p idx item then item :: filteri_from (S idx) p rest
      else filteri_from (S idx) p rest
  end.

Definition filteri {A} (p : nat -> A -> bool) (items : list A) : list A :=
  filteri_from 0 p items.

(** [items.some((item, idx) => p idx item)] *)
Fixpoint somei_from {A} (idx : nat) (p : nat -> A -> bool) (items : list A) : bool :=
  match items with
  | [] => false
  | item :: rest => p idx item || somei_from (S idx) p rest
  end.

Definition somei {A} (p : nat -> A -> bool) (items : list A) : bool :=
  somei_from 0 p items.

End Arrays.

(* ================================================================== *)
(** ** context/ProductivityContext.tsx

    The state the provider keeps in memory.  Each change is followed by a
    write to the backend, which does not touch the state. *)
(* ================================================================== *)

Module Productivity.
Import Arrays.

Module NextAction.
Record t := mk {
  expedienteId : string;
  text : string;
  dueDate : string;
  completed : bool;
  updatedAt : string;
  completedAt : option string
}.
End NextAction.

(** A [Record<string, V>]: the keys in their insertion order.  The keys
    are identifiers of cases; the properties every object inherits are
    left out. *)
Fixpoint get {V} (key : string) (record : list (string * V)) : option V :=
  match record with
  | [] => None
  | (k, v) :: rest => if k =? key then Some v else get key rest
  end.

(** [{ ...record, [key]: value }] *)
Fixpoint assign {V} (key : string) (value : V) (record : list (string * V))
  : list (string * V) :=
  match record with
  | [] => [(key, value)]
  | (k, v) :: rest =>
      if k =? key then (k, value) :: rest else (k, v) :: assign key value rest
  end.

(** [delete record[key]] *)
Definition delete {V} (key : string) (record : list (string * V)) : list (string * V) :=
  filter (fun entry => negb (fst entry =? key)) record.

Definition asDateOnly (env : Env) (value : string) : string :=
  nullish (normalizeDateOnly env value) (todayISO env).

(** The effect that forgets the actions of cases no longer in the
    snapshot. *)
Definition prune (expedientes : list Expediente.t)
           (prev : list (string * NextAction.t)) : list (string * NextAction.t) :=
  let validExpIds := map Expediente.id expedientes in
  let entries := filter (fun entry => existsb (String.eqb (fst entry)) validExpIds) prev in
  if (List.length entries =? List.length prev)%nat then prev else entries.

Definition getNextAction (nextActions : list (string * NextAction.t))
           (expedienteId : string) : option NextAction.t :=
  get expedienteId nextActions.

(** The argument of [setNextAction]; [completed] is optional. *)
Module ActionInput.
Record t := mk { text : string; dueDate : string; completed : option bool }.
End ActionInput.

(** [nowIso] is [new Date().toISOString()]. *)
Definition setNextAction (env : Env) (session : bool) (nowIso : string)
           (expedienteId : string) (payload : ActionInput.t)
           (prev : list (string * NextAction.t)) : list (string * NextAction.t) :=
  if negb session then prev
  else
    let text := slice0 220 (normalizeWhitespace (ActionInput.text payload)) in
    if negb (truthy text) then prev
    else
      let dueDate := asDateOnly env (ActionInput.dueDate payload) in
      let completed := nullish (ActionInput.completed payload) false in
      let optimistic :=
        NextAction.mk expedienteId text dueDate completed nowIso
                      (if completed then Some nowIso else None) in
      assign expedienteId optimistic prev.

Definition toggleNextActionCompleted (session : bool) (nowIso : string)
           (expedienteId : string) (completed : bool)
           (prev : list (string * NextAction.t)) : list (string * NextAction.t) :=
  if negb session then prev
  else
    match get expedienteId prev with
    | None => prev
    | Some current =>
        let next :=
          NextAction.mk (NextAction.expedienteId current) (NextAction.text current)
                        (NextAction.dueDate current) completed nowIso
                        (if completed then Some nowIso else None) in
        assign expedienteId next prev
    end.

Definition removeNextAction (session : bool) (expedienteId : string)
           (prev : list (string * NextAction.t)) : list (string * NextAction.t) :=
  if negb session then prev
  else
    match get expedienteId prev with
    | None => prev
    | Some _ => delete expedienteId prev
    end.

(** *** Templates and saved filters *)

Module ExpedienteTemplate.
Record t := mk {
  id : string;
  name : string;
  tipo_derecho : string;
  autoridad_responsable : string;
  visitador_asignado : string;
  estado : string;
  notas_seguimiento : string;
  next_action_text : string;
  next_action_offset_days : Z
}.
End ExpedienteTemplate.

(** The argument of [saveTemplate]: a template whose [id] is optional. *)
Module TemplateInput.
Record t := mk {
  id : option string;
  name : string;
  tipo_derecho : string;
  autoridad_responsable : string;
  visitador_asignado : string;
  estado : string;
  notas_seguimiento : string;
  next_action_text : string;
  next_action_offset_days : Z
}.
End TemplateInput.

(** The template [saveTemplate] builds; [uuid] is the value drawn by
    [crypto.randomUUID()]. *)
Definition templateOf (uuid : string) (payload : TemplateInput.t)
  : ExpedienteTemplate.t :=
  let estado :=
    if ESTADOS_includes (TemplateInput.estado payload) then TemplateInput.estado payload
    else "Admitida" in
  ExpedienteTemplate.mk
    (nullish (TemplateInput.id payload) uuid)
    (slice0 80 (normalizeWhitespace (TemplateInput.name payload)))
    (slice0 120 (normalizeWhitespace (TemplateInput.tipo_derecho payload)))
    (slice0 160 (normalizeWhitespace (TemplateInput.autoridad_responsable payload)))
    (slice0 120 (normalizeWhitespace (TemplateInput.visitador_asignado payload)))
    estado
    (slice0 2500 (trim (TemplateInput.notas_seguimiento payload)))
    (slice0 220 (normalizeWhitespace (TemplateInput.next_action_text payload)))
    (Z.max 0 (Z.min 180 (TemplateInput.next_action_offset_days payload))).

Definition saveTemplate (uuid : string) (payload : TemplateInput.t)
           (templates : list ExpedienteTemplate.t) : list ExpedienteTemplate.t :=
  let template := templateOf uuid payload in
  if negb (truthy (ExpedienteTemplate.name template))
     || negb (truthy (ExpedienteTemplate.tipo_derecho template))
     || negb (truthy (ExpedienteTemplate.autoridad_responsable template))
     || negb (truthy (ExpedienteTemplate.visitador_asignado template))
  then templates
  else
    match findIndex (fun item => ExpedienteTemplate.id item
                                 =? ExpedienteTemplate.id template) templates with
    | None => firstn 24 (template :: templates)
    | Some index =>
        mapi (fun idx item => if (idx =? index)%nat then template else item) templates
    end.

Definition deleteTemplate (id : string) (templates : list ExpedienteTemplate.t)
  : list ExpedienteTemplate.t :=
  filter (fun item => negb (ExpedienteTemplate.id item =? id)) templates.

Inductive FechaFilter := todos | este_mes | ultimo_mes | este_anio.

Module SavedExpedienteFilter.
Record t := mk {
  id : string;
  name : string;
  search : string;
  estado : string;
  visitador : string;
  fecha : FechaFilter;
  dateFrom : string;
  dateTo : string;
  staleOnly : bool;
  withoutNextAction : bool
}.
End SavedExpedienteFilter.

Module FilterInput.
Record t := mk {
  id : option string;
  name : string;
  search : string;
  estado : string;
  visitador : string;
  fecha : FechaFilter;
  dateFrom : string;
  dateTo : string;
  staleOnly : bool;
  withoutNextAction : bool
}.
End FilterInput.

(** [value || fallback] on a text. *)
Definition orText (value fallback : string) : string :=
  if truthy value then value else fallback.

Definition filterOf (env : Env) (uuid : string) (payload : FilterInput.t)
  : SavedExpedienteFilter.t :=
  SavedExpedienteFilter.mk
    (nullish (FilterInput.id payload) uuid)
    (slice0 80 (normalizeWhitespace (FilterInput.name payload)))
    (slice0 120 (trim (FilterInput.search payload)))
    (orText (FilterInput.estado payload) "Todos")
    (orText (FilterInput.visitador payload) "Todos")
    (FilterInput.fecha payload)
    (nullish (normalizeDateOnly env (orText (FilterInput.dateFrom payload) "")) "")
    (nullish (normalizeDateOnly env (orText (FilterInput.dateTo payload) "")) "")
    (FilterInput.staleOnly payload)
    (FilterInput.withoutNextAction payload).

Definition saveFilter (env : Env) (uuid : string) (payload : FilterInput.t)
           (savedFilters : list SavedExpedienteFilter.t)
  : list SavedExpedienteFilter.t :=
  let filter := filterOf env uuid payload in
  if negb (truthy (SavedExpedienteFilter.name filter)) then savedFilters
  else
    match findIndex (fun item => SavedExpedienteFilter.id item
                                 =? SavedExpedienteFilter.id filter) savedFilters with
    | None => firstn 20 (filter :: savedFilters)
    | Some index =>
        mapi (fun idx item => if (idx =? index)%nat then filter else item) savedFilters
    end.

Definition deleteFilter (id : string) (savedFilters : list SavedExpedienteFilter.t)
  : list SavedExpedienteFilter.t :=
  filter (fun item => negb (SavedExpedienteFilter.id item =? id)) savedFilters.

(** *** The catalogue of handlers *)

(** [VISITADORES] of lib/utils.ts *)
Definition VISITADORES : list string :=
  [ "Visitador General I"; "Visitador General II"; "Visitador General III";
    "Visitador Adjunto I"; "Visitador Adjunto II" ].

Definition parseStringArray (value : Configuracion.Json) (fallback : list string)
  : list string :=
  match value with
  | Configuracion.JArray items =>
      let parsed :=
        filter truthy
          (map (fun item =>
                  slice0 120
                    (normalizeWhitespace
                       (Configuracion.String_of
                          (Configuracion.orElse (Some item) (Configuracion.JString "")))))
               items) in
      if (0 <? List.length parsed)%nat then parsed else fallback
  | _ => fallback
  end.

(** [setVisitadoresCatalog(items)]: the catalogue the provider keeps. *)
Definition setVisitadoresCatalog (items : list string) : list string :=
  parseStringArray (Configuracion.JArray (map Configuracion.JString items)) VISITADORES.

End Productivity.

(* ================================================================== *)
(** ** components/dashboard/Dashboard.tsx: the work queue *)
(* ================================================================== *)

Module Dashboard.
Import Productivity.

(** [daysSince] of lib/utils.ts: whole days, rounded down. *)
Definition daysSince (env : Env) (dateStr : string) : Z :=
  match Date_parse env dateStr with
  | None => 0%Z
  | Some date => ((Date_now env - date) / msPerDay)%Z
  end.

(** The [kind] of a queue item: ['overdue'], ['today'], ['missing'],
    ['stale'], ['planned']. *)
Inductive Kind := Overdue | Today | Missing | Stale | Planned.

Definition Kind_eqb (a b : Kind) : bool :=
  match a, b with
  | Overdue, Overdue | Today, Today | Missing, Missing
  | Stale, Stale | Planned, Planned => true
  | _, _ => false
  end.

Module QueueItem.
Record t := mk {
  id : string;
  folio : string;
  visitador : string;
  kind : Kind;
  priority : nat;
  detail : string;
  dueDate : option string;
  completed : bool
}.
End QueueItem.

(** [action?.text] inside a template literal. *)
Definition text_of (action : option NextAction.t) : string :=
  match action with
  | Some a => NextAction.text a
  | None => "undefined"
  end.

Definition queueItem (env : Env) (nextActions : list (string * NextAction.t))
           (today : string) (item : Expediente.t) : QueueItem.t :=
  let action := get (Expediente.id item) nextActions in
  let staleDays := daysSince env (Expediente.fecha_ultimo_movimiento item) in
  let overdue :=
    match action with
    | Some a => (NextAction.dueDate a <? today) && negb (NextAction.completed a)
    | None => false
    end in
  let dueToday :=
    match action with
    | Some a => (NextAction.dueDate a =? today) && negb (NextAction.completed a)
    | None => false
    end in
  let noAction := is_none action in
  let priority :=
    if overdue then 0%nat else if dueToday then 1%nat else if noAction then 2%nat
    else if (staleDays >=? 30)%Z then 3%nat else 4%nat in
  let kind :=
    if overdue then Overdue else if dueToday then Today else if noAction then Missing
    else if (staleDays >=? 30)%Z then Stale else Planned in
  QueueItem.mk (Expediente.id item) (Expediente.folio item)
    (Expediente.visitador_asignado item) kind priority
    (match kind with
     | Overdue => "Vencida: " ++ text_of action
     | Today => "Hoy: " ++ text_of action
     | Missing => "Sin proxima accion asignada"
     | Stale => "Sin movimiento " ++ String_of_Z staleDays ++ " dias"
     | Planned => match action with
                  | Some a => NextAction.text a
                  | None => "Planificado"
                  end
     end)
    (option_map NextAction.dueDate action)
    (match action with
     | Some a => NextAction.completed a
     | None => false
     end).

(** [items.sort((a, b) => a.priority - b.priority)]: the stable sort, an
    item going before the first one whose priority is not lower. *)
Fixpoint insert_by_priority (x : QueueItem.t) (l : list QueueItem.t)
  : list QueueItem.t :=
  match l with
  | [] => [x]
  | y :: l' =>
      if (QueueItem.priority y <? QueueItem.priority x)%nat
      then y :: insert_by_priority x l'
      else x :: l
  end.

Definition sort_by_priority (l : list QueueItem.t) : list QueueItem.t :=
  fold_right insert_by_priority [] l.

Definition openCases (expedientes : list Expediente.t) : list Expediente.t :=
  filter (fun item => Panels.abiertos (Expediente.estado item)) expedientes.

Definition queueItems (env : Env) (nextActions : list (string * NextAction.t))
           (expedientes : list Expediente.t) : list QueueItem.t :=
  let today := todayISO env in
  sort_by_priority (map (queueItem env nextActions today) (openCases expedientes)).

Definition actionableToday (queueItems : list QueueItem.t) : list QueueItem.t :=
  filter (fun item => existsb (Kind_eqb (QueueItem.kind item))
                              [Overdue; Today; Missing; Stale]) queueItems.

(** [data.queue] *)
Definition queue (env : Env) (nextActions : list (string * NextAction.t))
           (expedientes : list Expediente.t) : list QueueItem.t :=
  firstn 8 (actionableToday (queueItems env nextActions expedientes)).

(** The counters of [data.productivity] that are whole numbers by
    construction. *)
Definition totalOpen (expedientes : list Expediente.t) : nat :=
  List.length (openCases expedientes).

Definition count_kind (k : Kind) (queueItems : list QueueItem.t) : nat :=
  List.length (filter (fun item => Kind_eqb (QueueItem.kind item) k) queueItems).

Definition backlogWithoutAction (queueItems : list QueueItem.t) : nat :=
  count_kind Missing queueItems.

Definition overdueActions (queueItems : list QueueItem.t) : nat :=
  count_kind Overdue queueItems.

End Dashboard.

(* ================================================================== *)
(** ** components/layout/AppLayout.tsx: the daily planner notice *)
(* ================================================================== *)

Module Layout.
Import Productivity Notifications.

Definition SYSTEM_NOTIF_IDS_dailyPlanner : string := "system-daily-planner".

Definition overdueActions (env : Env) (nextActions : list (string * NextAction.t))
           (openCases : list Expediente.t) : nat :=
  List.length
    (filter (fun exp =>
               match get (Expediente.id exp) nextActions with
               | Some action =>
                   negb (NextAction.completed action)
                   && (NextAction.dueDate action <? todayISO env)
               | None => false
               end) openCases).

Definition dueTodayActions (env : Env) (nextActions : list (string * NextAction.t))
           (openCases : list Expediente.t) : nat :=
  List.length
    (filter (fun exp =>
               match get (Expediente.id exp) nextActions with
               | Some action =>
                   negb (NextAction.completed action)
                   && (NextAction.dueDate action =? todayISO env)
               | None => false
               end) openCases).

Definition missingActions (nextActions : list (string * NextAction.t))
           (openCases : list Expediente.t) : nat :=
  List.length
    (filter (fun exp => is_none (get (Expediente.id exp) nextActions)) openCases).

(** [count > 0 ? `${count} label` : null], kept when not [null]. *)
Definition piece (count : nat) (label : string) : list string :=
  if (0 <? count)%nat then [String_of_Z (Z.of_nat count) ++ " " ++ label] else [].

(** The last part of the effect: the notice of the agenda.  [now] is the
    time value read by [upsertSystemNotification]. *)
Definition dailyPlanner (env : Env) (now : Z)
           (nextActions : list (string * NextAction.t))
           (expedientes : list Expediente.t)
           (prev : list Notification.t) : list Notification.t :=
  let openCases := Dashboard.openCases expedientes in
  let overdueActions := overdueActions env nextActions openCases in
  let dueTodayActions := dueTodayActions env nextActions openCases in
  let missingActions := missingActions nextActions openCases in
  if (0 <? overdueActions)%nat || (0 <? dueTodayActions)%nat || (0 <? missingActions)%nat
  then
    let pieces :=
      (piece overdueActions "vencidas" ++ piece dueTodayActions "para hoy"
       ++ piece missingActions "sin accion")%list in
    upsertSystemNotification now SYSTEM_NOTIF_IDS_dailyPlanner
      (UpsertInput.mk (if (0 <? overdueActions)%nat then warning else info)
                      "Agenda diaria"
                      ("Pendientes de hoy: " ++ String.concat ", " pieces ++ ".")
                      None)
      prev
  else removeNotification SYSTEM_NOTIF_IDS_dailyPlanner prev.

End Layout.

(* ================================================================== *)
(** ** components/configuracion/Configuracion.tsx: the catalogue *)
(* ================================================================== *)

Module Catalogo.
Import Arrays Productivity.

(** What a handler does: the catalogue it hands to
    [setVisitadoresCatalog], if any, and the notifications it raises. *)
Record Result := mkResult {
  next : option (list string);
  raised : list Notifications.AddInput.t
}.

Definition same_name (a b : string) : bool := toLowerCase a =? toLowerCase b.

(** [name] is the answer of [window.prompt], [None] when cancelled. *)
Definition handleAddVisitador (name : option string)
           (visitadoresCatalog : list string) : Result :=
  if negb (truthy_opt name) then mkResult None []
  else
    let clean := slice0 FIELD_LIMITS_visitador (normalizeWhitespace (nullish name "")) in
    if negb (truthy clean) then mkResult None []
    else if existsb (fun item => same_name item clean) visitadoresCatalog then
      mkResult None
        [Configuracion.notice Notifications.warning "Visitador duplicado"
           "Ese visitador ya existe en el catalogo."]
    else
      let next := (visitadoresCatalog ++ [clean])%list in
      mkResult (Some next)
        [Configuracion.notice Notifications.success "Visitador agregado"
           (clean ++ " fue agregado al catalogo.")].

(** [catalog[index]] inside a template literal. *)
Definition shown (item : option string) : string := nullish item "undefined".

Definition handleEditVisitador (index : nat) (nextName : option string)
           (visitadoresCatalog : list string) : Result :=
  let current := nth_error visitadoresCatalog index in
  if negb (truthy_opt nextName) then mkResult None []
  else
    let clean :=
      slice0 FIELD_LIMITS_visitador (normalizeWhitespace (nullish nextName "")) in
    if negb (truthy clean) then mkResult None []
    else if somei (fun itemIndex item =>
                     negb (itemIndex =? index)%nat && same_name item clean)
                  visitadoresCatalog then
      mkResult None
        [Configuracion.notice Notifications.warning "Nombre en uso"
           "Ya existe un visitador con ese nombre."]
    else
      let next :=
        mapi (fun itemIndex item => if (itemIndex =? index)%nat then clean else item)
             visitadoresCatalog in
      mkResult (Some next)
        [Configuracion.notice Notifications.info "Visitador actualizado"
           (shown current ++ " ahora es " ++ clean ++ ".")].

(** [confirmed] is the answer of [window.confirm]. *)
Definition handleDeleteVisitador (index : nat) (confirmed : bool)
           (visitadoresCatalog : list string) (expedientes : list Expediente.t)
  : Result :=
  let target := nth_error visitadoresCatalog index in
  let inUse :=
    existsb (fun exp =>
               match target with
               | Some name => Expediente.visitador_asignado exp =? name
               | None => false
               end) expedientes in
  if inUse then
    mkResult None
      [Configuracion.notice Notifications.error "No se puede eliminar"
         (shown target ++ " tiene expedientes asignados.")]
  else if negb confirmed then mkResult None []
  else
    let next :=
      filteri (fun itemIndex _ => negb (itemIndex =? index)%nat) visitadoresCatalog in
    mkResult (Some next)
      [Configuracion.notice Notifications.warning "Visitador eliminado"
         (shown target ++ " fue removido del catalogo.")].

End Catalogo.

(* ================================================================== *)
(** ** components/auth/LoginPage.tsx: the sign-in form *)
(* ================================================================== *)

Module Login.

Definition MAX_FAILED_ATTEMPTS : Z := 5.
Definition LOCK_TIME_MS : Z := 60000.

(** The state of the form: the two counters it also writes to the
    session storage, the clock value it last read, and the error shown. *)
Record State := mkState {
  failedAttempts : Z;
  lockUntil : Z;
  now : Z;
  error : option string
}.

(** What [signIn] answers: success, an error, or a rejected promise. *)
Inductive SignIn := SignedIn | SignInError | SignInThrown.

(** What a submission leaves behind: the state, the credentials sent to
    [signIn], and whether the page navigated away. *)
Record Outcome := mkOutcome {
  state : State;
  sent : list (string * string);
  navigated : bool
}.

Definition isLocked (st : State) : bool := (lockUntil st >? now st)%Z.

(** [Math.max(0, Math.ceil((lockUntil - now) / 1000))] *)
Definition lockSeconds (st : State) : Z :=
  Z.max 0 (- ((- (lockUntil st - now st)) / 1000))%Z.

(** The class [[^\s@]]. *)
Definition address_char (c : ascii) : bool :=
  negb (is_space c || Ascii.eqb c "@").

(** [/^[^\s@]+@[^\s@]+\.[^\s@]+$/] on a text of [n] characters: a run
    [+] is at most [n] long. *)
Definition EMAIL_RE (n : nat) : list Atom :=
  [ rep address_char 1 n; one (lit "@"); rep address_char 1 n;
    one (lit "."); rep address_char 1 n ].

Definition isEmail (value : string) : bool :=
  match_atoms (EMAIL_RE (String.length value)) value.

(** [handleSubmit]; [clock] is the value of [Date.now()]. *)
Definition handleSubmit (clock : Z) (signIn : string -> string -> SignIn)
           (email password : string) (st : State) : Outcome :=
  let cleanEmail := toLowerCase (trim email) in
  let cleanPassword := trim password in
  let fail reason :=
    mkOutcome (mkState (failedAttempts st) (lockUntil st) (now st) (Some reason))
              [] false in
  if isLocked st then
    fail ("Demasiados intentos. Espere " ++ String_of_Z (lockSeconds st)
          ++ "s e intente nuevamente.")
  else if negb (truthy cleanEmail) || negb (isEmail cleanEmail) then
    fail "Ingrese un correo electronico valido."
  else if (String.length cleanPassword <? 8)%nat || (128 <? String.length cleanPassword)%nat
  then fail "La contrasena debe tener entre 8 y 128 caracteres."
  else
    match signIn cleanEmail cleanPassword with
    | SignInError =>
        let nextAttempts := (failedAttempts st + 1)%Z in
        if (nextAttempts >=? MAX_FAILED_ATTEMPTS)%Z then
          let nextLockUntil := (clock + LOCK_TIME_MS)%Z in
          mkOutcome
            (mkState 0 nextLockUntil clock
               (Some "Demasiados intentos fallidos. Espere 60s antes de reintentar."))
            [(cleanEmail, cleanPassword)] false
        else
          mkOutcome
            (mkState nextAttempts (lockUntil st) (now st)
               (Some "Correo o contrasena incorrectos. Verifique sus credenciales."))
            [(cleanEmail, cleanPassword)] false
    | SignedIn =>
        mkOutcome (mkState 0 0 (now st) None) [(cleanEmail, cleanPassword)] true
    | SignInThrown =>
        mkOutcome
          (mkState (failedAttempts st) (lockUntil st) (now st)
             (Some "No fue posible iniciar sesion. Intente nuevamente."))
          [(cleanEmail, cleanPassword)] false
    end.

(** The timer that runs while the form is locked: [setNow(Date.now())]. *)
Definition tick (clock : Z) (st : State) : State :=
  if isLocked st then mkState (failedAttempts st) (lockUntil st) clock (error st)
  else st.

(** The effect that clears an expired lock. *)
Definition clearLock (st : State) : State :=
  if isLocked st || (lockUntil st =? 0)%Z then st
  else mkState (failedAttempts st) 0 (now st) (error st).

(** A run of submissions, each with the clock value, the answer of the
    backend and the credentials typed; the credentials sent are gathered
    in order. *)
Fixpoint submitAll (attempts : list (Z * SignIn * string * string)) (st : State)
  : State * list (string * string) :=
  match attempts with
  | [] => (st, [])
  | (clock, answer, email, password) :: rest =>
      let out := handleSubmit clock (fun _ _ => answer) email password st in
      let '(final, later) := submitAll rest (state out) in
      (final, (sent out ++ later)%list)
  end.

End Login.

(* ================================================================== *)
(** ** components/expedientes/NuevoExpediente.tsx: the case form *)
(* ================================================================== *)

Module Formulario.

Record FormState := mkForm {
  folio : string;
  fecha_presentacion : string;
  tipo_derecho : string;
  autoridad_responsable : string;
  visitador_asignado : string;
  estado : string;
  notas_seguimiento : string;
  next_action_text : string;
  next_action_due_date : string
}.

(** [validate]; [editingExp] is the case being edited, if any. *)
Definition validate (env : Env) (expedientes : list Expediente.t)
           (editingExp : option Expediente.t) (form : FormState) : option string :=
  let normalizedFolio := normalizeFolio (folio form) in
  if negb (truthy normalizedFolio) then Some "El numero de folio es obligatorio."
  else if negb (isValidFolio normalizedFolio) then
    Some "Formato de folio invalido. Use CEDHBC-AAAA-000."
  else
  match normalizeDateOnly env (fecha_presentacion form) with
  | None => Some "La fecha de presentacion es obligatoria."
  | Some normalizedDate =>
  if isFutureDate env normalizedDate then
    Some "La fecha de presentacion no puede ser futura."
  else if negb (truthy (normalizeWhitespace (tipo_derecho form))) then
    Some "Seleccione el tipo de derecho vulnerado."
  else if negb (truthy (normalizeWhitespace (autoridad_responsable form))) then
    Some "La autoridad responsable es obligatoria."
  else if negb (truthy (normalizeWhitespace (visitador_asignado form))) then
    Some "Asigne un visitador al expediente."
  else
  let nextActionText := normalizeWhitespace (next_action_text form) in
  if negb (truthy nextActionText) then
    Some "La proxima accion es obligatoria para guardar el expediente."
  else
  match normalizeDateOnly env (next_action_due_date form) with
  | None => Some "La fecha de compromiso de la proxima accion es obligatoria."
  | Some nextActionDate =>
  if nextActionDate <? normalizedDate then
    Some "La fecha de proxima accion no puede ser anterior a la fecha de presentacion."
  else
  let duplicate :=
    existsb (fun item =>
               (toUpperCase (Expediente.folio item) =? normalizedFolio)
               && match editingExp with
                  | None => true
                  | Some editing => negb (Expediente.id item =? Expediente.id editing)
                  end) expedientes in
  if duplicate then Some ("El folio " ++ normalizedFolio ++ " ya existe en el sistema.")
  else None
  end
  end.

(** The [payload] of [handleSubmit], as [createExpediente] receives it. *)
Definition payload (env : Env) (form : FormState) : ExpedienteInsert.t :=
  let normalizedDate :=
    nullish (normalizeDateOnly env (fecha_presentacion form)) (todayISO env) in
  ExpedienteInsert.mk
    (slice0 FIELD_LIMITS_folio (normalizeFolio (folio form)))
    normalizedDate
    (slice0 FIELD_LIMITS_tipoDerecho (normalizeWhitespace (tipo_derecho form)))
    (slice0 FIELD_LIMITS_autoridad (normalizeWhitespace (autoridad_responsable form)))
    (slice0 FIELD_LIMITS_visitador (normalizeWhitespace (visitador_asignado form)))
    (Some (estado form))
    (Some (todayISO env))
    (Some (slice0 FIELD_LIMITS_notas (trim (notas_seguimiento form))))
    (Some (getMesRegistro env normalizedDate)).

End Formulario.

(* ================================================================== *)
(** ** context/NotificationsContext.tsx: the unread counter *)
(* ================================================================== *)

Module Badge.
Import Notifications.

Definition unreadCount (notifications : list Notification.t) : nat :=
  List.length (filter (fun n => negb (Notification.read n)) notifications).

End Badge.

(* ================================================================== *)
(** ** Vocabulary of the statements, continued *)
(* ================================================================== *)

(** White space only as single blanks; [after_space] tells whether the
    text follows a blank (or starts the whole text, where none may
    stand). *)
Fixpoint single_spaced (after_space : bool) (s : string) : bool :=
  match s with
  | EmptyString => true
  | String c s' =>
      if is_space c then Ascii.eqb c " " && negb after_space && single_spaced true s'
      else single_spaced false s'
  end.

(** A text rewritten character by character. *)
Fixpoint expand (f : ascii -> string) (s : string) : string :=
  match s with
  | EmptyString => EmptyString
  | String c s' => f c ++ expand f s'
  end.

(** The entity that stands for a character in an XML text. *)
Definition xml_entity (c : ascii) : string :=
  if Ascii.eqb c "&" then "&amp;"
  else if Ascii.eqb c "<" then "&lt;"
  else if Ascii.eqb c ">" then "&gt;"
  else if Ascii.eqb c Sheets.dquote then "&quot;"
  else if Ascii.eqb c "'" then "&apos;"
  else String c EmptyString.

(** The characters that open or close markup or an attribute value. *)
Definition markup (c : ascii) : bool :=
  Ascii.eqb c "<" || Ascii.eqb c ">" || Ascii.eqb c Sheets.dquote || Ascii.eqb c "'".

(** Every double quote of the text is followed or preceded by its twin. *)
Fixpoint quotes_paired (s : string) : bool :=
  match s with
  | EmptyString => true
  | String c s' =>
      if Ascii.eqb c Sheets.dquote then
        match s' with
        | String d s'' => Ascii.eqb d Sheets.dquote && quotes_paired s''
        | EmptyString => false
        end
      else quotes_paired s'
  end.

(** A field of a patch passed a check: it is absent, or its value
    does. *)
Definition accepted (check : string -> bool) (field : option string) : Prop :=
  match field with
  | None => True
  | Some value => check value = true
  end.

(** The provider state apart from the calls made. *)
Definition same_view (a b : World.t) : Prop :=
  World.expedientes a = World.expedientes b
  /\ World.loading a = World.loading b
  /\ World.error a = World.error b
  /\ World.session a = World.session b.

(** What a notification says and when: everything but the read flag. *)
Definition said (n : Notifications.Notification.t)
  : string * Notifications.NotificationType * string * string * Z :=
  (Notifications.Notification.id n, Notifications.Notification.type n,
   Notifications.Notification.title n, Notifications.Notification.message n,
   Notifications.Notification.timestamp n).

(** The count a table of counts holds for a label, none standing for 0. *)
Fixpoint count_for (label : string) (counts : list (string * nat)) : nat :=
  match counts with
  | [] => 0
  | (k, v) :: rest => if k =? label then v else count_for label rest
  end.

(** The sum of the counts of a table. *)
Definition total_of (counts : list (string * nat)) : nat :=
  fold_right (fun entry n => snd entry + n) 0 counts.

(** In the order of the queue: no item before one of a lower priority
    number. *)
Definition by_priority (l : list Dashboard.QueueItem.t) : Prop :=
  StronglySorted
    (fun a b => Dashboard.QueueItem.priority a <= Dashboard.QueueItem.priority b) l.

(** The priority number that goes with a kind. *)
Definition rank (k : Dashboard.Kind) : nat :=
  match k with
  | Dashboard.Overdue => 0
  | Dashboard.Today => 1
  | Dashboard.Missing => 2
  | Dashboard.Stale => 3
  | Dashboard.Planned => 4
  end.

(** The reasons of the create validator that concern the two dates. *)
Definition DATE_REASONS : list string :=
  [ "La fecha de presentacion es invalida.";
    "La fecha de presentacion no puede ser futura.";
    "La fecha de ultimo movimiento es invalida.";
    "La fecha de ultimo movimiento no puede ser futura.";
    "La fecha de ultimo movimiento no puede ser anterior a la fecha de presentacion." ].

(** No two names of a catalogue are the same up to the case of the
    letters. *)
Definition distinct_names (catalog : list string) : Prop :=
  NoDup (map toLowerCase catalog).

(** Reduce the projections of the result of an operation. *)
(** The completion stamp of an action is there exactly when the action
    is completed. *)
Definition stamped (action : Productivity.NextAction.t) : Prop :=
  Productivity.NextAction.completed action = true
  <-> Productivity.NextAction.completedAt action <> None.

(** A text with no character but white space. *)
Definition blank (s : string) : bool := forall_str is_space s.

(** A template with its four names filled in. *)
Definition template_complete (payload : Productivity.TemplateInput.t) : bool :=
  negb (blank (Productivity.TemplateInput.name payload))
  && negb (blank (Productivity.TemplateInput.tipo_derecho payload))
  && negb (blank (Productivity.TemplateInput.autoridad_responsable payload))
  && negb (blank (Productivity.TemplateInput.visitador_asignado payload)).

(** A form filled in on the evening of 2 November 2026 on the Pacific
    coast, for a complaint filed that day. *)
Definition eveningForm : Formulario.FormState :=
  Formulario.mkForm "CEDHBC-2026-010" "2026-11-02" "Derecho a la Salud"
                    "Secretaria de Salud" "Visitador General I" "Admitida" ""
                    "Llamar al quejoso" "2026-11-05".

Ltac view_of_result :=
  cbn [fst snd OpResult.error OpResult.data OpResult.fail].

(* ================================================================== *)
(** * Properties *)
(* ================================================================== *)

(** ** Text *)

Section Strings.

Lemma forall_str_app (p : ascii -> bool) (a b : string) :
  forall_str p (a ++ b) = forall_str p a && forall_str p b.
Proof.
  induction a as [|c a IH]; simpl; [reflexivity|].
  rewrite IH. now rewrite andb_assoc.
Qed.

Lemma forall_str_impl (p q : ascii -> bool) (s : string) :
  (forall c, p c = true -> q c = true) ->
  forall_str p s = true -> forall_str q s = true.
Proof.
  intros Hpq. induction s as [|c s IH]; simpl; [reflexivity|].
  intros H. apply andb_true_iff in H as [Hc Hs].
  apply andb_true_iff. split; auto.
Qed.

Lemma forall_str_map (f : ascii -> ascii) (p : ascii -> bool) (s : string) :
  (forall c, p (f c) = true) -> forall_str p (map_str f s) = true.
Proof.
  intros Hf. induction s as [|c s IH]; simpl; [reflexivity|].
  now rewrite Hf, IH.
Qed.

Lemma map_str_fixed (f : ascii -> ascii) (s : string) :
  forall_str (fun c => Ascii.eqb (f c) c) s = true -> map_str f s = s.
Proof.
  induction s as [|c s IH]; simpl; [reflexivity|].
  intros H. apply andb_true_iff in H as [Hc Hs].
  apply Ascii.eqb_eq in Hc. now rewrite Hc, IH.
Qed.

Lemma forall_str_slice0 (p : ascii -> bool) (n : nat) (s : string) :
  forall_str p s = true -> forall_str p (slice0 n s) = true.
Proof.
  revert s. induction n as [|n IH]; intros [|c s]; simpl; try reflexivity.
  intros H. apply andb_true_iff in H as [Hc Hs].
  now rewrite Hc, IH.
Qed.

Lemma length_slice0 (n : nat) (s : string) :
  String.length (slice0 n s) = Nat.min n (String.length s).
Proof.
  revert s. induction n as [|n IH]; intros [|c s]; simpl; try reflexivity.
  now rewrite IH.
Qed.

Lemma slice0_all (n : nat) (s : string) :
  String.length s <= n -> slice0 n s = s.
Proof.
  revert s. induction n as [|n IH]; intros [|c s]; simpl; try reflexivity.
  - intros H. inversion H.
  - intros H. rewrite IH; [reflexivity | lia].
Qed.

(** A text without characters of the class is left alone. *)
Lemma replace_runs_from_none (cls : ascii -> bool) (r : string) (b : bool) (s : string) :
  forall_str (fun c => negb (cls c)) s = true ->
  replace_runs_from cls r b s = s.
Proof.
  revert b. induction s as [|c s IH]; intros b; simpl; [reflexivity|].
  intros H. apply andb_true_iff in H as [Hc Hs].
  apply negb_true_iff in Hc. rewrite Hc. now rewrite IH.
Qed.

(** What survives a replacement is the replacement text and the
    characters outside the class. *)
Lemma replace_runs_from_forall (cls p q : ascii -> bool) (r : string) (b : bool)
      (s : string) :
  (forall c, cls c = false -> q c = true -> p c = true) ->
  forall_str p r = true ->
  forall_str q s = true ->
  forall_str p (replace_runs_from cls r b s) = true.
Proof.
  intros Hc Hr. revert b. induction s as [|c s IH]; intros b; simpl; [reflexivity|].
  intros H. apply andb_true_iff in H as [Hq Hs].
  destruct (cls c) eqn:E.
  - destruct b; [now apply IH|].
    rewrite forall_str_app, Hr. now apply IH.
  - simpl. rewrite (Hc c E Hq). now apply IH.
Qed.

Lemma trimStart_none (s : string) :
  forall_str (fun c => negb (is_space c)) s = true -> trimStart s = s.
Proof.
  destruct s as [|c s]; simpl; [reflexivity|].
  intros H. apply andb_true_iff in H as [Hc _].
  apply negb_true_iff in Hc. now rewrite Hc.
Qed.

Lemma trimEnd_none (s : string) :
  forall_str (fun c => negb (is_space c)) s = true -> trimEnd s = s.
Proof.
  induction s as [|c s IH]; simpl; [reflexivity|].
  intros H. apply andb_true_iff in H as [Hc Hs].
  apply negb_true_iff in Hc. rewrite (IH Hs), Hc.
  now destruct s.
Qed.

Lemma normalizeWhitespace_none (s : string) :
  forall_str (fun c => negb (is_space c)) s = true -> normalizeWhitespace s = s.
Proof.
  intros H. unfold normalizeWhitespace, replace_runs, trim.
  rewrite replace_runs_from_none by exact H.
  now rewrite trimStart_none, trimEnd_none.
Qed.

Lemma upper_char_idem (c : ascii) : upper_char (upper_char c) = upper_char c.
Proof.
  destruct c as [[] [] [] [] [] [] [] []]; reflexivity.
Qed.

Lemma normalizeFolio_chars (value : string) :
  forall_str folio_char (normalizeFolio value) = true.
Proof.
  unfold normalizeFolio, replace_runs.
  apply replace_runs_from_forall
    with (q := fun c => Ascii.eqb (upper_char c) c).
  - intros c Hc Hu. unfold folio_char. now rewrite Hc, Hu.
  - reflexivity.
  - unfold toUpperCase. apply forall_str_map.
    intros c. rewrite upper_char_idem. apply Ascii.eqb_refl.
Qed.

Lemma folio_char_no_space (s : string) :
  forall_str folio_char s = true ->
  forall_str (fun c => negb (is_space c)) s = true.
Proof.
  apply forall_str_impl. intros c H. unfold folio_char, is_space_or_slash in H.
  apply andb_true_iff in H as [H _]. apply negb_true_iff in H.
  apply orb_false_iff in H as [H _]. now rewrite H.
Qed.

Lemma normalizeFolio_fixed (s : string) :
  forall_str folio_char s = true -> normalizeFolio s = s.
Proof.
  intros H. unfold normalizeFolio.
  rewrite normalizeWhitespace_none by now apply folio_char_no_space.
  unfold toUpperCase. rewrite map_str_fixed.
  - unfold replace_runs. apply replace_runs_from_none.
    revert H. apply forall_str_impl. intros c Hc.
    unfold folio_char in Hc. now apply andb_true_iff in Hc as [Hc _].
  - revert H. apply forall_str_impl. intros c Hc.
    unfold folio_char in Hc. now apply andb_true_iff in Hc as [_ Hc].
Qed.

(** A text that matches a pattern is no longer than the pattern allows. *)
Lemma match_rep_length (cls : ascii -> bool) (k : string -> bool) (m : nat) :
  (forall s, k s = true -> String.length s <= m) ->
  forall hi lo s, match_rep cls lo hi k s = true -> String.length s <= hi + m.
Proof.
  intros Hk. induction hi as [|hi IH]; intros lo s; simpl.
  - intros H. apply andb_true_iff in H as [_ H]. now apply Hk.
  - intros H. apply orb_true_iff in H as [H|H].
    + destruct s as [|c s]; [discriminate|].
      apply andb_true_iff in H as [_ H]. apply IH in H. simpl. lia.
    + apply andb_true_iff in H as [_ H]. apply Hk in H. lia.
Qed.

Lemma match_atoms_length (p : list Atom) (s : string) :
  match_atoms p s = true -> String.length s <= max_len p.
Proof.
  revert s. induction p as [|a p IH]; intros s; simpl.
  - intros H. apply String.eqb_eq in H. subst. simpl. lia.
  - apply match_rep_length. exact IH.
Qed.

End Strings.

(** ** The create validator *)

(** What an accepted creation went through. *)
Lemma normalizeCreatePayload_ok (env : Env) (data : ExpedienteInsert.t) (p : InsertRow.t) :
  Validated.payload (normalizeCreatePayload env data) = Some p ->
  let folio := slice0 FIELD_LIMITS_folio (normalizeFolio (ExpedienteInsert.folio data)) in
  Validated.error (normalizeCreatePayload env data) = None
  /\ InsertRow.folio p = folio
  /\ truthy folio = true
  /\ isValidFolio folio = true
  /\ normalizeDateOnly env (ExpedienteInsert.fecha_presentacion data)
     = Some (InsertRow.fecha_presentacion p)
  /\ isFutureDate env (InsertRow.fecha_presentacion p) = false
  /\ normalizeDateOnly env
       (nullish (ExpedienteInsert.fecha_ultimo_movimiento data)
                (InsertRow.fecha_presentacion p))
     = Some (InsertRow.fecha_ultimo_movimiento p)
  /\ isFutureDate env (InsertRow.fecha_ultimo_movimiento p) = false
  /\ (InsertRow.fecha_ultimo_movimiento p <? InsertRow.fecha_presentacion p) = false.
Proof.
  unfold normalizeCreatePayload. cbv zeta.
  destruct (truthy (slice0 FIELD_LIMITS_folio (normalizeFolio (ExpedienteInsert.folio data))))
    eqn:Hfolio; reduce_validated; [|discriminate].
  destruct (isValidFolio (slice0 FIELD_LIMITS_folio (normalizeFolio (ExpedienteInsert.folio data))))
    eqn:Hvalid; reduce_validated; [|discriminate].
  destruct (normalizeDateOnly env (ExpedienteInsert.fecha_presentacion data))
    as [fp|] eqn:Hfp; reduce_validated; [|discriminate].
  destruct (isFutureDate env fp) eqn:Hfut; reduce_validated; [discriminate|].
  destruct (truthy (truncateText (ExpedienteInsert.tipo_derecho data) FIELD_LIMITS_tipoDerecho));
    reduce_validated; [|discriminate].
  destruct (truthy (truncateText (ExpedienteInsert.autoridad_responsable data) FIELD_LIMITS_autoridad));
    reduce_validated; [|discriminate].
  destruct (truthy (truncateText (ExpedienteInsert.visitador_asignado data) FIELD_LIMITS_visitador));
    reduce_validated; [|discriminate].
  destruct (ESTADOS_includes (nullish (ExpedienteInsert.estado data) "Admitida"));
    reduce_validated; [|discriminate].
  destruct (normalizeDateOnly env (nullish (ExpedienteInsert.fecha_ultimo_movimiento data) fp))
    as [fm|] eqn:Hfm; reduce_validated; [|discriminate].
  destruct (isFutureDate env fm) eqn:Hfutm; reduce_validated; [discriminate|].
  destruct (fm <? fp) eqn:Hlt; reduce_validated; [discriminate|].
  intros H. injection H as <-. cbn. repeat split; assumption.
Qed.

(** ** C6: folio normalisation *)

(** C6.  [normalizeFolio] is idempotent: normalising a normalised folio
    changes nothing.  A folio accepted by the create validator (the
    validator tests the normalised folio cut to 32 characters) has a valid
    normal form: [isValidFolio (normalizeFolio f)] holds, and the folio of
    the payload is that normal form. *)
Theorem normalizeFolio_idempotent_and_valid :
  (forall f : string, normalizeFolio (normalizeFolio f) = normalizeFolio f)
  /\ (forall f : string,
         isValidFolio (slice0 FIELD_LIMITS_folio (normalizeFolio f)) = true ->
         isValidFolio (normalizeFolio f) = true
         /\ slice0 FIELD_LIMITS_folio (normalizeFolio f) = normalizeFolio f)
  /\ (forall (env : Env) (data : ExpedienteInsert.t) (p : InsertRow.t),
         Validated.payload (normalizeCreatePayload env data) = Some p ->
         isValidFolio (normalizeFolio (ExpedienteInsert.folio data)) = true
         /\ InsertRow.folio p = normalizeFolio (ExpedienteInsert.folio data)).
Proof.
  assert (Hcut : forall f : string,
             isValidFolio (slice0 FIELD_LIMITS_folio (normalizeFolio f)) = true ->
             isValidFolio (normalizeFolio f) = true
             /\ slice0 FIELD_LIMITS_folio (normalizeFolio f) = normalizeFolio f).
  { intros f Hvalid.
    set (nf := normalizeFolio f) in *.
    assert (Hchars : forall_str folio_char nf = true) by apply normalizeFolio_chars.
    assert (Hlen : String.length (slice0 FIELD_LIMITS_folio nf) <= max_len FOLIO_RE).
    { apply match_atoms_length.
      unfold isValidFolio in Hvalid.
      rewrite normalizeWhitespace_none in Hvalid; [exact Hvalid|].
      apply folio_char_no_space, forall_str_slice0, Hchars. }
    rewrite length_slice0 in Hlen.
    assert (Hshort : String.length nf <= FIELD_LIMITS_folio).
    { change (max_len FOLIO_RE) with 18 in Hlen.
      unfold FIELD_LIMITS_folio in *. lia. }
    rewrite slice0_all in Hvalid by exact Hshort.
    split; [exact Hvalid | now apply slice0_all]. }
  split; [|split].
  - intros f. apply normalizeFolio_fixed, normalizeFolio_chars.
  - exact Hcut.
  - intros env data p H.
    apply normalizeCreatePayload_ok in H.
    destruct H as (_ & Hfolio & _ & Hvalid & _).
    destruct (Hcut _ Hvalid) as [Hv Hsame].
    split; [exact Hv | now rewrite Hfolio].
Qed.

(** The validator accepts the folio of the first scenario, and its
    normal form is valid. *)
Lemma normalizeFolio_idempotent_and_valid_witness :
  isValidFolio (normalizeFolio "cedhbc 2026/001") = true
  /\ InsertRow.folio Sample.firstRow = normalizeFolio "cedhbc 2026/001".
Proof.
  split.
  - apply (proj1 (proj2 normalizeFolio_idempotent_and_valid) "cedhbc 2026/001").
    vm_compute. reflexivity.
  - apply (proj2 (proj2 normalizeFolio_idempotent_and_valid) Sample.env
             (Sample.inputOf "cedhbc 2026/001" "2026-01-15" None) Sample.firstRow).
    vm_compute. reflexivity.
Defined.

(** ** The update validator *)

Section UpdateSteps.

Variable env : Env.
Variable data : ExpedienteUpdate.t.

Lemma step_folio_inr : forall p p',
  step_folio data p = inr p' ->
  p' = put UpdateRow.set_folio
           (option_map (fun v => slice0 FIELD_LIMITS_folio (normalizeFolio v))
                       (ExpedienteUpdate.folio data)) p.
Proof.
  unfold step_folio. open_step.
  destruct (truthy _); cbn [negb]; [|discriminate].
  destruct (isValidFolio _); cbn [negb]; [|discriminate].
  now intros [= <-].
Qed.

Lemma step_tipo_derecho_inr : forall p p',
  step_tipo_derecho data p = inr p' ->
  p' = put UpdateRow.set_tipo_derecho
           (option_map (fun v => truncateText v FIELD_LIMITS_tipoDerecho)
                       (ExpedienteUpdate.tipo_derecho data)) p.
Proof.
  unfold step_tipo_derecho. open_step.
  destruct (truthy _); cbn [negb]; [|discriminate].
  now intros [= <-].
Qed.

Lemma step_autoridad_responsable_inr : forall p p',
  step_autoridad_responsable data p = inr p' ->
  p' = put UpdateRow.set_autoridad_responsable
           (option_map (fun v => truncateText v FIELD_LIMITS_autoridad)
                       (ExpedienteUpdate.autoridad_responsable data)) p.
Proof.
  unfold step_autoridad_responsable. open_step.
  destruct (truthy _); cbn [negb]; [|discriminate].
  now intros [= <-].
Qed.

Lemma step_visitador_asignado_inr : forall p p',
  step_visitador_asignado data p = inr p' ->
  p' = put UpdateRow.set_visitador_asignado
           (option_map (fun v => truncateText v FIELD_LIMITS_visitador)
                       (ExpedienteUpdate.visitador_asignado data)) p.
Proof.
  unfold step_visitador_asignado. open_step.
  destruct (truthy _); cbn [negb]; [|discriminate].
  now intros [= <-].
Qed.

Lemma step_estado_inr : forall p p',
  step_estado data p = inr p' ->
  p' = put UpdateRow.set_estado (ExpedienteUpdate.estado data) p.
Proof.
  unfold step_estado. open_step.
  destruct (ESTADOS_includes _); cbn [negb]; [|discriminate].
  now intros [= <-].
Qed.

Lemma step_notas_seguimiento_inr : forall p p',
  step_notas_seguimiento data p = inr p' ->
  p' = put UpdateRow.set_notas_seguimiento
           (option_map (fun v => slice0 FIELD_LIMITS_notas (trim v))
                       (ExpedienteUpdate.notas_seguimiento data)) p.
Proof.
  unfold step_notas_seguimiento. open_step.
  now intros [= <-].
Qed.

Lemma step_mes_registro_inr : forall p p',
  step_mes_registro data p = inr p' ->
  p' = put UpdateRow.set_mes_registro
           (option_map (fun v => truncateText v 60)
                       (ExpedienteUpdate.mes_registro data)) p.
Proof.
  unfold step_mes_registro. open_step.
  destruct (truthy _); cbn [negb]; [|discriminate].
  now intros [= <-].
Qed.

Lemma step_fecha_ultimo_movimiento_inr : forall p p',
  step_fecha_ultimo_movimiento env data p = inr p' ->
  date_ok env (ExpedienteUpdate.fecha_ultimo_movimiento data)
  /\ p' = put UpdateRow.set_fecha_ultimo_movimiento
              (bindo (ExpedienteUpdate.fecha_ultimo_movimiento data)
                     (normalizeDateOnly env)) p.
Proof.
  unfold step_fecha_ultimo_movimiento, date_ok. open_step.
  destruct (normalizeDateOnly env value) as [d|]; [|discriminate].
  destruct (isFutureDate env d) eqn:F; [discriminate|].
  intros [= <-]. split; [now exists d | reflexivity].
Qed.

Lemma step_fecha_presentacion_inr : forall p p',
  step_fecha_presentacion env data p = inr p' ->
  UpdateRow.mes_registro p = None ->
  date_ok env (ExpedienteUpdate.fecha_presentacion data)
  /\ p' = put (fun d q => UpdateRow.set_mes_registro (getMesRegistro env d)
                            (UpdateRow.set_fecha_presentacion d q))
              (bindo (ExpedienteUpdate.fecha_presentacion data)
                     (normalizeDateOnly env)) p.
Proof.
  unfold step_fecha_presentacion, date_ok. open_step.
  destruct (normalizeDateOnly env value) as [d|]; [|discriminate].
  destruct (isFutureDate env d) eqn:F; [discriminate|].
  intros H Hmes. cbn [UpdateRow.set_fecha_presentacion UpdateRow.mes_registro] in H.
  rewrite Hmes in H. cbn in H. injection H as <-.
  split; [now exists d | reflexivity].
Qed.

(** When no block fails the payload is [filled], and both dates passed
    their checks. *)
Lemma fill_payload_inr (p : UpdateRow.t) :
  fill_payload env data = inr p ->
  p = filled env data
  /\ date_ok env (ExpedienteUpdate.fecha_presentacion data)
  /\ date_ok env (ExpedienteUpdate.fecha_ultimo_movimiento data).
Proof.
  unfold fill_payload.
  destruct (step_folio data UpdateRow.empty) as [|p1] eqn:E1; [discriminate|].
  cbn [andThen].
  destruct (step_fecha_presentacion env data p1) as [|p2] eqn:E2; [discriminate|].
  cbn [andThen].
  destruct (step_tipo_derecho data p2) as [|p3] eqn:E3; [discriminate|].
  cbn [andThen].
  destruct (step_autoridad_responsable data p3) as [|p4] eqn:E4; [discriminate|].
  cbn [andThen].
  destruct (step_visitador_asignado data p4) as [|p5] eqn:E5; [discriminate|].
  cbn [andThen].
  destruct (step_estado data p5) as [|p6] eqn:E6; [discriminate|].
  cbn [andThen].
  destruct (step_notas_seguimiento data p6) as [|p7] eqn:E7; [discriminate|].
  cbn [andThen].
  destruct (step_fecha_ultimo_movimiento env data p7) as [|p8] eqn:E8; [discriminate|].
  cbn [andThen]. intros E9.
  apply step_folio_inr in E1.
  apply step_fecha_presentacion_inr in E2;
    [| subst p1; now destruct (ExpedienteUpdate.folio data)].
  destruct E2 as [Hfp E2].
  apply step_tipo_derecho_inr in E3.
  apply step_autoridad_responsable_inr in E4.
  apply step_visitador_asignado_inr in E5.
  apply step_estado_inr in E6.
  apply step_notas_seguimiento_inr in E7.
  apply step_fecha_ultimo_movimiento_inr in E8. destruct E8 as [Hfm E8].
  apply step_mes_registro_inr in E9.
  unfold filled. subst. auto.
Qed.

End UpdateSteps.

(** The fields of [filled], one by one. *)
Lemma filled_fields (env : Env) (data : ExpedienteUpdate.t) :
  UpdateRow.folio (filled env data)
  = option_map (fun v => slice0 FIELD_LIMITS_folio (normalizeFolio v))
               (ExpedienteUpdate.folio data)
  /\ UpdateRow.fecha_presentacion (filled env data)
     = bindo (ExpedienteUpdate.fecha_presentacion data) (normalizeDateOnly env)
  /\ UpdateRow.tipo_derecho (filled env data)
     = option_map (fun v => truncateText v FIELD_LIMITS_tipoDerecho)
                  (ExpedienteUpdate.tipo_derecho data)
  /\ UpdateRow.autoridad_responsable (filled env data)
     = option_map (fun v => truncateText v FIELD_LIMITS_autoridad)
                  (ExpedienteUpdate.autoridad_responsable data)
  /\ UpdateRow.visitador_asignado (filled env data)
     = option_map (fun v => truncateText v FIELD_LIMITS_visitador)
                  (ExpedienteUpdate.visitador_asignado data)
  /\ UpdateRow.estado (filled env data) = ExpedienteUpdate.estado data
  /\ UpdateRow.notas_seguimiento (filled env data)
     = option_map (fun v => slice0 FIELD_LIMITS_notas (trim v))
                  (ExpedienteUpdate.notas_seguimiento data)
  /\ UpdateRow.fecha_ultimo_movimiento (filled env data)
     = bindo (ExpedienteUpdate.fecha_ultimo_movimiento data) (normalizeDateOnly env).
Proof.
  unfold filled.
  destruct (option_map _ (ExpedienteUpdate.mes_registro data)),
    (bindo (ExpedienteUpdate.fecha_ultimo_movimiento data) _),
    (option_map _ (ExpedienteUpdate.notas_seguimiento data)),
    (ExpedienteUpdate.estado data),
    (option_map _ (ExpedienteUpdate.visitador_asignado data)),
    (option_map _ (ExpedienteUpdate.autoridad_responsable data)),
    (option_map _ (ExpedienteUpdate.tipo_derecho data)),
    (bindo (ExpedienteUpdate.fecha_presentacion data) _),
    (option_map _ (ExpedienteUpdate.folio data));
    cbn; repeat split; reflexivity.
Qed.

(** What an accepted patch went through. *)
Lemma normalizeUpdatePayload_ok (env : Env) (data : ExpedienteUpdate.t) (p : UpdateRow.t) :
  Validated.payload (normalizeUpdatePayload env data) = Some p ->
  Validated.error (normalizeUpdatePayload env data) = None
  /\ date_ok env (ExpedienteUpdate.fecha_presentacion data)
  /\ date_ok env (ExpedienteUpdate.fecha_ultimo_movimiento data)
  /\ UpdateRow.keys_length (filled env data) <> 0
  /\ p = if shouldTouchLastMovement (filled env data)
         then UpdateRow.set_fecha_ultimo_movimiento (todayISO env) (filled env data)
         else filled env data.
Proof.
  unfold normalizeUpdatePayload.
  destruct (fill_payload env data) as [reason|q] eqn:Efill; [discriminate|].
  apply fill_payload_inr in Efill. destruct Efill as (-> & Hfp & Hfm).
  destruct (movement_precedes _ _); [discriminate|].
  destruct (UpdateRow.keys_length (filled env data) =? 0)%nat eqn:Ekeys; [discriminate|].
  apply Nat.eqb_neq in Ekeys.
  destruct (shouldTouchLastMovement (filled env data));
    cbn; intros [= <-]; auto.
Qed.

(** A normalised date is never the empty text. *)
Lemma normalizeDateOnly_truthy (env : Env) (value d : string) :
  normalizeDateOnly env value = Some d -> truthy d = true.
Proof.
  unfold normalizeDateOnly.
  destruct (negb (truthy value)); [discriminate|].
  destruct (Date_parse env value) as [t|]; [|discriminate].
  intros [= <-]. unfold truthy.
  destruct (String_of_Z (getUTCFullYear t)); reflexivity.
Qed.

(** ** The repository *)

Lemma calls_fetchExpedientes (be : Backend) (w : World.t) :
  exists rest, World.calls (fetchExpedientes be w) = (World.calls w ++ rest)%list.
Proof.
  unfold fetchExpedientes.
  destruct (negb (World.session w)).
  - exists []. cbn. now rewrite app_nil_r.
  - exists [SelectAll]. cbn.
    destruct (on_select be (World.calls w)); reflexivity.
Qed.

Lemma calls_after (be : Backend) (w : World.t) (r : Request) :
  exists rest,
    World.calls (fetchExpedientes be (World.call r w)) = (World.calls w ++ r :: rest)%list.
Proof.
  destruct (calls_fetchExpedientes be (World.call r w)) as [rest H].
  exists rest. rewrite H. cbn. now rewrite <- app_assoc.
Qed.

Lemma no_call_is_no_change (l rest : list Request) (r : Request) :
  l <> (l ++ r :: rest)%list.
Proof.
  intros H. apply (f_equal (@List.length _)) in H.
  rewrite length_app in H. simpl in H. lia.
Qed.

(** A creation either stops before the network, with the reason of the
    validator or the duplicate notice, or sends the validated payload. *)
Lemma createExpediente_cases (env : Env) (be : Backend)
      (expedientes : list Expediente.t) (data : ExpedienteInsert.t) (w : World.t) :
  stopped_locally OpResult.fail w (createExpediente env be expedientes data w)
  \/ exists p rest,
      Validated.payload (normalizeCreatePayload env data) = Some p
      /\ World.calls (snd (createExpediente env be expedientes data w))
         = (World.calls w ++ Insert p :: rest)%list.
Proof.
  unfold createExpediente, stopped_locally.
  destruct (Validated.payload (normalizeCreatePayload env data)) as [p|] eqn:Ep;
    [|left; eauto].
  destruct (truthy_opt _); [left; eauto|].
  destruct (existsb _ expedientes); [left; eauto|].
  right. exists p.
  destruct (on_insert be (World.calls w) p); cbn [snd].
  - destruct (calls_after be w (Insert p)) as [rest H]. eauto.
  - exists []. split; reflexivity.
  - exists []. split; reflexivity.
Qed.

(** The create validator answers with a payload or with a reason. *)
Lemma normalizeCreatePayload_shape (env : Env) (data : ExpedienteInsert.t) :
  (exists p, normalizeCreatePayload env data = Validated.ok p)
  \/ (exists reason, normalizeCreatePayload env data = Validated.fail reason).
Proof.
  unfold normalizeCreatePayload. cbv zeta.
  repeat match goal with
         | |- context [if negb ?c then Validated.fail _ else _] =>
             destruct c; cbn [negb]; [|right; eexists; reflexivity]
         | |- context [if ?c then Validated.fail _ else _] =>
             destruct c; [right; eexists; reflexivity|]
         | |- context [match ?c with Some _ => _ | None => Validated.fail _ end] =>
             destruct c; [|right; eexists; reflexivity]
         end.
  left. eexists. reflexivity.
Qed.

(** A creation the validator refuses is refused with a reason that is
    not empty. *)
Lemma normalizeCreatePayload_refusal (env : Env) (data : ExpedienteInsert.t) :
  Validated.payload (normalizeCreatePayload env data) = None ->
  exists reason,
    normalizeCreatePayload env data = Validated.fail reason /\ truthy reason = true.
Proof.
  unfold normalizeCreatePayload. cbv zeta.
  repeat match goal with
         | |- context [if negb ?c then Validated.fail _ else _] =>
             destruct c; cbn [negb]; [|intros _; eexists; split; reflexivity]
         | |- context [if ?c then Validated.fail _ else _] =>
             destruct c; [intros _; eexists; split; reflexivity|]
         | |- context [match ?c with Some _ => _ | None => Validated.fail _ end] =>
             destruct c; [|intros _; eexists; split; reflexivity]
         end.
  discriminate.
Qed.

(** An update either stops before the network or sends the validated
    payload, after comparing the dates the record will have. *)
Lemma updateExpediente_cases (env : Env) (be : Backend)
      (expedientes : list Expediente.t) (id : string)
      (data : ExpedienteUpdate.t) (w : World.t) :
  stopped_locally OpResult.fail w (updateExpediente env be expedientes id data w)
  \/ exists current p rest,
      isUuid id = true
      /\ find (fun item => Expediente.id item =? id) expedientes = Some current
      /\ Validated.payload (normalizeUpdatePayload env data) = Some p
      /\ (nullish (UpdateRow.fecha_ultimo_movimiento p)
                  (Expediente.fecha_ultimo_movimiento current)
          <? nullish (UpdateRow.fecha_presentacion p)
                     (Expediente.fecha_presentacion current)) = false
      /\ isFutureDate env (nullish (UpdateRow.fecha_ultimo_movimiento p)
                                   (Expediente.fecha_ultimo_movimiento current)) = false
      /\ World.calls (snd (updateExpediente env be expedientes id data w))
         = (World.calls w ++ Update id p :: rest)%list.
Proof.
  unfold updateExpediente, stopped_locally.
  destruct (isUuid id); cbn [negb]; [|left; eauto].
  destruct (find _ expedientes) as [current|]; [|left; eauto].
  destruct (Validated.payload (normalizeUpdatePayload env data)) as [p|];
    [|left; eauto].
  destruct (truthy_opt _); [left; eauto|].
  match goal with
  | |- context [if ?c then _ else _] => destruct c; [left; eauto|]
  end.
  destruct (_ <? _) eqn:Hlt; [left; eauto|].
  destruct (isFutureDate env _) eqn:Hfut; [left; eauto|].
  right. exists current, p.
  destruct (on_update be (World.calls w) id p); cbn [snd].
  - destruct (calls_after be w (Update id p)) as [rest H].
    exists rest. repeat split; assumption.
  - exists []. repeat split; assumption.
  - exists []. repeat split; assumption.
Qed.

(** ** C1: the date rules *)

(** C1.  The validator compares the last movement with the filing date
    as texts, and writes the year of a date without leading zeros: a last
    movement of the year 999 is the text [999-01-01], which does not come
    before [2024-01-15].  So a creation filed on 15 January 2024 whose last
    movement, 1 January 999, lies a thousand years earlier is accepted and
    sent, while the same creation with a last movement five days before the
    filing date is refused; an update that moves the last movement of a
    case filed in 2026 to the year 999 is sent as well. *)
Theorem movement_before_filing_is_sent :
  (exists filing movement,
      Date_parse Sample.env "2024-01-15" = Some filing
      /\ Date_parse Sample.env "0999-01-01" = Some movement
      /\ (movement < filing)%Z
      /\ getUTCFullYear filing = 2024%Z
      /\ getUTCFullYear movement = 999%Z)
  /\ createExpediente Sample.env (Sample.memory []) [] Sample.fiveDaysBefore
                      (Sample.start [])
     = (OpResult.fail
          "La fecha de ultimo movimiento no puede ser anterior a la fecha de presentacion.",
        Sample.start [])
  /\ normalizeDateOnly Sample.env "0999-01-01" = Some "999-01-01"
  /\ ("999-01-01" <? "2024-01-15") = false
  /\ normalizeCreatePayload Sample.env Sample.ancient = Validated.ok Sample.ancientRow
  /\ OpResult.error
       (fst (createExpediente Sample.env (Sample.memory []) [] Sample.ancient
               (Sample.start []))) = None
  /\ World.calls
       (snd (createExpediente Sample.env (Sample.memory []) [] Sample.ancient
               (Sample.start [])))
     = [Insert Sample.ancientRow; SelectAll]
  /\ Expediente.fecha_presentacion Sample.firstCase = "2026-01-15"
  /\ World.calls
       (snd (updateExpediente Sample.env (Sample.memory [Sample.firstCase])
               [Sample.firstCase] (Sample.rowId 0) Sample.ancientPatch
               (Sample.start [Sample.firstCase])))
     = [Update (Sample.rowId 0) Sample.ancientUpdate; SelectAll].
Proof.
  split.
  - eexists. eexists. split; [vm_compute; reflexivity|].
    split; [vm_compute; reflexivity|].
    split; [vm_compute; reflexivity|].
    split; vm_compute; reflexivity.
  - repeat split; vm_compute; reflexivity.
Qed.

(** ** C2: duplicate folios *)

(** The notice of a local uniqueness conflict. *)
Lemma folio_conflict_notice (env : Env) (be : Backend)
      (expedientes : list Expediente.t) (data : ExpedienteInsert.t) (w : World.t)
      (p : InsertRow.t) :
  Validated.payload (normalizeCreatePayload env data) = Some p ->
  existsb (fun item => same_folio (Expediente.folio item) (InsertRow.folio p))
          expedientes = true ->
  createExpediente env be expedientes data w
  = (OpResult.fail ("El folio " ++ InsertRow.folio p ++ " ya existe."), w).
Proof.
  intros Hp Hdup. unfold createExpediente. rewrite Hp.
  apply normalizeCreatePayload_ok in Hp. destruct Hp as (-> & _).
  cbn [truthy_opt]. now rewrite Hdup.
Qed.

(** C2, as amended.  When the normalised folio of a creation equals, up to
    letter case, the folio of an entry of the snapshot, the creation stops
    before the network with a reason and leaves the provider untouched;
    the reason is the uniqueness conflict whenever the input passes the
    field validation (otherwise it is the reason of the validator, which
    runs first). *)
Theorem duplicate_folio_rejected_locally :
  forall env be expedientes data w,
    existsb (fun item =>
               same_folio (Expediente.folio item)
                          (slice0 FIELD_LIMITS_folio
                                  (normalizeFolio (ExpedienteInsert.folio data))))
            expedientes = true ->
    (exists reason,
        createExpediente env be expedientes data w = (OpResult.fail reason, w))
    /\ (forall p,
           Validated.payload (normalizeCreatePayload env data) = Some p ->
           createExpediente env be expedientes data w
           = (OpResult.fail ("El folio " ++ InsertRow.folio p ++ " ya existe."), w))
    /\ (Validated.payload (normalizeCreatePayload env data) = None ->
        exists reason,
          Validated.error (normalizeCreatePayload env data) = Some reason
          /\ createExpediente env be expedientes data w = (OpResult.fail reason, w)).
Proof.
  intros env be expedientes data w Hdup.
  assert (Hconflict : forall p,
             Validated.payload (normalizeCreatePayload env data) = Some p ->
             createExpediente env be expedientes data w
             = (OpResult.fail ("El folio " ++ InsertRow.folio p ++ " ya existe."), w)).
  { intros p Hp. apply folio_conflict_notice; [exact Hp|].
    apply normalizeCreatePayload_ok in Hp. destruct Hp as (_ & -> & _). exact Hdup. }
  assert (Hinvalid : Validated.payload (normalizeCreatePayload env data) = None ->
                     exists reason,
                       Validated.error (normalizeCreatePayload env data) = Some reason
                       /\ createExpediente env be expedientes data w
                          = (OpResult.fail reason, w)).
  { intros Hnone.
    destruct (normalizeCreatePayload_shape env data) as [[p Hp]|[reason Hr]].
    - rewrite Hp in Hnone. discriminate.
    - exists reason. unfold createExpediente. rewrite Hr. split; reflexivity. }
  split; [|split; assumption].
  destruct (Validated.payload (normalizeCreatePayload env data)) as [p|] eqn:Hp.
  - eexists. now apply Hconflict.
  - destruct (Hinvalid eq_refl) as (reason & _ & H). now exists reason.
Qed.

(** The second of two creations whose folios differ in case only. *)
Lemma duplicate_folio_rejected_locally_witness :
  createExpediente Sample.env (Sample.memory [Sample.firstCase]) [Sample.firstCase]
                   (Sample.inputOf "cedhbc-2026-001" "2026-01-15" None)
                   (Sample.start [Sample.firstCase])
  = (OpResult.fail "El folio CEDHBC-2026-001 ya existe.", Sample.start [Sample.firstCase]).
Proof.
  apply (proj1 (proj2 (duplicate_folio_rejected_locally
                         Sample.env (Sample.memory [Sample.firstCase]) [Sample.firstCase]
                         (Sample.inputOf "cedhbc-2026-001" "2026-01-15" None)
                         (Sample.start [Sample.firstCase]) eq_refl))
               Sample.firstRow).
  vm_compute. reflexivity.
Defined.

(** C2 as stated fails: a creation with the folio of an existing case and
    no filing date, or a filing date of tomorrow, is answered with the
    reason of the validator, not with the uniqueness conflict. *)
Lemma duplicate_folio_with_future_date :
  let undated := Sample.inputOf "cedhbc-2026-001" "" None in
  let postdated := Sample.inputOf "cedhbc-2026-001" "2026-11-03" None in
  let snapshot := [Sample.firstCase] in
  existsb (fun item =>
             same_folio (Expediente.folio item)
                        (slice0 FIELD_LIMITS_folio
                                (normalizeFolio (ExpedienteInsert.folio undated))))
          snapshot = true
  /\ createExpediente Sample.env (Sample.memory snapshot) snapshot undated
                      (Sample.start snapshot)
     = (OpResult.fail "La fecha de presentacion es invalida.", Sample.start snapshot)
  /\ createExpediente Sample.env (Sample.memory snapshot) snapshot postdated
                      (Sample.start snapshot)
     = (OpResult.fail "La fecha de presentacion no puede ser futura.",
        Sample.start snapshot)
  /\ "La fecha de presentacion es invalida." <> "El folio CEDHBC-2026-001 ya existe."
  /\ "La fecha de presentacion no puede ser futura."
     <> "El folio CEDHBC-2026-001 ya existe.".
Proof.
  cbv zeta. repeat split; try discriminate; vm_compute; reflexivity.
Qed.

(** ** C3: identifiers absent from the snapshot *)

(** C3, as amended.  For an identifier absent from the snapshot an update
    stops before the network, with the not-found reason when the
    identifier is well formed and the invalid-identifier reason otherwise,
    and leaves the provider untouched.  A deletion does not look at the
    snapshot: it stops locally only on a malformed identifier, and sends
    the delete request for every well-formed one. *)
Theorem absent_identifier :
  (forall env be expedientes id data w,
      find (fun item => Expediente.id item =? id) expedientes = None ->
      updateExpediente env be expedientes id data w
      = (OpResult.fail (if isUuid id then "No se encontro el expediente a actualizar."
                        else "Identificador de expediente invalido."), w))
  /\ (forall be id w,
         isUuid id = false ->
         deleteExpediente be id w = (Some "Identificador de expediente invalido.", w))
  /\ (forall be id w,
         isUuid id = true ->
         exists rest,
           World.calls (snd (deleteExpediente be id w))
           = (World.calls w ++ Delete id :: rest)%list).
Proof.
  split; [|split].
  - intros env be expedientes id data w Hfind. unfold updateExpediente.
    destruct (isUuid id); cbn [negb]; [|reflexivity].
    now rewrite Hfind.
  - intros be id w Hid. unfold deleteExpediente. now rewrite Hid.
  - intros be id w Hid. unfold deleteExpediente. rewrite Hid. cbn [negb].
    destruct (on_delete be (World.calls w) id); cbn [snd].
    + apply calls_after.
    + now exists [].
    + now exists [].
Qed.

(** An update and a deletion of a well-formed identifier on an empty
    snapshot. *)
Lemma absent_identifier_witness :
  updateExpediente Sample.env (Sample.memory []) [] (Sample.rowId 7)
                   Sample.resolve (Sample.start [])
  = (OpResult.fail "No se encontro el expediente a actualizar.", Sample.start [])
  /\ deleteExpediente (Sample.memory []) "7" (Sample.start [])
     = (Some "Identificador de expediente invalido.", Sample.start [])
  /\ exists rest,
      World.calls (snd (deleteExpediente (Sample.memory []) (Sample.rowId 7)
                                         (Sample.start [])))
      = Delete (Sample.rowId 7) :: rest.
Proof.
  split; [|split].
  - apply (proj1 absent_identifier Sample.env (Sample.memory []) [] (Sample.rowId 7)
             Sample.resolve (Sample.start [])).
    reflexivity.
  - apply (proj1 (proj2 absent_identifier)). vm_compute. reflexivity.
  - apply (proj2 (proj2 absent_identifier) (Sample.memory []) (Sample.rowId 7)
             (Sample.start [])).
    vm_compute. reflexivity.
Defined.

(** C3 as stated fails for deletions: with a well-formed identifier that
    no entry of the snapshot carries, the delete request goes to the
    backend and the operation reports no error. *)
Lemma delete_of_absent_identifier_reaches_backend :
  find (fun item => Expediente.id item =? Sample.rowId 7) [Sample.firstCase] = None
  /\ deleteExpediente (Sample.memory [Sample.firstCase]) (Sample.rowId 7)
                      (Sample.start [Sample.firstCase])
     = (None,
        World.mk [Sample.firstCase] false None true
                 [Delete (Sample.rowId 7); SelectAll]).
Proof.
  split; vm_compute; reflexivity.
Qed.

(** ** C10: the empty patch *)

(** C10, as amended.  For a well-formed identifier present in the
    snapshot, an update with a patch that carries no field stops before
    the network with the reason [No hay cambios para guardar.] and leaves
    the provider untouched. *)
Theorem empty_patch_rejected :
  forall env be expedientes id w current,
    isUuid id = true ->
    find (fun item => Expediente.id item =? id) expedientes = Some current ->
    updateExpediente env be expedientes id Sample.noPatch w
    = (OpResult.fail "No hay cambios para guardar.", w).
Proof.
  intros env be expedientes id w current Hid Hfind.
  unfold updateExpediente. rewrite Hid, Hfind. reflexivity.
Qed.

Lemma empty_patch_rejected_witness :
  updateExpediente Sample.env (Sample.memory [Sample.firstCase]) [Sample.firstCase]
                   (Sample.rowId 0) Sample.noPatch (Sample.start [Sample.firstCase])
  = (OpResult.fail "No hay cambios para guardar.", Sample.start [Sample.firstCase]).
Proof.
  apply (empty_patch_rejected Sample.env (Sample.memory [Sample.firstCase])
           [Sample.firstCase] (Sample.rowId 0) (Sample.start [Sample.firstCase])
           Sample.firstCase).
  - vm_compute. reflexivity.
  - vm_compute. reflexivity.
Defined.

(** C10 as stated fails: an entry of the snapshot whose identifier is of a
    version the format test does not admit gets the invalid-identifier
    reason, whatever the patch. *)
Lemma empty_patch_on_version7_identifier :
  let snapshot := [Sample.caseOf Sample.idV7 "CEDHBC-2026-001" "Admitida"] in
  find (fun item => Expediente.id item =? Sample.idV7) snapshot <> None
  /\ updateExpediente Sample.env (Sample.memory snapshot) snapshot Sample.idV7
                      Sample.noPatch (Sample.start snapshot)
     = (OpResult.fail "Identificador de expediente invalido.", Sample.start snapshot).
Proof.
  cbv zeta. split.
  - vm_compute. discriminate.
  - vm_compute. reflexivity.
Qed.

(** ** C4: the last movement of an update *)

(** C4.  The date the update validator fills in is the date part of the
    ISO text of the clock, which is the date of the UTC calendar.  At noon
    of 2 November 2026 in a zone eight hours behind UTC, resolving a case
    without a date gives the payload the date of 2 November, and the
    update is sent.  At half past seven in the evening of the same local
    day the local date is still 2 November, and that day is the last one
    [isFutureDate] does not call future; the payload gets 3 November, and
    [updateExpediente] refuses its own payload as dated in the future.
    The explicit date is read the same way: in a zone eight hours ahead of
    UTC, a patch dated 20 October at its local midnight carries 19
    October. *)
Theorem stamp_of_an_evening_update :
  (Sample.localDate (Date_now Sample.env) Sample.pacific = "2026-11-02"
   /\ Validated.payload (normalizeUpdatePayload Sample.env Sample.resolve)
      = Some (Sample.resolved "2026-11-02")
   /\ World.calls
        (snd (updateExpediente Sample.env (Sample.memory [Sample.firstCase])
                [Sample.firstCase] (Sample.rowId 0) Sample.resolve
                (Sample.start [Sample.firstCase])))
      = [Update (Sample.rowId 0) (Sample.resolved "2026-11-02"); SelectAll])
  /\ (Sample.localDate (Date_now Sample.env_evening) Sample.pacific = "2026-11-02"
      /\ Date_parse Sample.env_evening "2026-11-02T00:00:00"
         = Some (startOfLocalDay Sample.env_evening (Date_now Sample.env_evening))
      /\ isFutureDate Sample.env_evening "2026-11-02" = false
      /\ isFutureDate Sample.env_evening "2026-11-03" = true
      /\ Validated.payload (normalizeUpdatePayload Sample.env_evening Sample.resolve)
         = Some (Sample.resolved "2026-11-03")
      /\ updateExpediente Sample.env_evening (Sample.memory [Sample.firstCase])
                          [Sample.firstCase] (Sample.rowId 0) Sample.resolve
                          (Sample.start [Sample.firstCase])
         = (OpResult.fail "La fecha de ultimo movimiento no puede ser futura.",
            Sample.start [Sample.firstCase]))
  /\ ((exists supplied,
          Date_parse Sample.env_east "2026-10-20T00:00:00" = Some supplied
          /\ Sample.localDate supplied Sample.east = "2026-10-20"
          /\ isoDatePart supplied = "2026-10-19")
      /\ Validated.payload (normalizeUpdatePayload Sample.env_east Sample.resolveDated)
         = Some (Sample.resolved "2026-10-19")).
Proof.
  split; [|split].
  - repeat split; vm_compute; reflexivity.
  - repeat split; vm_compute; reflexivity.
  - split; [|vm_compute; reflexivity].
    eexists. split; [vm_compute; reflexivity|].
    split; vm_compute; reflexivity.
Qed.

(** ** C5: the two spellings of a status *)

(** C5.  On two cases of the period that hold the same state in its two
    stored spellings, the report counts two buckets of one case each, and
    the list filter on the accented spelling leaves the other case out;
    the dashboard, which normalises the status first, counts one bucket of
    two. *)
Theorem report_splits_the_two_spellings :
  let cases := [ Sample.caseOf (Sample.rowId 0) "CEDHBC-2026-001" "En integración";
                 Sample.caseOf (Sample.rowId 1) "CEDHBC-2026-002" "En integracion" ] in
  Panels.byEstado (fun _ => true) cases = [("En integración", 1); ("En integracion", 1)]
  /\ filter (Panels.matchEstado "En integración") cases
     = [Sample.caseOf (Sample.rowId 0) "CEDHBC-2026-001" "En integración"]
  /\ Panels.estadoData cases = [("En integracion", 2)].
Proof.
  cbv zeta. repeat split; vm_compute; reflexivity.
Qed.

(** The dashboard merges the spellings of both states, whatever else the
    snapshot holds. *)
Lemma normalizeEstado_merges :
  Panels.normalizeEstado "En integración" = Panels.normalizeEstado "En integracion"
  /\ Panels.normalizeEstado "En conciliación" = Panels.normalizeEstado "En conciliacion".
Proof.
  split; vm_compute; reflexivity.
Qed.

(** ** The notification list *)

Section NewestFirst.

Import Notifications.

Local Abbreviation ts := Notification.timestamp.

Lemma In_firstn {A : Type} (k : nat) (l : list A) (x : A) :
  In x (firstn k l) -> In x l.
Proof.
  intros H. rewrite <- (firstn_skipn k l). apply in_or_app. now left.
Qed.

Lemma insert_newest_first_perm (x : Notification.t) (l : list Notification.t) :
  Permutation (x :: l) (insert_newest_first x l).
Proof.
  induction l as [|y l IH]; simpl; [reflexivity|].
  destruct (ts y >? ts x)%Z; [|reflexivity].
  rewrite perm_swap. now constructor.
Qed.

Lemma sort_newest_first_perm (l : list Notification.t) :
  Permutation l (sort_newest_first l).
Proof.
  induction l as [|x l IH]; simpl; [reflexivity|].
  rewrite <- insert_newest_first_perm. now constructor.
Qed.

Lemma insert_newest_first_sorted (x : Notification.t) (l : list Notification.t) :
  newest_first l -> newest_first (insert_newest_first x l).
Proof.
  unfold newest_first. induction 1 as [|y l Hl IH Hy]; simpl.
  - repeat constructor.
  - destruct (ts y >? ts x)%Z eqn:E.
    + constructor; [exact IH|].
      rewrite <- insert_newest_first_perm. constructor; [lia | exact Hy].
    + constructor; [now constructor|].
      constructor; [lia|].
      eapply Forall_impl; [|exact Hy]. cbn. intros; lia.
Qed.

Lemma sort_newest_first_sorted (l : list Notification.t) :
  newest_first (sort_newest_first l).
Proof.
  induction l as [|x l IH]; simpl.
  - constructor.
  - now apply insert_newest_first_sorted.
Qed.

(** An entry at least as recent as the head goes in front. *)
Lemma insert_newest_first_front (x : Notification.t) (l : list Notification.t) :
  (forall y, In y l -> (ts y <= ts x)%Z) -> insert_newest_first x l = x :: l.
Proof.
  destruct l as [|y l]; simpl; [reflexivity|].
  intros H. assert (ts y <= ts x)%Z by (apply H; now left).
  destruct (ts y >? ts x)%Z eqn:E; [lia | reflexivity].
Qed.

(** The sort leaves a sorted list alone. *)
Lemma sort_newest_first_id (l : list Notification.t) :
  newest_first l -> sort_newest_first l = l.
Proof.
  unfold newest_first. induction 1 as [|x l Hl IH Hx]; simpl; [reflexivity|].
  rewrite IH. apply insert_newest_first_front.
  intros y Hy. rewrite Forall_forall in Hx. now apply Hx.
Qed.

Lemma newest_first_firstn (k : nat) (l : list Notification.t) :
  newest_first l -> newest_first (firstn k l).
Proof.
  unfold newest_first. intros H. revert k.
  induction H as [|x l Hl IH Hx]; intros [|k]; simpl; try constructor.
  - apply IH.
  - rewrite Forall_forall in *. intros y Hy. apply Hx.
    eapply In_firstn. exact Hy.
Qed.

Lemma newest_first_filter (p : Notification.t -> bool) (l : list Notification.t) :
  newest_first l -> newest_first (filter p l).
Proof.
  unfold newest_first. induction 1 as [|x l Hl IH Hx]; simpl; [constructor|].
  destruct (p x); [|exact IH].
  constructor; [exact IH|].
  rewrite Forall_forall in *. intros y Hy. apply Hx.
  now apply filter_In in Hy.
Qed.

Lemma newest_first_map (f : Notification.t -> Notification.t) (l : list Notification.t) :
  (forall x, ts (f x) = ts x) -> newest_first l -> newest_first (map f l).
Proof.
  unfold newest_first. intros Hf. induction 1 as [|x l Hl IH Hx]; simpl; constructor.
  - exact IH.
  - rewrite Forall_forall in *. intros y Hy.
    apply in_map_iff in Hy as (z & <- & Hz). rewrite !Hf. now apply Hx.
Qed.

(** In a sorted list whatever comes later is no more recent. *)
Lemma newest_first_app (a b : list Notification.t) :
  newest_first (a ++ b) ->
  forall x y, In x a -> In y b -> (ts y <= ts x)%Z.
Proof.
  unfold newest_first. induction a as [|z a IH]; simpl; intros H x y Hx Hy.
  - contradiction.
  - inversion H as [|? ? Hs Hz]; subst.
    destruct Hx as [<-|Hx].
    + rewrite Forall_forall in Hz. apply Hz, in_or_app. now right.
    + now apply (IH Hs x y).
Qed.

Lemma retain_sorted (l : list Notification.t) : newest_first (retain l).
Proof.
  apply newest_first_firstn, sort_newest_first_sorted.
Qed.

Lemma retain_length (l : list Notification.t) :
  List.length (retain l) = Nat.min MAX_NOTIFICATIONS (List.length l).
Proof.
  unfold retain. rewrite length_firstn.
  now rewrite <- (Permutation_length (sort_newest_first_perm l)).
Qed.

Lemma retain_id (l : list Notification.t) :
  newest_first l -> List.length l <= MAX_NOTIFICATIONS -> retain l = l.
Proof.
  intros Hs Hl. unfold retain. rewrite sort_newest_first_id by exact Hs.
  now apply firstn_all2.
Qed.

(** What is kept and what is left out make up the list, and nothing left
    out is more recent than anything kept. *)
Lemma retain_keeps_newest (l : list Notification.t) :
  Permutation l (retain l ++ dropped l)
  /\ forall kept out, In kept (retain l) -> In out (dropped l) ->
                      (ts out <= ts kept)%Z.
Proof.
  unfold retain, dropped. split.
  - rewrite firstn_skipn. apply sort_newest_first_perm.
  - apply newest_first_app. rewrite firstn_skipn. apply sort_newest_first_sorted.
Qed.

End NewestFirst.

Section Retention.

Import Notifications.

Local Abbreviation ts := Notification.timestamp.

(** The bound and the order hold of every list the provider can hold. *)
Lemma reachable_invariant (l : list Notification.t) :
  reachable l -> List.length l <= MAX_NOTIFICATIONS /\ newest_first l.
Proof.
  assert (Hretain : forall l', List.length (retain l') <= MAX_NOTIFICATIONS
                               /\ newest_first (retain l')).
  { intros l'. split; [rewrite retain_length; lia | apply retain_sorted]. }
  induction 1 as [stored|uuid now n l Hl IH|now id n l Hl IH|id l Hl IH
                  |id l Hl IH|l Hl IH|l Hl IH].
  - destruct stored as [items|]; simpl; [apply Hretain|].
    split; [lia | constructor].
  - apply Hretain.
  - unfold upsertSystemNotification.
    destruct (find (has_id id) l) as [found|]; [|apply Hretain].
    destruct (negb (contentChanged found n)); [exact IH | apply Hretain].
  - destruct IH as [Hlen Hs]. split.
    + unfold removeNotification.
      pose proof (filter_length_le (fun n => negb (has_id id n)) l). lia.
    + now apply newest_first_filter.
  - destruct IH as [Hlen Hs]. split.
    + unfold markRead. now rewrite length_map.
    + apply newest_first_map; [|exact Hs].
      intros x. now destruct (has_id id x).
  - destruct IH as [Hlen Hs]. split.
    + unfold markAllRead. now rewrite length_map.
    + now apply newest_first_map.
  - split; [simpl; lia | constructor].
Qed.

Lemma sort_newest_first_cons (x : Notification.t) (l : list Notification.t) :
  sort_newest_first (x :: l) = insert_newest_first x (sort_newest_first l).
Proof. reflexivity. Qed.

(** The front of an insertion depends on the front of the list only. *)
Lemma insert_newest_first_firstn (k : nat) (x : Notification.t) (l : list Notification.t) :
  firstn k (insert_newest_first x l) = firstn k (insert_newest_first x (firstn k l)).
Proof.
  revert k. induction l as [|y l IH]; intros k.
  - now rewrite firstn_nil.
  - destruct k as [|k]; [reflexivity|].
    rewrite (firstn_cons k y l). cbn [insert_newest_first].
    destruct (ts y >? ts x)%Z; rewrite !firstn_cons.
    + now rewrite IH.
    + f_equal. destruct k as [|k]; [reflexivity|].
      rewrite !firstn_cons. f_equal.
      rewrite firstn_firstn. f_equal. lia.
Qed.

Lemma sort_newest_first_app_sorted (a b : list Notification.t) :
  sort_newest_first (a ++ sort_newest_first b) = sort_newest_first (a ++ b).
Proof.
  induction a as [|x a IH]; simpl.
  - apply sort_newest_first_id, sort_newest_first_sorted.
  - now rewrite IH.
Qed.

(** Truncating in between does not change what a later truncation keeps. *)
Lemma retain_app_retain (a b : list Notification.t) :
  retain (a ++ retain b) = retain (a ++ b).
Proof.
  unfold retain. generalize MAX_NOTIFICATIONS. intros k.
  rewrite <- (sort_newest_first_app_sorted a b).
  generalize (sort_newest_first_sorted b).
  generalize (sort_newest_first b). intros s Hs.
  induction a as [|x a IH].
  - rewrite !app_nil_l.
    rewrite !sort_newest_first_id;
      [| exact Hs | now apply newest_first_firstn].
    rewrite firstn_firstn. f_equal. lia.
  - rewrite <- !app_comm_cons, !sort_newest_first_cons.
    rewrite insert_newest_first_firstn, IH.
    now rewrite <- insert_newest_first_firstn.
Qed.

(** A run of additions keeps the newest of what it made and what it
    started from. *)
Lemma addMany_retain (steps : list (string * Z * AddInput.t)) :
  forall start,
    newest_first start -> List.length start <= MAX_NOTIFICATIONS ->
    addMany steps start = retain (made steps ++ start).
Proof.
  unfold addMany, made.
  induction steps as [|[[uuid now] n] steps IH]; intros start Hs Hl; simpl.
  - symmetry. now apply retain_id.
  - rewrite IH.
    + unfold addNotification. rewrite retain_app_retain.
      now rewrite <- app_assoc.
    + apply retain_sorted.
    + unfold addNotification. rewrite retain_length. lia.
Qed.

End Retention.

(** ** C8: bounded retention *)



(** ** C7: upsert by key *)

Section Upsert.

Import Notifications.

Local Abbreviation ts := Notification.timestamp.

Variable id : string.
Variable n : UpsertInput.t.

Lemma has_id_rewrite_entry (now : Z) (x : Notification.t) :
  has_id id (rewrite_entry id n now x) = has_id id x.
Proof.
  unfold rewrite_entry. destruct (has_id id x) eqn:E; cbn [negb]; [|exact E].
  exact E.
Qed.

Lemma contentChanged_written (key : string) (now : Z) :
  contentChanged
    (Notification.mk key (UpsertInput.type n) (UpsertInput.title n)
                     (UpsertInput.message n) (nullish (UpsertInput.read n) false) now)
    n = false.
Proof.
  unfold contentChanged. cbn.
  rewrite !String.eqb_refl. cbn.
  destruct (UpsertInput.type n), (UpsertInput.read n) as [[|]|]; reflexivity.
Qed.

Lemma In_retain (l : list Notification.t) (x : Notification.t) :
  In x (retain l) -> In x l.
Proof.
  unfold retain. intros H. apply In_firstn in H.
  eapply Permutation_in; [symmetry; apply sort_newest_first_perm | exact H].
Qed.

(** The entry an upsert leaves under the key has the content asked for. *)
Lemma upsert_entry_content (now : Z) (prev : list Notification.t) (e : Notification.t) :
  find (has_id id) (upsertSystemNotification now id n prev) = Some e ->
  contentChanged e n = false.
Proof.
  unfold upsertSystemNotification.
  destruct (find (has_id id) prev) as [found|] eqn:Hfind.
  - destruct (contentChanged found n) eqn:Hchanged; cbn [negb].
    + intros He. apply find_some in He as [Hin Hid].
      apply In_retain, in_map_iff in Hin as (x & <- & _).
      rewrite has_id_rewrite_entry in Hid.
      unfold rewrite_entry. rewrite Hid. cbn [negb].
      apply contentChanged_written.
    + rewrite Hfind. now intros [= <-].
  - intros He. apply find_some in He as [Hin Hid].
    apply In_retain in Hin. destruct Hin as [<-|Hin].
    + apply contentChanged_written.
    + pose proof (find_none _ _ Hfind e Hin) as Hno. congruence.
Qed.

Lemma entries_with_perm (l l' : list Notification.t) :
  Permutation l l' -> entries_with id l = entries_with id l'.
Proof.
  unfold entries_with. induction 1; simpl; try congruence.
  - destruct (has_id id x); simpl; congruence.
  - destruct (has_id id x), (has_id id y); reflexivity.
Qed.

Lemma entries_with_firstn (k : nat) (l : list Notification.t) :
  entries_with id (firstn k l) <= entries_with id l.
Proof.
  unfold entries_with. revert k.
  induction l as [|x l IH]; intros [|k]; simpl; try lia.
  specialize (IH k). destruct (has_id id x); simpl; lia.
Qed.

Lemma entries_with_retain (l : list Notification.t) :
  entries_with id (retain l) <= entries_with id l.
Proof.
  unfold retain.
  rewrite (entries_with_perm l (sort_newest_first l)) by apply sort_newest_first_perm.
  apply entries_with_firstn.
Qed.

Lemma entries_with_rewrite (now : Z) (l : list Notification.t) :
  entries_with id (map (rewrite_entry id n now) l) = entries_with id l.
Proof.
  unfold entries_with. induction l as [|x l IH]; simpl; [reflexivity|].
  rewrite has_id_rewrite_entry. destruct (has_id id x); simpl; congruence.
Qed.

Lemma entries_with_none (l : list Notification.t) :
  find (has_id id) l = None -> entries_with id l = 0.
Proof.
  unfold entries_with. induction l as [|x l IH]; simpl; [reflexivity|].
  destruct (has_id id x); [discriminate | exact IH].
Qed.

(** [find] cuts the list at the first entry of the key. *)
Lemma find_split (l : list Notification.t) (x : Notification.t) :
  find (has_id id) l = Some x ->
  exists pre post,
    l = (pre ++ x :: post)%list
    /\ has_id id x = true
    /\ forall y, In y pre -> has_id id y = false.
Proof.
  induction l as [|y l IH]; simpl; [discriminate|].
  destruct (has_id id y) eqn:E.
  - intros [= <-]. exists [], l. repeat split; [exact E | contradiction].
  - intros H. destruct (IH H) as (pre & post & -> & Hx & Hpre).
    exists (y :: pre), post. repeat split; [exact Hx|].
    intros z [<-|Hz]; auto.
Qed.

(** An entry strictly newer than all before it and at least as recent as
    all after it is sorted to the front. *)
Lemma sort_newest_first_front (pre post : list Notification.t) (x : Notification.t) :
  (forall y, In y pre -> (ts y < ts x)%Z) ->
  (forall y, In y post -> (ts y <= ts x)%Z) ->
  sort_newest_first (pre ++ x :: post) = x :: sort_newest_first (pre ++ post).
Proof.
  intros Hpre Hpost. induction pre as [|p pre IH].
  - rewrite !app_nil_l, sort_newest_first_cons.
    apply insert_newest_first_front. intros y Hy. apply Hpost.
    eapply Permutation_in; [symmetry; apply sort_newest_first_perm | exact Hy].
  - rewrite <- !app_comm_cons, !sort_newest_first_cons.
    rewrite IH by (intros y Hy; apply Hpre; now right).
    cbn [insert_newest_first].
    assert (ts p < ts x)%Z by (apply Hpre; now left).
    destruct (ts x >? ts p)%Z eqn:E; [reflexivity | lia].
Qed.

End Upsert.




(** Why the first part of C7 asks for the entry to be in the list: on a
    full list whose entries are all stamped later than the clock reads, the
    entry an upsert makes is sorted last and cut off. *)
Lemma upsert_behind_the_clock_is_dropped :
  find (Notifications.has_id "system-stale-cases")
       (Notifications.upsertSystemNotification 1000 "system-stale-cases"
          (Sample.staleCases "3") Sample.ahead)
  = None.
Proof.
  vm_compute. reflexivity.
Qed.

(** ** C9: the backup import *)

Section BackupImport.

Import Configuracion.

(** The loop goes through every record it is given and adds one to
    exactly one counter for each. *)
Lemma importLoop_counts (env : Env) (be : Backend) (expedientes : list Expediente.t)
      (records : list ExpedienteInsert.t) :
  forall existingFolios t w,
    counted (fst (importLoop env be expedientes records existingFolios t w))
    = counted t + List.length records.
Proof.
  induction records as [|record rest IH]; intros existingFolios t w; cbn [importLoop].
  - cbn. lia.
  - destruct (existsb _ existingFolios).
    + rewrite IH. unfold counted. cbn. lia.
    + destruct (createExpediente env be expedientes record w) as [result w'].
      destruct (truthy_opt (OpResult.error result));
        rewrite IH; unfold counted; cbn; lia.
Qed.

Lemma not_seen (key : string) (seen : list string) :
  ~ In key seen -> existsb (String.eqb key) seen = false.
Proof.
  intros Hout. apply Bool.not_true_iff_false. intros H.
  apply existsb_exists in H. destruct H as (x & Hin & Heq).
  apply String.eqb_eq in Heq. now subst x.
Qed.

Lemma tallied_cons (t : Tally) (v : Verdict) (vs : list Verdict) :
  tallied t (v :: vs)
  = tallied (match v with
             | Imported => mkTally (imported t + 1) (skipped t) (failed t)
             | Skipped => mkTally (imported t) (skipped t + 1) (failed t)
             | Failed => mkTally (imported t) (skipped t) (failed t + 1)
             end) vs.
Proof.
  unfold tallied, count_of. destruct v; cbn; f_equal; lia.
Qed.

(** The counters of the loop are the numbers of records of each class. *)
Lemma importLoop_tallied (env : Env) (be : Backend) (expedientes : list Expediente.t)
      (records : list ExpedienteInsert.t) :
  forall seen t w,
    fst (importLoop env be expedientes records seen t w)
    = tallied t (verdicts env be expedientes records seen w).
Proof.
  induction records as [|record rest IH]; intros seen t w;
    cbn [importLoop verdicts].
  - unfold tallied, count_of. cbn. destruct t. cbn. f_equal; lia.
  - unfold verdict.
    destruct (existsb _ seen).
    + cbn [fst snd seen_after]. now rewrite IH, tallied_cons.
    + destruct (createExpediente env be expedientes record w) as [result w'].
      cbn [fst snd].
      destruct (truthy_opt (OpResult.error result));
        cbn [seen_after]; now rewrite IH, tallied_cons.
Qed.

Lemma length_verdicts (env : Env) (be : Backend) (expedientes : list Expediente.t)
      (records : list ExpedienteInsert.t) :
  forall seen w,
    List.length (verdicts env be expedientes records seen w) = List.length records.
Proof.
  induction records as [|record rest IH]; intros seen w; cbn [verdicts];
    [reflexivity|].
  cbn [List.length]. now rewrite IH.
Qed.

End BackupImport.




(* ================================================================== *)
(** * Further properties *)
(* ================================================================== *)

(** ** White space *)

Section WhiteSpace.

Lemma replace_runs_single (b : bool) (s : string) :
  single_spaced b (replace_runs_from is_space " " b s) = true.
Proof.
  revert b; induction s as [|c s IH]; intros b; simpl; [reflexivity|].
  destruct (is_space c) eqn:Hc.
  - destruct b; [apply IH|].
    simpl. apply IH.
  - simpl. rewrite Hc. apply IH.
Qed.

Lemma single_spaced_fixed (b : bool) (s : string) :
  single_spaced b s = true -> replace_runs_from is_space " " b s = s.
Proof.
  revert b; induction s as [|c s IH]; intros b; simpl; [reflexivity|].
  destruct (is_space c) eqn:Hc.
  - intros H. apply andb_prop in H as [H Hs]. apply andb_prop in H as [Heq Hb].
    apply Ascii.eqb_eq in Heq. subst c.
    destruct b; [discriminate|].
    simpl. now rewrite (IH true Hs).
  - intros H. now rewrite (IH false H).
Qed.

Lemma single_spaced_weaken (b : bool) (s : string) :
  single_spaced b s = true -> single_spaced false s = true.
Proof.
  destruct s as [|c s]; simpl; [reflexivity|].
  destruct (is_space c); [|tauto].
  intros H. apply andb_prop in H as [H Hs]. apply andb_prop in H as [Heq _].
  now rewrite Heq, Hs.
Qed.

Lemma single_spaced_trimStart (b : bool) (s : string) :
  single_spaced b s = true -> single_spaced true (trimStart s) = true.
Proof.
  revert b; induction s as [|c s IH]; intros b; simpl; [reflexivity|].
  destruct (is_space c) eqn:Hc.
  - intros H. apply andb_prop in H as [_ Hs]. now apply (IH true).
  - intros H. simpl. now rewrite Hc.
Qed.

Lemma single_spaced_trimEnd (b : bool) (s : string) :
  single_spaced b s = true -> single_spaced b (trimEnd s) = true.
Proof.
  revert b; induction s as [|c s IH]; intros b; simpl; [reflexivity|].
  destruct (is_space c) eqn:Hc.
  - intros H. apply andb_prop in H as [H Hs]. apply andb_prop in H as [Heq Hb].
    specialize (IH true Hs).
    destruct (trimEnd s) as [|d t]; [reflexivity|].
    simpl. rewrite Hc, Heq, Hb. exact IH.
  - intros H. specialize (IH false H).
    destruct (trimEnd s) as [|d t]; simpl; rewrite Hc; [reflexivity|exact IH].
Qed.

Lemma trimStart_head (s : string) :
  trimStart s = "" \/ exists c r, trimStart s = String c r /\ is_space c = false.
Proof.
  induction s as [|c s IH]; simpl; [now left|].
  destruct (is_space c) eqn:Hc; [exact IH|].
  right. now exists c, s.
Qed.

Lemma trimEnd_cons (c : ascii) (s : string) :
  is_space c = false -> exists t, trimEnd (String c s) = String c t.
Proof.
  intros Hc. simpl. destruct (trimEnd s) as [|d t].
  - rewrite Hc. now exists "".
  - now exists (String d t).
Qed.

Lemma trimEnd_idem (s : string) : trimEnd (trimEnd s) = trimEnd s.
Proof.
  induction s as [|c s IH]; simpl; [reflexivity|].
  destruct (trimEnd s) as [|d t] eqn:E.
  - destruct (is_space c) eqn:Hc; simpl; [reflexivity|now rewrite Hc].
  - change (trimEnd (String c (String d t))) with
      (match trimEnd (String d t) with
       | "" => if is_space c then "" else String c ""
       | u => String c u
       end).
    now rewrite IH.
Qed.

Lemma trim_idem (s : string) : trim (trim s) = trim s.
Proof.
  unfold trim.
  destruct (trimStart_head s) as [E | (c & r & E & Hc)]; rewrite E; [reflexivity|].
  destruct (trimEnd_cons c r Hc) as [t Ht].
  rewrite Ht. simpl trimStart. rewrite Hc. rewrite <- Ht. apply trimEnd_idem.
Qed.

(** What [trim] returns starts with a character that is not white
    space. *)
Lemma trim_head (s : string) :
  trim s = "" \/ exists c r, trim s = String c r /\ is_space c = false.
Proof.
  unfold trim.
  destruct (trimStart_head s) as [E | (c & r & E & Hc)]; rewrite E; [now left|].
  destruct (trimEnd_cons c r Hc) as [t Ht].
  right. now exists c, t.
Qed.

Lemma trimEnd_empty (s : string) : (trimEnd s =? "") = forall_str is_space s.
Proof.
  induction s as [|c s IH]; simpl; [reflexivity|].
  destruct (trimEnd s) as [|d t].
  - simpl in IH. rewrite <- IH. destruct (is_space c); reflexivity.
  - simpl in IH. rewrite <- IH. now rewrite andb_false_r.
Qed.

Lemma forall_space_trimStart (s : string) :
  forall_str is_space (trimStart s) = forall_str is_space s.
Proof.
  induction s as [|c s IH]; simpl; [reflexivity|].
  destruct (is_space c) eqn:Hc; simpl; [exact IH|now rewrite Hc].
Qed.

Lemma truthy_trim (s : string) : truthy (trim s) = negb (forall_str is_space s).
Proof.
  unfold truthy, trim. now rewrite trimEnd_empty, forall_space_trimStart.
Qed.

Lemma forall_space_replace_runs (b : bool) (s : string) :
  forall_str is_space (replace_runs_from is_space " " b s) = forall_str is_space s.
Proof.
  revert b; induction s as [|c s IH]; intros b; simpl; [reflexivity|].
  destruct (is_space c) eqn:Hc; simpl.
  - destruct b; simpl; apply IH.
  - now rewrite Hc.
Qed.

Lemma truthy_normalizeWhitespace (s : string) :
  truthy (normalizeWhitespace s) = negb (forall_str is_space s).
Proof.
  unfold normalizeWhitespace, replace_runs.
  now rewrite truthy_trim, forall_space_replace_runs.
Qed.

Lemma normalizeWhitespace_single (s : string) :
  single_spaced true (normalizeWhitespace s) = true.
Proof.
  unfold normalizeWhitespace, replace_runs, trim.
  apply single_spaced_trimEnd, (single_spaced_trimStart false), replace_runs_single.
Qed.

Lemma normalizeWhitespace_idem (s : string) :
  normalizeWhitespace (normalizeWhitespace s) = normalizeWhitespace s.
Proof.
  unfold normalizeWhitespace at 1. unfold replace_runs.
  rewrite single_spaced_fixed
    by (apply (single_spaced_weaken true), normalizeWhitespace_single).
  unfold normalizeWhitespace. apply trim_idem.
Qed.

(** A cut of a normalised text that keeps at least one character is not
    empty, and is not made of white space. *)
Lemma slice0_normalizeWhitespace (n : nat) (s : string) :
  forall_str is_space (slice0 (S n) (normalizeWhitespace s)) = forall_str is_space s.
Proof.
  pose proof (truthy_normalizeWhitespace s) as Ht.
  unfold normalizeWhitespace in *.
  destruct (trim_head (replace_runs is_space " " s)) as [E | (c & r & E & Hc)];
    rewrite E in *.
  - simpl in *. destruct (forall_str is_space s); [reflexivity|discriminate].
  - simpl in *. rewrite Hc. simpl. destruct (forall_str is_space s); [discriminate|reflexivity].
Qed.

Lemma truthy_slice0 (n : nat) (s : string) : truthy (slice0 (S n) s) = truthy s.
Proof. destruct s; reflexivity. Qed.

Lemma truthy_truncateText (n : nat) (s : string) :
  truthy (truncateText s (S n)) = negb (forall_str is_space s).
Proof.
  unfold truncateText. now rewrite truthy_slice0, truthy_normalizeWhitespace.
Qed.

End WhiteSpace.

(** X1.  [normalizeWhitespace] computes a normal form: applying it again
    changes nothing; the result has no white space but single blanks
    between other characters, none at either end; and it is empty exactly
    when the text is made of white space. *)
Theorem normalizeWhitespace_normal_form (s : string) :
  normalizeWhitespace (normalizeWhitespace s) = normalizeWhitespace s
  /\ single_spaced true (normalizeWhitespace s) = true
  /\ trim (normalizeWhitespace s) = normalizeWhitespace s
  /\ truthy (normalizeWhitespace s) = negb (forall_str is_space s).
Proof.
  repeat split.
  - apply normalizeWhitespace_idem.
  - apply normalizeWhitespace_single.
  - unfold normalizeWhitespace. apply trim_idem.
  - apply truthy_normalizeWhitespace.
Qed.

(** X2.  [truncateText] never returns more than [maxLength] characters,
    returns the normalised text itself when that is short enough, and,
    for a positive bound, returns the empty text exactly when the value is
    made of white space: this is the test the validators apply to the
    required fields. *)
Theorem truncateText_bound (value : string) (maxLength : nat) :
  String.length (truncateText value maxLength) <= maxLength
  /\ truthy (truncateText value (S maxLength)) = negb (forall_str is_space value)
  /\ truncateText value (String.length (normalizeWhitespace value) + maxLength)
     = normalizeWhitespace value.
Proof.
  repeat split.
  - unfold truncateText. rewrite length_slice0. apply Nat.le_min_l.
  - apply truthy_truncateText.
  - unfold truncateText. apply slice0_all. lia.
Qed.

(** ** Exported cells *)

Section Cells.

Import Sheets.

Lemma forall_str_trimStart (p : ascii -> bool) (s : string) :
  forall_str p s = true -> forall_str p (trimStart s) = true.
Proof.
  induction s as [|c s IH]; simpl; [reflexivity|].
  intros H. apply andb_prop in H as [Hc Hs].
  destruct (is_space c); [now apply IH|]. simpl. now rewrite Hc, Hs.
Qed.

Lemma forall_str_trimEnd (p : ascii -> bool) (s : string) :
  forall_str p s = true -> forall_str p (trimEnd s) = true.
Proof.
  induction s as [|c s IH]; simpl; [reflexivity|].
  intros H. apply andb_prop in H as [Hc Hs]. specialize (IH Hs).
  destruct (trimEnd s) as [|d t].
  - destruct (is_space c); simpl; [reflexivity|now rewrite Hc].
  - simpl in *. now rewrite Hc, IH.
Qed.

Lemma forall_str_trim (p : ascii -> bool) (s : string) :
  forall_str p s = true -> forall_str p (trim s) = true.
Proof. intros H. now apply forall_str_trimEnd, forall_str_trimStart. Qed.

Lemma sanitizeSpreadsheetCell_no_control (value : string) :
  forall_str (fun c => negb (is_control c)) (sanitizeSpreadsheetCell value) = true.
Proof.
  unfold sanitizeSpreadsheetCell.
  set (normalized := trim (map_str _ value)).
  assert (Hn : forall_str (fun c => negb (is_control c)) normalized = true).
  { apply forall_str_trim, forall_str_map.
    intros c. destruct (is_control c) eqn:Hc; [reflexivity|now rewrite Hc]. }
  destruct (truthy normalized); simpl; [|reflexivity].
  destruct (starts_with formula_lead normalized); [|exact Hn].
  simpl. exact Hn.
Qed.

Lemma sanitizeSpreadsheetCell_no_lead (value : string) :
  starts_with formula_lead (sanitizeSpreadsheetCell value) = false.
Proof.
  unfold sanitizeSpreadsheetCell.
  set (normalized := trim (map_str _ value)).
  destruct (truthy normalized); simpl; [|reflexivity].
  destruct (starts_with formula_lead normalized) eqn:E; [reflexivity|exact E].
Qed.

Lemma sanitizeSpreadsheetCell_trimmed (value : string) :
  trim (sanitizeSpreadsheetCell value) = sanitizeSpreadsheetCell value.
Proof.
  unfold sanitizeSpreadsheetCell.
  set (normalized := trim (map_str _ value)).
  assert (Hn : trim normalized = normalized) by apply trim_idem.
  assert (He : trimEnd normalized = normalized).
  { unfold normalized, trim. apply trimEnd_idem. }
  destruct (truthy normalized) eqn:Ht; simpl; [|reflexivity].
  destruct (starts_with formula_lead normalized); [|exact Hn].
  unfold trim. simpl trimStart. simpl trimEnd. rewrite He.
  destruct normalized; [discriminate|reflexivity].
Qed.

Lemma sanitizeSpreadsheetCell_clean (s : string) :
  forall_str (fun c => negb (is_control c)) s = true ->
  trim s = s ->
  starts_with formula_lead s = false ->
  sanitizeSpreadsheetCell s = s.
Proof.
  intros Hc Ht Hs. unfold sanitizeSpreadsheetCell.
  rewrite (map_str_fixed _ s).
  2:{ eapply forall_str_impl; [|exact Hc].
      intros c H. simpl in H. destruct (is_control c); [discriminate|].
      apply Ascii.eqb_refl. }
  rewrite Ht, Hs. destruct s; reflexivity.
Qed.

Lemma expand_app (f : ascii -> string) (a b : string) :
  expand f (a ++ b) = expand f a ++ expand f b.
Proof.
  induction a as [|c a IH]; simpl; [reflexivity|].
  rewrite IH. clear IH. induction (f c) as [|d r IHr]; simpl; [reflexivity|].
  now rewrite IHr.
Qed.

Lemma replace_char_expand (c : ascii) (r s : string) :
  replace_char c r s
  = expand (fun x => if Ascii.eqb x c then r else String x EmptyString) s.
Proof. induction s as [|x s IH]; simpl; [reflexivity|now rewrite IH]. Qed.

Lemma expand_expand (f g : ascii -> string) (s : string) :
  expand g (expand f s) = expand (fun c => expand g (f c)) s.
Proof.
  induction s as [|c s IH]; simpl; [reflexivity|].
  now rewrite expand_app, IH.
Qed.

Lemma expand_ext (f g : ascii -> string) (s : string) :
  (forall c, f c = g c) -> expand f s = expand g s.
Proof.
  intros H. induction s as [|c s IH]; simpl; [reflexivity|]. now rewrite H, IH.
Qed.

(** The five replacements of [xmlEscape], one after the other, come to
    one pass that writes each character as its entity. *)
Lemma xmlEscape_expand (value : string) : xmlEscape value = expand xml_entity value.
Proof.
  unfold xmlEscape. rewrite !replace_char_expand, !expand_expand.
  apply expand_ext. intros c.
  destruct c as [[] [] [] [] [] [] [] []]; reflexivity.
Qed.

Lemma xml_entity_cases (c : ascii) :
  (xml_entity c = String c EmptyString /\ markup c = false /\ c <> "&"%char)
  \/ (c = "&"%char /\ xml_entity c = "&amp;")
  \/ (c = "<"%char /\ xml_entity c = "&lt;")
  \/ (c = ">"%char /\ xml_entity c = "&gt;")
  \/ (c = dquote /\ xml_entity c = "&quot;")
  \/ (c = "'"%char /\ xml_entity c = "&apos;").
Proof.
  unfold xml_entity, markup.
  destruct (Ascii.eqb_spec c "&"); [subst; tauto|].
  destruct (Ascii.eqb_spec c "<"); [subst; tauto|].
  destruct (Ascii.eqb_spec c ">"); [subst; tauto|].
  destruct (Ascii.eqb_spec c dquote); [subst; tauto|].
  destruct (Ascii.eqb_spec c "'"); [subst; tauto|].
  left. auto.
Qed.

Lemma expand_xml_entity_inj (a b : string) :
  expand xml_entity a = expand xml_entity b -> a = b.
Proof.
  revert b; induction a as [|c a IH]; intros [|d b]; simpl.
  - reflexivity.
  - destruct (xml_entity_cases d) as [(E & _) | [(_ & E) | [(_ & E) | [(_ & E) | [(_ & E) | (_ & E)]]]]];
      rewrite E; discriminate.
  - destruct (xml_entity_cases c) as [(E & _) | [(_ & E) | [(_ & E) | [(_ & E) | [(_ & E) | (_ & E)]]]]];
      rewrite E; discriminate.
  - destruct (xml_entity_cases c)
      as [(E & Hm & Ha) | [(Hc & E) | [(Hc & E) | [(Hc & E) | [(Hc & E) | (Hc & E)]]]]];
    destruct (xml_entity_cases d)
      as [(E' & Hm' & Ha') | [(Hd & E') | [(Hd & E') | [(Hd & E') | [(Hd & E') | (Hd & E')]]]]];
    rewrite E, E'; simpl; intros H; injection H; intros; subst;
      try discriminate; try congruence;
      f_equal; now apply IH.
Qed.

Lemma expand_xml_entity_no_markup (s : string) :
  forall_str (fun c => negb (markup c)) (expand xml_entity s) = true.
Proof.
  induction s as [|c s IH]; simpl; [reflexivity|].
  rewrite forall_str_app, IH, andb_true_r.
  destruct (xml_entity_cases c)
    as [(E & Hm & _) | [(_ & E) | [(_ & E) | [(_ & E) | [(_ & E) | (_ & E)]]]]];
    rewrite E; try reflexivity.
  simpl. now rewrite Hm.
Qed.

Lemma doubled_inj (a b : string) :
  replace_char dquote (String dquote (String dquote EmptyString)) a
    ++ String dquote EmptyString
  = replace_char dquote (String dquote (String dquote EmptyString)) b
    ++ String dquote EmptyString ->
  a = b.
Proof.
  revert b; induction a as [|c a IH]; intros [|d b]; simpl.
  - reflexivity.
  - destruct (Ascii.eqb_spec d dquote) as [->|Hd]; simpl; intros H.
    + injection H as H. destruct (replace_char _ _ b); discriminate.
    + injection H as H _. now subst d.
  - destruct (Ascii.eqb_spec c dquote) as [->|Hc]; simpl; intros H.
    + injection H as H. destruct (replace_char _ _ a); discriminate.
    + injection H as H _. now subst c.
  - destruct (Ascii.eqb_spec c dquote) as [->|Hc];
      destruct (Ascii.eqb_spec d dquote) as [->|Hd]; simpl; intros H.
    + injection H as H. f_equal. now apply IH.
    + injection H as H _. now subst d.
    + injection H as H _. now subst c.
    + injection H as -> H. f_equal. now apply IH.
Qed.

Lemma doubled_paired (s : string) :
  quotes_paired
    (replace_char dquote (String dquote (String dquote EmptyString)) s) = true.
Proof.
  induction s as [|c s IH]; simpl; [reflexivity|].
  destruct (Ascii.eqb_spec c dquote) as [->|Hc]; simpl.
  - exact IH.
  - destruct (Ascii.eqb_spec c dquote); [contradiction|exact IH].
Qed.

End Cells.

(** X3.  A cell made by [sanitizeSpreadsheetCell] never starts with one
    of the characters [= + - @] that open a formula, holds no control
    character, and is left unchanged when sanitised again. *)
Theorem sanitizeSpreadsheetCell_safe (value : string) :
  Sheets.starts_with Sheets.formula_lead (Sheets.sanitizeSpreadsheetCell value) = false
  /\ forall_str (fun c => negb (Sheets.is_control c))
                (Sheets.sanitizeSpreadsheetCell value) = true
  /\ Sheets.sanitizeSpreadsheetCell (Sheets.sanitizeSpreadsheetCell value)
     = Sheets.sanitizeSpreadsheetCell value.
Proof.
  split; [|split].
  - apply sanitizeSpreadsheetCell_no_lead.
  - apply sanitizeSpreadsheetCell_no_control.
  - apply sanitizeSpreadsheetCell_clean.
    + apply sanitizeSpreadsheetCell_no_control.
    + apply sanitizeSpreadsheetCell_trimmed.
    + apply sanitizeSpreadsheetCell_no_lead.
Qed.

(** X4.  [xmlEscape] leaves no angle bracket and no quote, single or
    double, in its result, escapes a text piece by piece, returns a text
    without special characters as it is, and loses nothing: two texts
    with the same escaped form are the same text. *)
Theorem xmlEscape_safe :
  (forall value,
      forall_str (fun c => negb (markup c)) (Sheets.xmlEscape value) = true)
  /\ (forall a b, Sheets.xmlEscape (a ++ b) = Sheets.xmlEscape a ++ Sheets.xmlEscape b)
  /\ (forall value,
         forall_str (fun c => negb (markup c || Ascii.eqb c "&")) value = true ->
         Sheets.xmlEscape value = value)
  /\ (forall a b, Sheets.xmlEscape a = Sheets.xmlEscape b -> a = b).
Proof.
  repeat split.
  - intros value. rewrite xmlEscape_expand. apply expand_xml_entity_no_markup.
  - intros a b. rewrite !xmlEscape_expand. apply expand_app.
  - intros value. rewrite xmlEscape_expand.
    induction value as [|c s IH]; simpl; [reflexivity|].
    intros H. apply andb_prop in H as [Hc Hs]. rewrite (IH Hs).
    destruct (xml_entity_cases c)
      as [(E & _) | [(-> & _) | [(-> & _) | [(-> & _) | [(-> & _) | (-> & _)]]]]];
      try discriminate.
    now rewrite E.
  - intros a b. rewrite !xmlEscape_expand. apply expand_xml_entity_inj.
Qed.

Lemma xmlEscape_safe_witness :
  Sheets.xmlEscape "Salud y Seguridad" = "Salud y Seguridad"
  /\ ("a<b" = "a<b").
Proof.
  split.
  - apply (proj1 (proj2 (proj2 xmlEscape_safe))). vm_compute. reflexivity.
  - apply (proj2 (proj2 (proj2 xmlEscape_safe))). vm_compute. reflexivity.
Defined.

(** X5.  [csvEscape] returns the sanitised cell between two double
    quotes, every double quote of the cell doubled: inside the outer
    quotes the quotes come in pairs, and two values with the same field
    have the same sanitised cell. *)
Theorem csvEscape_quoted :
  (forall value, exists body,
      Sheets.csvEscape value
      = String Sheets.dquote (body ++ String Sheets.dquote EmptyString)
      /\ quotes_paired body = true)
  /\ (forall a b,
         Sheets.csvEscape a = Sheets.csvEscape b ->
         Sheets.sanitizeSpreadsheetCell a = Sheets.sanitizeSpreadsheetCell b).
Proof.
  split.
  - intros value. eexists. split; [reflexivity|]. apply doubled_paired.
  - intros a b H. unfold Sheets.csvEscape in H. injection H as H.
    now apply doubled_inj.
Qed.

Lemma csvEscape_quoted_witness :
  Sheets.sanitizeSpreadsheetCell " =1+1" = Sheets.sanitizeSpreadsheetCell "=1+1 ".
Proof.
  apply (proj2 csvEscape_quoted). vm_compute. reflexivity.
Defined.

(** ** What the repository sends *)

Section Rows.

Lemma single_spaced_slice0 (b : bool) (n : nat) (s : string) :
  single_spaced b s = true -> single_spaced b (slice0 n s) = true.
Proof.
  revert b n; induction s as [|c s IH]; intros b [|n]; simpl; try reflexivity.
  destruct (is_space c).
  - intros H. apply andb_prop in H as [H Hs]. rewrite H. now apply IH.
  - apply IH.
Qed.

Lemma truncateText_single (value : string) (n : nat) :
  single_spaced true (truncateText value n) = true.
Proof. apply single_spaced_slice0, normalizeWhitespace_single. Qed.

Lemma truncateText_length (value : string) (n : nat) :
  String.length (truncateText value n) <= n.
Proof. unfold truncateText. rewrite length_slice0. apply Nat.le_min_l. Qed.

(** The text columns of an accepted creation. *)
Lemma normalizeCreatePayload_texts (env : Env) (data : ExpedienteInsert.t)
      (p : InsertRow.t) :
  Validated.payload (normalizeCreatePayload env data) = Some p ->
  InsertRow.tipo_derecho p
  = truncateText (ExpedienteInsert.tipo_derecho data) FIELD_LIMITS_tipoDerecho
  /\ truthy (InsertRow.tipo_derecho p) = true
  /\ InsertRow.autoridad_responsable p
     = truncateText (ExpedienteInsert.autoridad_responsable data) FIELD_LIMITS_autoridad
  /\ truthy (InsertRow.autoridad_responsable p) = true
  /\ InsertRow.visitador_asignado p
     = truncateText (ExpedienteInsert.visitador_asignado data) FIELD_LIMITS_visitador
  /\ truthy (InsertRow.visitador_asignado p) = true
  /\ InsertRow.estado p = nullish (ExpedienteInsert.estado data) "Admitida"
  /\ ESTADOS_includes (InsertRow.estado p) = true
  /\ InsertRow.notas_seguimiento p
     = slice0 FIELD_LIMITS_notas (trim (nullish (ExpedienteInsert.notas_seguimiento data) "")).
Proof.
  unfold normalizeCreatePayload. cbv zeta.
  destruct (truthy (slice0 FIELD_LIMITS_folio (normalizeFolio (ExpedienteInsert.folio data))));
    reduce_validated; [|discriminate].
  destruct (isValidFolio (slice0 FIELD_LIMITS_folio (normalizeFolio (ExpedienteInsert.folio data))));
    reduce_validated; [|discriminate].
  destruct (normalizeDateOnly env (ExpedienteInsert.fecha_presentacion data))
    as [fp|]; reduce_validated; [|discriminate].
  destruct (isFutureDate env fp); reduce_validated; [discriminate|].
  destruct (truthy (truncateText (ExpedienteInsert.tipo_derecho data) FIELD_LIMITS_tipoDerecho))
    eqn:Ht; reduce_validated; [|discriminate].
  destruct (truthy (truncateText (ExpedienteInsert.autoridad_responsable data) FIELD_LIMITS_autoridad))
    eqn:Ha; reduce_validated; [|discriminate].
  destruct (truthy (truncateText (ExpedienteInsert.visitador_asignado data) FIELD_LIMITS_visitador))
    eqn:Hv; reduce_validated; [|discriminate].
  destruct (ESTADOS_includes (nullish (ExpedienteInsert.estado data) "Admitida"))
    eqn:He; reduce_validated; [|discriminate].
  destruct (normalizeDateOnly env (nullish (ExpedienteInsert.fecha_ultimo_movimiento data) fp))
    as [fm|]; reduce_validated; [|discriminate].
  destruct (isFutureDate env fm); reduce_validated; [discriminate|].
  destruct (fm <? fp); reduce_validated; [discriminate|].
  intros H. injection H as <-. cbn. repeat split; (assumption || reflexivity).
Qed.

(** A request found among the calls of a creation is the validated
    payload. *)
Lemma sent_insert_is_validated (env : Env) (be : Backend)
      (expedientes : list Expediente.t) (data : ExpedienteInsert.t) (w : World.t)
      (p : InsertRow.t) (rest : list Request) :
  World.calls (snd (createExpediente env be expedientes data w))
  = (World.calls w ++ Insert p :: rest)%list ->
  Validated.payload (normalizeCreatePayload env data) = Some p.
Proof.
  intros H.
  destruct (createExpediente_cases env be expedientes data w)
    as [[reason E] | (q & rest' & Hq & E)].
  - rewrite E in H. cbn in H. now apply no_call_is_no_change in H.
  - rewrite E in H. apply app_inv_head in H. now injection H as -> _.
Qed.

End Rows.



(** ** What an update sends *)

Section UpdateChecks.

Variable env : Env.
Variable data : ExpedienteUpdate.t.

Lemma step_folio_checked (p p' : UpdateRow.t) :
  step_folio data p = inr p' ->
  accepted (fun v => truthy (slice0 FIELD_LIMITS_folio (normalizeFolio v))
                     && isValidFolio (slice0 FIELD_LIMITS_folio (normalizeFolio v)))
           (ExpedienteUpdate.folio data).
Proof.
  unfold step_folio, on_field, accepted.
  destruct (ExpedienteUpdate.folio data) as [v|]; [|trivial].
  destruct (truthy _); cbn [negb]; [|discriminate].
  destruct (isValidFolio _); cbn [negb]; [reflexivity|discriminate].
Qed.

Lemma step_tipo_derecho_checked (p p' : UpdateRow.t) :
  step_tipo_derecho data p = inr p' ->
  accepted (fun v => truthy (truncateText v FIELD_LIMITS_tipoDerecho))
           (ExpedienteUpdate.tipo_derecho data).
Proof.
  unfold step_tipo_derecho, on_field, accepted.
  destruct (ExpedienteUpdate.tipo_derecho data) as [v|]; [|trivial].
  destruct (truthy _); cbn [negb]; [reflexivity|discriminate].
Qed.

Lemma step_autoridad_responsable_checked (p p' : UpdateRow.t) :
  step_autoridad_responsable data p = inr p' ->
  accepted (fun v => truthy (truncateText v FIELD_LIMITS_autoridad))
           (ExpedienteUpdate.autoridad_responsable data).
Proof.
  unfold step_autoridad_responsable, on_field, accepted.
  destruct (ExpedienteUpdate.autoridad_responsable data) as [v|]; [|trivial].
  destruct (truthy _); cbn [negb]; [reflexivity|discriminate].
Qed.

Lemma step_visitador_asignado_checked (p p' : UpdateRow.t) :
  step_visitador_asignado data p = inr p' ->
  accepted (fun v => truthy (truncateText v FIELD_LIMITS_visitador))
           (ExpedienteUpdate.visitador_asignado data).
Proof.
  unfold step_visitador_asignado, on_field, accepted.
  destruct (ExpedienteUpdate.visitador_asignado data) as [v|]; [|trivial].
  destruct (truthy _); cbn [negb]; [reflexivity|discriminate].
Qed.

Lemma step_estado_checked (p p' : UpdateRow.t) :
  step_estado data p = inr p' ->
  accepted ESTADOS_includes (ExpedienteUpdate.estado data).
Proof.
  unfold step_estado, on_field, accepted.
  destruct (ExpedienteUpdate.estado data) as [v|]; [|trivial].
  destruct (ESTADOS_includes _); cbn [negb]; [reflexivity|discriminate].
Qed.

Lemma step_mes_registro_checked (p p' : UpdateRow.t) :
  step_mes_registro data p = inr p' ->
  accepted (fun v => truthy (truncateText v 60)) (ExpedienteUpdate.mes_registro data).
Proof.
  unfold step_mes_registro, on_field, accepted.
  destruct (ExpedienteUpdate.mes_registro data) as [v|]; [|trivial].
  destruct (truthy _); cbn [negb]; [reflexivity|discriminate].
Qed.

(** When no block fails, every field present passed the check of its
    block. *)
Lemma fill_payload_checked (p : UpdateRow.t) :
  fill_payload env data = inr p ->
  accepted (fun v => truthy (slice0 FIELD_LIMITS_folio (normalizeFolio v))
                     && isValidFolio (slice0 FIELD_LIMITS_folio (normalizeFolio v)))
           (ExpedienteUpdate.folio data)
  /\ accepted (fun v => truthy (truncateText v FIELD_LIMITS_tipoDerecho))
              (ExpedienteUpdate.tipo_derecho data)
  /\ accepted (fun v => truthy (truncateText v FIELD_LIMITS_autoridad))
              (ExpedienteUpdate.autoridad_responsable data)
  /\ accepted (fun v => truthy (truncateText v FIELD_LIMITS_visitador))
              (ExpedienteUpdate.visitador_asignado data)
  /\ accepted ESTADOS_includes (ExpedienteUpdate.estado data)
  /\ accepted (fun v => truthy (truncateText v 60)) (ExpedienteUpdate.mes_registro data).
Proof.
  unfold fill_payload.
  destruct (step_folio data UpdateRow.empty) as [|p1] eqn:E1; [discriminate|].
  cbn [andThen].
  destruct (step_fecha_presentacion env data p1) as [|p2] eqn:E2; [discriminate|].
  cbn [andThen].
  destruct (step_tipo_derecho data p2) as [|p3] eqn:E3; [discriminate|].
  cbn [andThen].
  destruct (step_autoridad_responsable data p3) as [|p4] eqn:E4; [discriminate|].
  cbn [andThen].
  destruct (step_visitador_asignado data p4) as [|p5] eqn:E5; [discriminate|].
  cbn [andThen].
  destruct (step_estado data p5) as [|p6] eqn:E6; [discriminate|].
  cbn [andThen].
  destruct (step_notas_seguimiento data p6) as [|p7] eqn:E7; [discriminate|].
  cbn [andThen].
  destruct (step_fecha_ultimo_movimiento env data p7) as [|p8] eqn:E8; [discriminate|].
  cbn [andThen]. intros E9.
  apply step_folio_checked in E1.
  apply step_tipo_derecho_checked in E3.
  apply step_autoridad_responsable_checked in E4.
  apply step_visitador_asignado_checked in E5.
  apply step_estado_checked in E6.
  apply step_mes_registro_checked in E9.
  auto 10.
Qed.

End UpdateChecks.

Lemma filled_mes_registro (env : Env) (data : ExpedienteUpdate.t) :
  UpdateRow.mes_registro (filled env data)
  = match ExpedienteUpdate.mes_registro data with
    | Some m => Some (truncateText m 60)
    | None =>
        option_map (getMesRegistro env)
          (bindo (ExpedienteUpdate.fecha_presentacion data) (normalizeDateOnly env))
    end.
Proof.
  unfold filled.
  destruct (ExpedienteUpdate.mes_registro data),
    (bindo (ExpedienteUpdate.fecha_ultimo_movimiento data) _),
    (option_map _ (ExpedienteUpdate.notas_seguimiento data)),
    (ExpedienteUpdate.estado data),
    (option_map _ (ExpedienteUpdate.visitador_asignado data)),
    (option_map _ (ExpedienteUpdate.autoridad_responsable data)),
    (option_map _ (ExpedienteUpdate.tipo_derecho data)),
    (bindo (ExpedienteUpdate.fecha_presentacion data) _),
    (option_map _ (ExpedienteUpdate.folio data));
    reflexivity.
Qed.

(** The payload of an accepted patch, with what its fields went
    through. *)
Lemma normalizeUpdatePayload_checked (env : Env) (data : ExpedienteUpdate.t)
      (p : UpdateRow.t) :
  Validated.payload (normalizeUpdatePayload env data) = Some p ->
  accepted (fun v => truthy (slice0 FIELD_LIMITS_folio (normalizeFolio v))
                     && isValidFolio (slice0 FIELD_LIMITS_folio (normalizeFolio v)))
           (ExpedienteUpdate.folio data)
  /\ accepted (fun v => truthy (truncateText v FIELD_LIMITS_tipoDerecho))
              (ExpedienteUpdate.tipo_derecho data)
  /\ accepted (fun v => truthy (truncateText v FIELD_LIMITS_autoridad))
              (ExpedienteUpdate.autoridad_responsable data)
  /\ accepted (fun v => truthy (truncateText v FIELD_LIMITS_visitador))
              (ExpedienteUpdate.visitador_asignado data)
  /\ accepted ESTADOS_includes (ExpedienteUpdate.estado data)
  /\ accepted (fun v => truthy (truncateText v 60)) (ExpedienteUpdate.mes_registro data).
Proof.
  unfold normalizeUpdatePayload.
  destruct (fill_payload env data) as [reason|q] eqn:Efill; [discriminate|].
  intros _. now apply fill_payload_checked in Efill.
Qed.

(** The columns of an accepted patch other than the last movement are
    those of [filled]. *)
Lemma normalizeUpdatePayload_columns (env : Env) (data : ExpedienteUpdate.t)
      (p : UpdateRow.t) :
  Validated.payload (normalizeUpdatePayload env data) = Some p ->
  UpdateRow.folio p = UpdateRow.folio (filled env data)
  /\ UpdateRow.fecha_presentacion p = UpdateRow.fecha_presentacion (filled env data)
  /\ UpdateRow.tipo_derecho p = UpdateRow.tipo_derecho (filled env data)
  /\ UpdateRow.autoridad_responsable p = UpdateRow.autoridad_responsable (filled env data)
  /\ UpdateRow.visitador_asignado p = UpdateRow.visitador_asignado (filled env data)
  /\ UpdateRow.estado p = UpdateRow.estado (filled env data)
  /\ UpdateRow.notas_seguimiento p = UpdateRow.notas_seguimiento (filled env data)
  /\ UpdateRow.mes_registro p = UpdateRow.mes_registro (filled env data)
  /\ UpdateRow.keys_length (filled env data) <> 0.
Proof.
  intros H. apply normalizeUpdatePayload_ok in H.
  destruct H as (_ & _ & _ & Hkeys & ->).
  destruct (shouldTouchLastMovement (filled env data)); cbn; auto 10.
Qed.

(** X7.  The payload of an accepted patch carries a column exactly when
    the patch carries the field (the last movement and the month label
    apart), in its normalised form: the folio normalised, the three
    required texts and the notes normalised and cut, the status as given.
    A text column it carries is not empty, a status is one of the
    enumeration, a folio has the required form.  The month label is the one
    of the patch when there is one, and otherwise is derived from the new
    filing date when the patch changes it. *)
Theorem update_payload_columns
        (env : Env) (data : ExpedienteUpdate.t) (p : UpdateRow.t) :
  Validated.payload (normalizeUpdatePayload env data) = Some p ->
  (UpdateRow.folio p = option_map normalizeFolio (ExpedienteUpdate.folio data)
   /\ accepted isValidFolio (UpdateRow.folio p))
  /\ UpdateRow.fecha_presentacion p
     = bindo (ExpedienteUpdate.fecha_presentacion data) (normalizeDateOnly env)
  /\ (UpdateRow.tipo_derecho p
      = option_map (fun v => truncateText v FIELD_LIMITS_tipoDerecho)
                   (ExpedienteUpdate.tipo_derecho data)
      /\ accepted truthy (UpdateRow.tipo_derecho p))
  /\ (UpdateRow.autoridad_responsable p
      = option_map (fun v => truncateText v FIELD_LIMITS_autoridad)
                   (ExpedienteUpdate.autoridad_responsable data)
      /\ accepted truthy (UpdateRow.autoridad_responsable p))
  /\ (UpdateRow.visitador_asignado p
      = option_map (fun v => truncateText v FIELD_LIMITS_visitador)
                   (ExpedienteUpdate.visitador_asignado data)
      /\ accepted truthy (UpdateRow.visitador_asignado p))
  /\ (UpdateRow.estado p = ExpedienteUpdate.estado data
      /\ accepted ESTADOS_includes (UpdateRow.estado p))
  /\ UpdateRow.notas_seguimiento p
     = option_map (fun v => slice0 FIELD_LIMITS_notas (trim v))
                  (ExpedienteUpdate.notas_seguimiento data)
  /\ UpdateRow.mes_registro p
     = match ExpedienteUpdate.mes_registro data with
       | Some m => Some (truncateText m 60)
       | None =>
           option_map (getMesRegistro env)
             (bindo (ExpedienteUpdate.fecha_presentacion data) (normalizeDateOnly env))
       end.
Proof.
  intros H.
  pose proof (normalizeUpdatePayload_columns env data p H)
    as (Ef & Efp & Et & Ea & Ev & Ee & En & Em & _).
  pose proof (normalizeUpdatePayload_checked env data p H)
    as (Cf & Ct & Ca & Cv & Ce & _).
  pose proof (filled_fields env data) as (Ff & Ffp & Ft & Fa & Fv & Fe & Fn & _).
  rewrite Ef, Efp, Et, Ea, Ev, Ee, En, Em, Ff, Ffp, Ft, Fa, Fv, Fe, Fn,
    filled_mes_registro.
  clear Ef Efp Et Ea Ev Ee En Em Ff Ffp Ft Fa Fv Fe Fn H.
  unfold accepted in *.
  assert (Hf : option_map (fun v => slice0 FIELD_LIMITS_folio (normalizeFolio v))
                          (ExpedienteUpdate.folio data)
               = option_map normalizeFolio (ExpedienteUpdate.folio data)
               /\ match option_map normalizeFolio (ExpedienteUpdate.folio data) with
                  | Some v => isValidFolio v = true
                  | None => True
                  end).
  { destruct (ExpedienteUpdate.folio data) as [f|]; cbn [option_map]; [|auto].
    apply andb_prop in Cf as [_ Hvalid].
    assert (Hlen : String.length (slice0 FIELD_LIMITS_folio (normalizeFolio f))
                   <= max_len FOLIO_RE).
    { apply match_atoms_length. unfold isValidFolio in Hvalid.
      rewrite normalizeWhitespace_none in Hvalid; [exact Hvalid|].
      apply folio_char_no_space, forall_str_slice0, normalizeFolio_chars. }
    rewrite length_slice0 in Hlen. change (max_len FOLIO_RE) with 18 in Hlen.
    assert (Hcut : slice0 FIELD_LIMITS_folio (normalizeFolio f) = normalizeFolio f).
    { apply slice0_all. unfold FIELD_LIMITS_folio in *. lia. }
    rewrite Hcut in Hvalid. rewrite Hcut. split; [reflexivity|exact Hvalid]. }
  destruct Hf as [-> Hvalid].
  repeat split; try reflexivity; try assumption.
  - now destruct (ExpedienteUpdate.tipo_derecho data).
  - now destruct (ExpedienteUpdate.autoridad_responsable data).
  - now destruct (ExpedienteUpdate.visitador_asignado data).
Qed.

Lemma update_payload_columns_witness :
  UpdateRow.fecha_presentacion (Sample.resolved "2026-11-02")
  = bindo (ExpedienteUpdate.fecha_presentacion Sample.resolve)
          (normalizeDateOnly Sample.env).
Proof.
  apply (update_payload_columns Sample.env Sample.resolve (Sample.resolved "2026-11-02")).
  vm_compute. reflexivity.
Defined.

(** ** The provider state after an operation *)

Section View.

Lemma same_view_refl (w : World.t) : same_view w w.
Proof. unfold same_view. auto. Qed.

Lemma same_view_call (r : Request) (w : World.t) : same_view (World.call r w) w.
Proof. unfold same_view. auto. Qed.

(** A refresh ends with [loading] off.  Without a session it empties the
    list and makes no call; with one it makes one call, and either
    stores the answer and no error, or keeps the list and stores an error
    that is not empty. *)
Lemma fetchExpedientes_outcomes (be : Backend) (w : World.t) :
  World.loading (fetchExpedientes be w) = false
  /\ World.session (fetchExpedientes be w) = World.session w
  /\ (if World.session w then
        World.calls (fetchExpedientes be w) = (World.calls w ++ [SelectAll])%list
        /\ ((exists data,
                on_select be (World.calls w) = Data data
                /\ World.expedientes (fetchExpedientes be w) = nullish data []
                /\ World.error (fetchExpedientes be w) = None)
            \/ (exists reason,
                   World.error (fetchExpedientes be w) = Some reason
                   /\ truthy reason = true
                   /\ World.expedientes (fetchExpedientes be w) = World.expedientes w))
      else
        World.calls (fetchExpedientes be w) = World.calls w
        /\ World.expedientes (fetchExpedientes be w) = []
        /\ World.error (fetchExpedientes be w) = None).
Proof.
  unfold fetchExpedientes.
  destruct (World.session w) eqn:Hs; cbn [negb].
  - destruct (on_select be _) as [data|code message|] eqn:E; cbn; rewrite ?Hs;
      (split; [reflexivity|split; [reflexivity|split; [reflexivity|]]]).
    + left. exists data. split; [reflexivity|split; reflexivity].
    + right. destruct (truthy message) eqn:Hm; eexists;
        (split; [reflexivity|split; [|reflexivity]]); [exact Hm|reflexivity].
    + right. eexists. split; [reflexivity|split; reflexivity].
  - cbn. rewrite Hs. auto.
Qed.

End View.

(** X8.  An operation of the repository that returns an error leaves the
    list, the loading flag and the stored error of the provider as they
    were, and returns no record; one that returns no error sent its
    request and then refreshed the list, once.  A refresh with a session
    makes one call and either stores the rows of the answer, with no
    error, or keeps the list it had and stores a reason that is not
    empty. *)
Theorem failed_operation_keeps_the_view :
  (forall env be expedientes data w,
      OpResult.error (fst (createExpediente env be expedientes data w)) <> None ->
      same_view (snd (createExpediente env be expedientes data w)) w
      /\ OpResult.data (fst (createExpediente env be expedientes data w)) = None)
  /\ (forall env be expedientes id data w,
         OpResult.error (fst (updateExpediente env be expedientes id data w)) <> None ->
         same_view (snd (updateExpediente env be expedientes id data w)) w
         /\ OpResult.data (fst (updateExpediente env be expedientes id data w)) = None)
  /\ (forall be id w,
         fst (deleteExpediente be id w) <> None ->
         same_view (snd (deleteExpediente be id w)) w)
  /\ (forall env be expedientes data w,
         OpResult.error (fst (createExpediente env be expedientes data w)) = None ->
         exists p,
           Validated.payload (normalizeCreatePayload env data) = Some p
           /\ snd (createExpediente env be expedientes data w)
              = fetchExpedientes be (World.call (Insert p) w))
  /\ (forall env be expedientes id data w,
         OpResult.error (fst (updateExpediente env be expedientes id data w)) = None ->
         exists p,
           Validated.payload (normalizeUpdatePayload env data) = Some p
           /\ snd (updateExpediente env be expedientes id data w)
              = fetchExpedientes be (World.call (Update id p) w))
  /\ (forall be id w,
         fst (deleteExpediente be id w) = None ->
         snd (deleteExpediente be id w) = fetchExpedientes be (World.call (Delete id) w))
  /\ (forall be w,
         World.session w = true ->
         World.loading (fetchExpedientes be w) = false
         /\ World.calls (fetchExpedientes be w) = (World.calls w ++ [SelectAll])%list
         /\ ((exists data,
                 on_select be (World.calls w) = Data data
                 /\ World.expedientes (fetchExpedientes be w) = nullish data []
                 /\ World.error (fetchExpedientes be w) = None)
             \/ (exists reason,
                    World.error (fetchExpedientes be w) = Some reason
                    /\ truthy reason = true
                    /\ World.expedientes (fetchExpedientes be w) = World.expedientes w))).
Proof.
  repeat apply conj.
  - intros env be expedientes data w.
    unfold createExpediente.
    destruct (Validated.payload (normalizeCreatePayload env data)) as [p|];
      [|view_of_result; auto using same_view_refl].
    destruct (truthy_opt _); [view_of_result; auto using same_view_refl|].
    destruct (existsb _ expedientes); [view_of_result; auto using same_view_refl|].
    destruct (on_insert be (World.calls w) p); view_of_result;
      auto using same_view_call; congruence.
  - intros env be expedientes id data w.
    unfold updateExpediente.
    destruct (isUuid id); cbn [negb]; [|view_of_result; auto using same_view_refl].
    destruct (find _ expedientes) as [current|];
      [|view_of_result; auto using same_view_refl].
    destruct (Validated.payload (normalizeUpdatePayload env data)) as [p|];
      [|view_of_result; auto using same_view_refl].
    destruct (truthy_opt _); [view_of_result; auto using same_view_refl|].
    match goal with
    | |- context [if ?c then _ else _] =>
        destruct c; [view_of_result; auto using same_view_refl|]
    end.
    destruct (_ <? _); [view_of_result; auto using same_view_refl|].
    destruct (isFutureDate env _); [view_of_result; auto using same_view_refl|].
    destruct (on_update be (World.calls w) id p); view_of_result;
      auto using same_view_call; congruence.
  - intros be id w. unfold deleteExpediente.
    destruct (isUuid id); cbn [negb]; [|view_of_result; auto using same_view_refl].
    destruct (on_delete be (World.calls w) id); view_of_result;
      auto using same_view_call; congruence.
  - intros env be expedientes data w.
    unfold createExpediente.
    destruct (Validated.payload (normalizeCreatePayload env data)) as [p|];
      [|discriminate].
    destruct (truthy_opt _); [discriminate|].
    destruct (existsb _ expedientes); [discriminate|].
    destruct (on_insert be (World.calls w) p); view_of_result; try discriminate.
    intros _. now exists p.
  - intros env be expedientes id data w.
    unfold updateExpediente.
    destruct (isUuid id); cbn [negb]; [|discriminate].
    destruct (find _ expedientes) as [current|]; [|discriminate].
    destruct (Validated.payload (normalizeUpdatePayload env data)) as [p|];
      [|discriminate].
    destruct (truthy_opt _); [discriminate|].
    match goal with
    | |- context [if ?c then _ else _] => destruct c; [discriminate|]
    end.
    destruct (_ <? _); [discriminate|].
    destruct (isFutureDate env _); [discriminate|].
    destruct (on_update be (World.calls w) id p); view_of_result; try discriminate.
    intros _. now exists p.
  - intros be id w. unfold deleteExpediente.
    destruct (isUuid id); cbn [negb]; [|discriminate].
    destruct (on_delete be (World.calls w) id); view_of_result; try discriminate.
    reflexivity.
  - intros be w Hs.
    pose proof (fetchExpedientes_outcomes be w) as (Hl & _ & H).
    rewrite Hs in H. destruct H as [Hc H]. auto.
Qed.

Lemma failed_operation_keeps_the_view_witness :
  (same_view
     (snd (createExpediente Sample.env (Sample.memory [Sample.firstCase])
             [Sample.firstCase] (Sample.inputOf "cedhbc-2026-001" "2026-01-15" None)
             (Sample.start [Sample.firstCase])))
     (Sample.start [Sample.firstCase])
   /\ OpResult.data
        (fst (createExpediente Sample.env (Sample.memory [Sample.firstCase])
                [Sample.firstCase] (Sample.inputOf "cedhbc-2026-001" "2026-01-15" None)
                (Sample.start [Sample.firstCase]))) = None)
  /\ (same_view
        (snd (updateExpediente Sample.env (Sample.memory []) [] (Sample.rowId 7)
                Sample.resolve (Sample.start [])))
        (Sample.start [])
      /\ OpResult.data
           (fst (updateExpediente Sample.env (Sample.memory []) [] (Sample.rowId 7)
                   Sample.resolve (Sample.start []))) = None)
  /\ same_view (snd (deleteExpediente (Sample.memory []) "7" (Sample.start [])))
               (Sample.start [])
  /\ (exists p,
         Validated.payload (normalizeCreatePayload Sample.env Sample.firstInput) = Some p
         /\ snd (createExpediente Sample.env (Sample.memory []) [] Sample.firstInput
                   (Sample.start []))
            = fetchExpedientes (Sample.memory []) (World.call (Insert p) (Sample.start [])))
  /\ (exists p,
         Validated.payload (normalizeUpdatePayload Sample.env Sample.resolve) = Some p
         /\ snd (updateExpediente Sample.env (Sample.memory [Sample.firstCase])
                   [Sample.firstCase] (Sample.rowId 0) Sample.resolve
                   (Sample.start [Sample.firstCase]))
            = fetchExpedientes (Sample.memory [Sample.firstCase])
                (World.call (Update (Sample.rowId 0) p) (Sample.start [Sample.firstCase])))
  /\ snd (deleteExpediente (Sample.memory []) (Sample.rowId 7) (Sample.start []))
     = fetchExpedientes (Sample.memory [])
         (World.call (Delete (Sample.rowId 7)) (Sample.start []))
  /\ World.loading (fetchExpedientes (Sample.memory []) (Sample.start [])) = false.
Proof.
  split; [|split; [|split; [|split; [|split; [|split]]]]].
  - apply (proj1 failed_operation_keeps_the_view). vm_compute. discriminate.
  - apply (proj1 (proj2 failed_operation_keeps_the_view)). vm_compute. discriminate.
  - apply (proj1 (proj2 (proj2 failed_operation_keeps_the_view))).
    vm_compute. discriminate.
  - apply (proj1 (proj2 (proj2 (proj2 failed_operation_keeps_the_view)))).
    vm_compute. reflexivity.
  - apply (proj1 (proj2 (proj2 (proj2 (proj2 failed_operation_keeps_the_view))))).
    vm_compute. reflexivity.
  - apply (proj1 (proj2 (proj2 (proj2 (proj2 (proj2 failed_operation_keeps_the_view)))))).
    vm_compute. reflexivity.
  - apply (proj2 (proj2 (proj2 (proj2 (proj2 (proj2 failed_operation_keeps_the_view)))))).
    vm_compute. reflexivity.
Defined.

(** ** The folio of an update *)

Section UpdateFolio.

(** The folio column of an accepted patch. *)
Lemma normalizeUpdatePayload_folio (env : Env) (data : ExpedienteUpdate.t)
      (p : UpdateRow.t) (f : string) :
  Validated.payload (normalizeUpdatePayload env data) = Some p ->
  ExpedienteUpdate.folio data = Some f ->
  UpdateRow.folio p = Some (slice0 FIELD_LIMITS_folio (normalizeFolio f))
  /\ truthy (slice0 FIELD_LIMITS_folio (normalizeFolio f)) = true.
Proof.
  intros Hp Hf.
  pose proof (normalizeUpdatePayload_columns env data p Hp) as (Ef & _).
  pose proof (normalizeUpdatePayload_checked env data p Hp) as (Cf & _).
  pose proof (filled_fields env data) as (Ff & _).
  rewrite Ef, Ff, Hf. rewrite Hf in Cf. cbn in Cf.
  apply andb_prop in Cf as [Ht _]. auto.
Qed.

Lemma no_other_holder (id folio : string) (expedientes : list Expediente.t) :
  (forall item, In item expedientes ->
                same_folio (Expediente.folio item) folio = true ->
                Expediente.id item = id) ->
  existsb (fun item => negb (Expediente.id item =? id)
                       && same_folio (Expediente.folio item) folio) expedientes
  = false.
Proof.
  intros H. apply Bool.not_true_iff_false. intros E.
  apply existsb_exists in E. destruct E as (item & Hin & Hitem).
  apply andb_prop in Hitem as [Hid Hsame].
  rewrite (H item Hin Hsame), String.eqb_refl in Hid. discriminate.
Qed.

End UpdateFolio.

(** X9.  An update whose patch carries a folio that, once normalised, is
    the folio of another case of the snapshot (up to the case of the
    letters) stops before the network and leaves the provider as it was;
    when the identifier is well formed and present and the patch passes the
    validator, the reason is the uniqueness conflict.  The case's own folio
    is no conflict: when every case of the snapshot with that folio is the
    one updated, and the dates the record will have pass their two tests,
    the update is sent. *)
Theorem update_to_a_taken_folio :
  (forall env be expedientes id data w f,
      ExpedienteUpdate.folio data = Some f ->
      existsb (fun item =>
                 negb (Expediente.id item =? id)
                 && same_folio (Expediente.folio item)
                               (slice0 FIELD_LIMITS_folio (normalizeFolio f)))
              expedientes = true ->
      (exists reason,
          updateExpediente env be expedientes id data w = (OpResult.fail reason, w))
      /\ (forall current p,
             isUuid id = true ->
             find (fun item => Expediente.id item =? id) expedientes = Some current ->
             Validated.payload (normalizeUpdatePayload env data) = Some p ->
             updateExpediente env be expedientes id data w
             = (OpResult.fail
                  ("El folio " ++ slice0 FIELD_LIMITS_folio (normalizeFolio f)
                   ++ " ya existe."), w)))
  /\ (forall env be expedientes id data w current p,
         isUuid id = true ->
         find (fun item => Expediente.id item =? id) expedientes = Some current ->
         Validated.payload (normalizeUpdatePayload env data) = Some p ->
         (forall item f,
             In item expedientes ->
             UpdateRow.folio p = Some f ->
             same_folio (Expediente.folio item) f = true ->
             Expediente.id item = id) ->
         (nullish (UpdateRow.fecha_ultimo_movimiento p)
                  (Expediente.fecha_ultimo_movimiento current)
          <? nullish (UpdateRow.fecha_presentacion p)
                     (Expediente.fecha_presentacion current)) = false ->
         isFutureDate env (nullish (UpdateRow.fecha_ultimo_movimiento p)
                                   (Expediente.fecha_ultimo_movimiento current)) = false ->
         exists rest,
           World.calls (snd (updateExpediente env be expedientes id data w))
           = (World.calls w ++ Update id p :: rest)%list).
Proof.
  split.
  - intros env be expedientes id data w f Hf Htaken.
    assert (Hgoal : forall current p,
               isUuid id = true ->
               find (fun item => Expediente.id item =? id) expedientes = Some current ->
               Validated.payload (normalizeUpdatePayload env data) = Some p ->
               updateExpediente env be expedientes id data w
               = (OpResult.fail
                    ("El folio " ++ slice0 FIELD_LIMITS_folio (normalizeFolio f)
                     ++ " ya existe."), w)).
    { intros current p Hid Hfind Hp.
      pose proof (normalizeUpdatePayload_folio env data p f Hp Hf) as [Hfolio Ht].
      pose proof (normalizeUpdatePayload_ok env data p Hp) as (Herr & _).
      unfold updateExpediente.
      rewrite Hid, Hfind, Hp, Herr, Hfolio. cbn [negb truthy_opt nullish].
      now rewrite Ht, Htaken. }
    split; [|exact Hgoal].
    destruct (updateExpediente_cases env be expedientes id data w)
      as [Hstop | (current & p & rest & Hid & Hfind & Hp & _ & _ & Hcalls)];
      [exact Hstop|].
    rewrite (Hgoal current p Hid Hfind Hp). eauto.
  - intros env be expedientes id data w current p Hid Hfind Hp Hown Hlt Hfut.
    pose proof (normalizeUpdatePayload_ok env data p Hp) as (Herr & _).
    unfold updateExpediente.
    rewrite Hid, Hfind, Hp, Herr. cbn [negb truthy_opt].
    assert (Hdup : match UpdateRow.folio p with
                   | Some folio =>
                       truthy folio
                       && existsb (fun item => negb (Expediente.id item =? id)
                                               && same_folio (Expediente.folio item) folio)
                                  expedientes
                   | None => false
                   end = false).
    { destruct (UpdateRow.folio p) as [folio|]; [|reflexivity].
      rewrite no_other_holder; [apply andb_false_r|].
      intros item Hin Hsame. now apply (Hown item folio). }
    rewrite Hdup, Hlt, Hfut.
    destruct (on_update be (World.calls w) id p); cbn [snd].
    + apply calls_after.
    + now exists [].
    + now exists [].
Qed.

Lemma update_to_a_taken_folio_witness :
  let snapshot := [ Sample.caseOf (Sample.rowId 1) "CEDHBC-2026-002" "Admitida";
                    Sample.firstCase ] in
  let rename f := ExpedienteUpdate.mk (Some f) None None None None None None None None in
  updateExpediente Sample.env (Sample.memory snapshot) snapshot (Sample.rowId 1)
                   (rename "cedhbc 2026/001") (Sample.start snapshot)
  = (OpResult.fail "El folio CEDHBC-2026-001 ya existe.", Sample.start snapshot)
  /\ exists rest,
      World.calls
        (snd (updateExpediente Sample.env (Sample.memory snapshot) snapshot
                (Sample.rowId 0) (rename "cedhbc 2026/001") (Sample.start snapshot)))
      = (World.calls (Sample.start snapshot)
         ++ Update (Sample.rowId 0)
                   (UpdateRow.mk (Some "CEDHBC-2026-001") None None None None None None
                                 None None) :: rest)%list.
Proof.
  cbv zeta. split.
  - refine (proj2 (proj1 update_to_a_taken_folio Sample.env
                     (Sample.memory
                        [ Sample.caseOf (Sample.rowId 1) "CEDHBC-2026-002" "Admitida";
                          Sample.firstCase ])
                     [ Sample.caseOf (Sample.rowId 1) "CEDHBC-2026-002" "Admitida";
                       Sample.firstCase ]
                     (Sample.rowId 1)
                     (ExpedienteUpdate.mk (Some "cedhbc 2026/001") None None None None
                                          None None None None)
                     (Sample.start
                        [ Sample.caseOf (Sample.rowId 1) "CEDHBC-2026-002" "Admitida";
                          Sample.firstCase ])
                     "cedhbc 2026/001" eq_refl _)
                  (Sample.caseOf (Sample.rowId 1) "CEDHBC-2026-002" "Admitida")
                  (UpdateRow.mk (Some "CEDHBC-2026-001") None None None None None None
                                None None) _ _ _);
      vm_compute; reflexivity.
  - apply (proj2 update_to_a_taken_folio Sample.env _ _ (Sample.rowId 0) _ _
             Sample.firstCase).
    + vm_compute. reflexivity.
    + vm_compute. reflexivity.
    + vm_compute. reflexivity.
    + intros item f [<- | [<- | []]] [= <-]; vm_compute; congruence.
    + vm_compute. reflexivity.
    + vm_compute. reflexivity.
Defined.

(** ** Reading and removing notifications *)

Section Reading.

Import Notifications.

Lemma said_mark (n : Notification.t) : said (mark n) = said n.
Proof. reflexivity. Qed.

Lemma markRead_absent (id : string) (l : list Notification.t) :
  entries_with id l = 0 -> markRead id l = l.
Proof.
  unfold entries_with, markRead.
  induction l as [|n l IH]; cbn; [reflexivity|].
  destruct (has_id id n); cbn; [discriminate|].
  intros H. now rewrite IH.
Qed.

Lemma removeNotification_absent (id : string) (l : list Notification.t) :
  entries_with id l = 0 -> removeNotification id l = l.
Proof.
  unfold entries_with, removeNotification.
  induction l as [|n l IH]; cbn; [reflexivity|].
  destruct (has_id id n); cbn; [discriminate|].
  intros H. now rewrite IH.
Qed.

End Reading.

(** X10.  Marking notifications as read changes nothing but the read
    flag: the entries, what they say, their times and their order stay.
    After [markAllRead] nothing is unread; after [markRead] the unread
    entries are the unread entries of the other identifiers.  Removing an
    identifier leaves no entry of it, keeps every other entry in place, and
    never raises the unread count.  On an identifier the list does not
    hold, both do nothing. *)
Theorem reading_and_removing :
  (forall l,
      Badge.unreadCount (Notifications.markAllRead l) = 0
      /\ map said (Notifications.markAllRead l) = map said l)
  /\ (forall id l,
         map said (Notifications.markRead id l) = map said l
         /\ filter (fun n => negb (Notifications.Notification.read n))
                   (Notifications.markRead id l)
            = filter (fun n => negb (Notifications.Notification.read n)
                               && negb (Notifications.has_id id n)) l
         /\ Notifications.markRead id (Notifications.markRead id l)
            = Notifications.markRead id l)
  /\ (forall id l,
         entries_with id (Notifications.removeNotification id l) = 0
         /\ Notifications.removeNotification id l
            = filter (fun n => negb (Notifications.has_id id n)) l
         /\ Badge.unreadCount (Notifications.removeNotification id l)
            <= Badge.unreadCount l)
  /\ (forall id l,
         entries_with id l = 0 ->
         Notifications.markRead id l = l /\ Notifications.removeNotification id l = l).
Proof.
  split; [|split; [|split]].
  - intros l. unfold Badge.unreadCount, Notifications.markAllRead. split.
    + induction l as [|n l IH]; cbn; [reflexivity|exact IH].
    + rewrite map_map. apply map_ext. intros n. apply said_mark.
  - intros id l. unfold Notifications.markRead. split; [|split].
    + rewrite map_map. apply map_ext. intros n.
      destruct (Notifications.has_id id n); reflexivity.
    + induction l as [|n l IH]; cbn; [reflexivity|].
      destruct (Notifications.has_id id n) eqn:Hid; cbn.
      * rewrite andb_false_r. exact IH.
      * rewrite andb_true_r.
        destruct (Notifications.Notification.read n); cbn; now rewrite IH.
    + rewrite map_map. apply map_ext. intros n.
      destruct (Notifications.has_id id n) eqn:Hid.
      * unfold Notifications.has_id in *. cbn. now rewrite Hid.
      * now rewrite Hid.
  - intros id l. unfold entries_with, Notifications.removeNotification, Badge.unreadCount.
    split; [|split; [reflexivity|]].
    + induction l as [|n l IH]; cbn; [reflexivity|].
      destruct (Notifications.has_id id n) eqn:Hid; cbn; [exact IH|].
      now rewrite Hid.
    + induction l as [|n l IH]; cbn; [lia|].
      destruct (Notifications.has_id id n); cbn;
        destruct (Notifications.Notification.read n); cbn; lia.
  - intros id l H. split.
    + now apply markRead_absent.
    + now apply removeNotification_absent.
Qed.

Lemma reading_and_removing_witness :
  Notifications.markRead "system-stale-cases" Sample.ahead = Sample.ahead
  /\ Notifications.removeNotification "system-stale-cases" Sample.ahead = Sample.ahead.
Proof.
  apply (proj2 (proj2 (proj2 reading_and_removing))). vm_compute. reflexivity.
Defined.

(** ** Counts by status *)

Section Counts.

Import Panels.

Lemma count_for_bump (key label : string) (counts : list (string * nat)) :
  count_for label (bump key counts)
  = count_for label counts + (if key =? label then 1 else 0).
Proof.
  induction counts as [|[k v] rest IH]; cbn.
  - destruct (key =? label); reflexivity.
  - destruct (k =? key) eqn:Hk; cbn.
    + apply String.eqb_eq in Hk. subst k.
      destruct (key =? label); lia.
    + destruct (k =? label) eqn:Hl; [|exact IH].
      apply String.eqb_eq in Hl. subst k.
      rewrite String.eqb_sym, Hk. lia.
Qed.

Lemma total_of_bump (key : string) (counts : list (string * nat)) :
  total_of (bump key counts) = S (total_of counts).
Proof.
  unfold total_of.
  induction counts as [|[k v] rest IH]; cbn; [reflexivity|].
  destruct (k =? key); cbn; [lia|]. rewrite IH. lia.
Qed.

Lemma keys_bump (key : string) (counts : list (string * nat)) :
  NoDup (map fst counts) -> NoDup (map fst (bump key counts))
  /\ (forall k, In k (map fst (bump key counts)) -> k = key \/ In k (map fst counts)).
Proof.
  induction counts as [|[k v] rest IH]; cbn.
  - intros _. split; [repeat constructor; intros []|].
    intros k [<- | []]. now left.
  - intros Hnd. inversion Hnd as [|? ? Hout Hrest]; subst.
    destruct (k =? key) eqn:Hk; cbn.
    + split; [exact Hnd|]. intros k' H. now right.
    + destruct (IH Hrest) as [Hnd' Hin'].
      split.
      * constructor; [|exact Hnd'].
        intros Hin. destruct (Hin' k Hin) as [-> | H]; [|contradiction].
        rewrite String.eqb_refl in Hk. discriminate.
      * intros k' [<- | H]; [right; now left|].
        destruct (Hin' k' H) as [-> | H']; [now left | right; now right].
Qed.

Lemma positive_bump (key : string) (counts : list (string * nat)) :
  Forall (fun entry => 0 < snd entry) counts ->
  Forall (fun entry => 0 < snd entry) (bump key counts).
Proof.
  induction counts as [|[k v] rest IH]; cbn; intros H.
  - repeat constructor.
  - inversion H; subst. destruct (k =? key); constructor; cbn in *; auto; lia.
Qed.

(** What a pass over the cases makes of a table of counts. *)
Lemma counted_by (A : Type) (label_of : A -> string) (items : list A) :
  forall counts,
    NoDup (map fst counts) ->
    Forall (fun entry => 0 < snd entry) counts ->
    let result := fold_left (fun counts e => bump (label_of e) counts) items counts in
    NoDup (map fst result)
    /\ Forall (fun entry => 0 < snd entry) result
    /\ total_of result = total_of counts + List.length items
    /\ forall label,
        count_for label result
        = count_for label counts
          + List.length (filter (fun e => label_of e =? label) items).
Proof.
  induction items as [|e items IH]; intros counts Hnd Hpos; cbv zeta;
    cbn [fold_left List.length filter].
  - repeat split; try assumption; intros; lia.
  - destruct (keys_bump (label_of e) counts Hnd) as [Hnd' _].
    destruct (IH (bump (label_of e) counts) Hnd' (positive_bump _ _ Hpos))
      as (H1 & H2 & H3 & H4).
    repeat split; try assumption.
    + rewrite H3, total_of_bump. lia.
    + intros label. rewrite H4, count_for_bump.
      destruct (label_of e =? label); cbn [List.length]; lia.
Qed.

End Counts.

(** X11.  The status chart of the dashboard has one entry for each
    status label, none of them with a count of zero; the count of a label
    is the number of cases whose status normalises to it, and the counts
    add up to the number of cases.  The table of the report does the same
    with the raw status of the cases of the period.  [normalizeEstado]
    merges nothing twice: applied again it changes nothing. *)
Theorem status_counts_add_up :
  (forall expedientes,
      NoDup (map fst (Panels.estadoData expedientes))
      /\ Forall (fun entry => 0 < snd entry) (Panels.estadoData expedientes)
      /\ total_of (Panels.estadoData expedientes) = List.length expedientes
      /\ forall label,
          count_for label (Panels.estadoData expedientes)
          = List.length
              (filter (fun e => Panels.normalizeEstado (Expediente.estado e) =? label)
                      expedientes))
  /\ (forall inPeriod expedientes,
         let enPeriodo :=
           filter (fun item => inPeriod (Expediente.created_at item)) expedientes in
         NoDup (map fst (Panels.byEstado inPeriod expedientes))
         /\ Forall (fun entry => 0 < snd entry) (Panels.byEstado inPeriod expedientes)
         /\ total_of (Panels.byEstado inPeriod expedientes) = List.length enPeriodo
         /\ forall label,
             count_for label (Panels.byEstado inPeriod expedientes)
             = List.length (filter (fun e => Expediente.estado e =? label) enPeriodo))
  /\ (forall value,
         Panels.normalizeEstado (Panels.normalizeEstado value)
         = Panels.normalizeEstado value).
Proof.
  split; [|split].
  - intros expedientes. unfold Panels.estadoData.
    apply (counted_by Expediente.t
             (fun e => Panels.normalizeEstado (Expediente.estado e)) expedientes []);
      constructor.
  - intros inPeriod expedientes. cbv zeta. unfold Panels.byEstado.
    apply (counted_by Expediente.t Expediente.estado
             (filter (fun item => inPeriod (Expediente.created_at item)) expedientes) []);
      constructor.
  - intros value. unfold Panels.normalizeEstado.
    destruct (includes "integr" (toLowerCase value)) eqn:Hi; [reflexivity|].
    destruct (includes "concili" (toLowerCase value)) eqn:Hc; [reflexivity|].
    now rewrite Hi, Hc.
Qed.

(** ** The period of a report *)

(** X12.  The quarterly report takes the cases of the quarter of the
    selected month: for months numbered 0 to 11, a case is in the period
    exactly when its year is the selected one and its month falls in the
    same quarter.  The periods are nested: a case of the monthly report is
    in the quarterly one, and a case of the quarterly report in the annual
    one; a case whose creation time does not parse is in none.  Resolved
    and pending cases of a period add up to its cases. *)
Theorem report_periods :
  (forall selectedMonth selectedYear y m,
      (0 <= selectedMonth <= 11)%Z -> (0 <= m <= 11)%Z ->
      Reportes.inPeriod Reportes.trimestral selectedMonth selectedYear (Some (y, m))
      = (y =? selectedYear)%Z && (m / 3 =? selectedMonth / 3)%Z)
  /\ (forall selectedMonth selectedYear date,
         (0 <= selectedMonth)%Z ->
         Reportes.inPeriod Reportes.mensual selectedMonth selectedYear date = true ->
         Reportes.inPeriod Reportes.trimestral selectedMonth selectedYear date = true)
  /\ (forall selectedMonth selectedYear date,
         Reportes.inPeriod Reportes.trimestral selectedMonth selectedYear date = true ->
         Reportes.inPeriod Reportes.anual selectedMonth selectedYear date = true)
  /\ (forall reportType selectedMonth selectedYear,
         Reportes.inPeriod reportType selectedMonth selectedYear None = false)
  /\ (forall calendar reportType selectedMonth selectedYear expedientes,
         let enPeriodo :=
           Reportes.enPeriodo calendar reportType selectedMonth selectedYear
                              expedientes in
         Reportes.resueltos enPeriodo + Reportes.pendientes enPeriodo
         = List.length enPeriodo).
Proof.
  split; [|split; [|split; [|split]]].
  - intros sm sy y m Hsm Hm. unfold Reportes.inPeriod.
    destruct (y =? sy)%Z; cbn [andb]; [|reflexivity].
    assert (E : (sm = 0 \/ sm = 1 \/ sm = 2 \/ sm = 3 \/ sm = 4 \/ sm = 5 \/ sm = 6
                 \/ sm = 7 \/ sm = 8 \/ sm = 9 \/ sm = 10 \/ sm = 11)%Z) by lia.
    assert (F : (m = 0 \/ m = 1 \/ m = 2 \/ m = 3 \/ m = 4 \/ m = 5 \/ m = 6
                 \/ m = 7 \/ m = 8 \/ m = 9 \/ m = 10 \/ m = 11)%Z) by lia.
    clear Hsm Hm.
    repeat (destruct E as [E | E]); subst sm;
      repeat (destruct F as [F | F]); subst m; reflexivity.
  - intros sm sy [[y m]|] Hsm; cbn; [|discriminate].
    intros H. apply andb_prop in H as [Hy Hm].
    apply Z.eqb_eq in Hm. subst m. rewrite Hy. cbn [andb].
    apply andb_true_intro. split.
    + apply Z.geb_le. Z.to_euclidean_division_equations. lia.
    + apply Z.leb_le. Z.to_euclidean_division_equations. lia.
  - intros sm sy [[y m]|]; cbn; [|discriminate].
    intros H. apply andb_prop in H as [H _]. now apply andb_prop in H as [H _].
  - intros []; reflexivity.
  - intros calendar reportType sm sy expedientes. cbv zeta.
    unfold Reportes.pendientes, Reportes.resueltos.
    pose proof (filter_length_le
                  (fun item => Expediente.estado item =? "Resuelta")
                  (Reportes.enPeriodo calendar reportType sm sy expedientes)).
    lia.
Qed.

Lemma report_periods_witness :
  Reportes.inPeriod Reportes.trimestral 4 2026 (Some (2026, 5)%Z)
  = (2026 =? 2026)%Z && (5 / 3 =? 4 / 3)%Z
  /\ Reportes.inPeriod Reportes.trimestral 10 2026 (Some (2026, 10)%Z) = true
  /\ Reportes.inPeriod Reportes.anual 10 2026 (Some (2026, 11)%Z) = true.
Proof.
  split; [|split].
  - apply (proj1 report_periods); lia.
  - apply (proj1 (proj2 report_periods)); [lia | reflexivity].
  - apply (proj1 (proj2 (proj2 report_periods))). reflexivity.
Defined.

(** ** The work queue of the dashboard *)

Section Queue.

Import Productivity Dashboard.

Local Abbreviation prio := QueueItem.priority.

Lemma insert_by_priority_perm (x : QueueItem.t) (l : list QueueItem.t) :
  Permutation (x :: l) (insert_by_priority x l).
Proof.
  induction l as [|y l IH]; cbn [insert_by_priority]; [reflexivity|].
  destruct (prio y <? prio x)%nat; [|reflexivity].
  rewrite perm_swap. now constructor.
Qed.

Lemma sort_by_priority_perm (l : list QueueItem.t) :
  Permutation l (sort_by_priority l).
Proof.
  induction l as [|x l IH]; cbn [sort_by_priority fold_right]; [reflexivity|].
  fold (sort_by_priority l).
  rewrite <- insert_by_priority_perm. now constructor.
Qed.

Lemma insert_by_priority_sorted (x : QueueItem.t) (l : list QueueItem.t) :
  by_priority l -> by_priority (insert_by_priority x l).
Proof.
  unfold by_priority. induction 1 as [|y l Hl IH Hy]; cbn [insert_by_priority].
  - repeat constructor.
  - destruct (prio y <? prio x)%nat eqn:E.
    + apply Nat.ltb_lt in E.
      constructor; [exact IH|].
      rewrite <- insert_by_priority_perm. constructor; [lia | exact Hy].
    + apply Nat.ltb_ge in E.
      constructor; [now constructor|].
      constructor; [exact E|].
      eapply Forall_impl; [|exact Hy]. cbn. intros; lia.
Qed.

Lemma sort_by_priority_sorted (l : list QueueItem.t) :
  by_priority (sort_by_priority l).
Proof.
  induction l as [|x l IH]; cbn [sort_by_priority fold_right]; [constructor|].
  now apply insert_by_priority_sorted.
Qed.

Lemma by_priority_filter (p : QueueItem.t -> bool) (l : list QueueItem.t) :
  by_priority l -> by_priority (filter p l).
Proof.
  unfold by_priority. induction 1 as [|x l Hl IH Hx]; cbn; [constructor|].
  destruct (p x); [|exact IH].
  constructor; [exact IH|].
  rewrite Forall_forall in *. intros y Hy. apply Hx.
  now apply filter_In in Hy.
Qed.

Lemma by_priority_split (a b : list QueueItem.t) :
  by_priority (a ++ b) ->
  by_priority a /\ forall x y, In x a -> In y b -> prio x <= prio y.
Proof.
  unfold by_priority. induction a as [|z a IH]; cbn; intros H.
  - split; [constructor | intros x y []].
  - inversion H as [|? ? Hs Hz]; subst.
    destruct (IH Hs) as [Ha Hab]. split.
    + constructor; [exact Ha|].
      rewrite Forall_forall in *. intros y Hy. apply Hz, in_or_app. now left.
    + intros x y [<-|Hx] Hy.
      * rewrite Forall_forall in Hz. apply Hz, in_or_app. now right.
      * now apply Hab.
Qed.

Lemma ltb_irrefl (s : string) : (s <? s) = false.
Proof.
  unfold String.ltb.
  assert (H : String.compare s s = Eq).
  { induction s as [|c s IH]; cbn; [reflexivity|].
    unfold Ascii.compare. now rewrite N.compare_refl. }
  now rewrite H.
Qed.

Variable env : Env.
Variable nextActions : list (string * NextAction.t).

Local Abbreviation item_of := (queueItem env nextActions (todayISO env)).

Lemma queueItem_rank (e : Expediente.t) :
  prio (item_of e) = rank (QueueItem.kind (item_of e)).
Proof.
  unfold queueItem. cbn [QueueItem.priority QueueItem.kind].
  repeat match goal with
         | |- context [if ?c then _ else _] => destruct c
         end; reflexivity.
Qed.

(** The kind of the item of a case, read off its next action. *)
Lemma queueItem_kind (e : Expediente.t) :
  QueueItem.kind (item_of e)
  = match get (Expediente.id e) nextActions with
    | None => Missing
    | Some action =>
        if negb (NextAction.completed action)
           && (NextAction.dueDate action <? todayISO env)
        then Overdue
        else if negb (NextAction.completed action)
                && (NextAction.dueDate action =? todayISO env)
        then Today
        else if (daysSince env (Expediente.fecha_ultimo_movimiento e) >=? 30)%Z
        then Stale
        else Planned
    end.
Proof.
  unfold queueItem. cbn [QueueItem.kind].
  destruct (get (Expediente.id e) nextActions) as [action|]; cbn [is_none];
    [|reflexivity].
  rewrite (andb_comm (NextAction.dueDate action <? todayISO env)),
          (andb_comm (NextAction.dueDate action =? todayISO env)).
  reflexivity.
Qed.

Lemma count_kind_sort (k : Kind) (l : list QueueItem.t) :
  count_kind k (sort_by_priority l) = count_kind k l.
Proof.
  unfold count_kind.
  induction l as [|x l IH]; cbn [sort_by_priority fold_right]; [reflexivity|].
  fold (sort_by_priority l).
  assert (H : forall y s,
             List.length (filter (fun item => Kind_eqb (QueueItem.kind item) k)
                                 (insert_by_priority y s))
             = List.length (filter (fun item => Kind_eqb (QueueItem.kind item) k)
                                   (y :: s))).
  { intros y s. induction s as [|z s IHs]; [reflexivity|].
    cbn [insert_by_priority]. destruct (prio z <? prio y)%nat; [|reflexivity].
    cbn [filter] in *.
    destruct (Kind_eqb (QueueItem.kind z) k), (Kind_eqb (QueueItem.kind y) k);
      cbn [List.length] in *; lia. }
  rewrite H. cbn [filter].
  destruct (Kind_eqb (QueueItem.kind x) k); cbn [List.length]; now rewrite IH.
Qed.

Lemma count_kind_items (k : Kind) (cases : list Expediente.t) :
  count_kind k (map item_of cases)
  = List.length (filter (fun e => Kind_eqb (QueueItem.kind (item_of e)) k) cases).
Proof.
  unfold count_kind.
  induction cases as [|e cases IH]; cbn [map filter]; [reflexivity|].
  destruct (Kind_eqb (QueueItem.kind (item_of e)) k); cbn [List.length];
    now rewrite IH.
Qed.

Lemma filter_length_ext {A : Type} (p q : A -> bool) (l : list A) :
  (forall x, p x = q x) -> List.length (filter p l) = List.length (filter q l).
Proof. intros H. now rewrite (filter_ext p q H). Qed.

End Queue.


(** X14.  The agenda notice of the layout and the queue of the dashboard
    count the same cases: for one snapshot and one set of next actions, the
    overdue, due-today and missing counts of the notice are the numbers of
    queue items of those kinds, and the queue has one item for each open
    case.  When the three counts are zero the pass leaves no agenda notice
    in the list. *)
Theorem planner_agrees_with_the_queue
        (env : Env) (nextActions : list (string * Productivity.NextAction.t))
        (expedientes : list Expediente.t) :
  let items := Dashboard.queueItems env nextActions expedientes in
  let openCases := Dashboard.openCases expedientes in
  Layout.overdueActions env nextActions openCases = Dashboard.overdueActions items
  /\ Layout.dueTodayActions env nextActions openCases
     = Dashboard.count_kind Dashboard.Today items
  /\ Layout.missingActions nextActions openCases = Dashboard.backlogWithoutAction items
  /\ List.length items = Dashboard.totalOpen expedientes
  /\ (forall now prev,
         Dashboard.overdueActions items = 0 ->
         Dashboard.count_kind Dashboard.Today items = 0 ->
         Dashboard.backlogWithoutAction items = 0 ->
         entries_with Layout.SYSTEM_NOTIF_IDS_dailyPlanner
           (Layout.dailyPlanner env now nextActions expedientes prev) = 0).
Proof.
  cbv zeta.
  assert (Ho : Layout.overdueActions env nextActions (Dashboard.openCases expedientes)
               = Dashboard.overdueActions
                   (Dashboard.queueItems env nextActions expedientes)).
  { unfold Dashboard.overdueActions, Dashboard.queueItems, Layout.overdueActions.
    rewrite count_kind_sort, count_kind_items.
    apply filter_length_ext. intros e. rewrite queueItem_kind.
    destruct (Productivity.get (Expediente.id e) nextActions) as [a|];
      [|reflexivity].
    repeat match goal with
           | |- context [if ?c then _ else _] => destruct c eqn:?
           end; try reflexivity; congruence. }
  assert (Ht : Layout.dueTodayActions env nextActions (Dashboard.openCases expedientes)
               = Dashboard.count_kind Dashboard.Today
                   (Dashboard.queueItems env nextActions expedientes)).
  { unfold Dashboard.queueItems, Layout.dueTodayActions.
    rewrite count_kind_sort, count_kind_items.
    apply filter_length_ext. intros e. rewrite queueItem_kind.
    destruct (Productivity.get (Expediente.id e) nextActions) as [a|];
      [|reflexivity].
    destruct (negb (Productivity.NextAction.completed a)); cbn [andb];
      [|now destruct (_ >=? _)%Z].
    destruct (Productivity.NextAction.dueDate a =? todayISO env) eqn:E.
    - apply String.eqb_eq in E. rewrite E, ltb_irrefl. reflexivity.
    - destruct (_ <? _); [reflexivity|]. now destruct (_ >=? _)%Z. }
  assert (Hm : Layout.missingActions nextActions (Dashboard.openCases expedientes)
               = Dashboard.backlogWithoutAction
                   (Dashboard.queueItems env nextActions expedientes)).
  { unfold Dashboard.backlogWithoutAction, Dashboard.queueItems, Layout.missingActions.
    rewrite count_kind_sort, count_kind_items.
    apply filter_length_ext. intros e. rewrite queueItem_kind.
    destruct (Productivity.get (Expediente.id e) nextActions) as [a|];
      [|reflexivity].
    cbn [is_none].
    repeat match goal with
           | |- context [if ?c then _ else _] => destruct c
           end; reflexivity. }
  split; [exact Ho|]. split; [exact Ht|]. split; [exact Hm|]. split.
  - unfold Dashboard.queueItems, Dashboard.totalOpen.
    rewrite <- (Permutation_length (sort_by_priority_perm _)). apply length_map.
  - intros now prev H1 H2 H3. unfold Layout.dailyPlanner.
    rewrite Ho, Ht, Hm, H1, H2, H3. cbn [Nat.ltb Nat.leb orb].
    unfold entries_with, Notifications.removeNotification.
    induction prev as [|n prev IH]; cbn; [reflexivity|].
    destruct (Notifications.has_id _ n) eqn:Hid; cbn; [exact IH|].
    now rewrite Hid.
Qed.

Lemma planner_agrees_with_the_queue_witness :
  entries_with Layout.SYSTEM_NOTIF_IDS_dailyPlanner
    (Layout.dailyPlanner Sample.env 1000 [] [] Sample.ahead) = 0.
Proof.
  apply (proj2 (proj2 (proj2 (proj2
           (planner_agrees_with_the_queue Sample.env [] []))))); reflexivity.
Defined.

(** ** The records of a backup *)

Section Parsed.

Import Configuracion.

Lemma sanitizeEstado_in (value : Json) : ESTADOS_includes (sanitizeEstado value) = true.
Proof.
  unfold sanitizeEstado. cbv zeta.
  set (normalized := match value with JString s => trim s | _ => "" end).
  destruct (ESTADOS_includes normalized) eqn:E; [exact E|].
  repeat match goal with
         | |- context [if ?c then _ else _] => destruct c
         end; reflexivity.
Qed.

(** A folio that passes the test of the validators is its own normal
    form, cut included. *)
Lemma valid_folio_fixed (raw : string) :
  isValidFolio (slice0 FIELD_LIMITS_folio (normalizeFolio raw)) = true ->
  slice0 FIELD_LIMITS_folio
         (normalizeFolio (slice0 FIELD_LIMITS_folio (normalizeFolio raw)))
  = slice0 FIELD_LIMITS_folio (normalizeFolio raw).
Proof.
  intros Hvalid.
  assert (Hlen : String.length (slice0 FIELD_LIMITS_folio (normalizeFolio raw))
                 <= max_len FOLIO_RE).
  { apply match_atoms_length. unfold isValidFolio in Hvalid.
    rewrite normalizeWhitespace_none in Hvalid; [exact Hvalid|].
    apply folio_char_no_space, forall_str_slice0, normalizeFolio_chars. }
  change (max_len FOLIO_RE) with 18 in Hlen.
  rewrite (normalizeFolio_fixed (slice0 FIELD_LIMITS_folio (normalizeFolio raw)))
    by apply forall_str_slice0, normalizeFolio_chars.
  apply slice0_all. rewrite length_slice0. unfold FIELD_LIMITS_folio in *.
  rewrite length_slice0 in Hlen. lia.
Qed.

(** A text the parser kept is kept by the validator as it is read
    again. *)
Lemma kept_text_accepted (n : nat) (raw : string) :
  truthy (slice0 (S n) (normalizeWhitespace raw)) = true ->
  truthy (truncateText (slice0 (S n) (normalizeWhitespace raw)) (S n)) = true.
Proof.
  rewrite truthy_truncateText, slice0_normalizeWhitespace.
  now rewrite truthy_slice0, truthy_normalizeWhitespace.
Qed.

(** What the parser has checked of a record it keeps. *)
Lemma parseRecord_kept (env : Env) (fallbackVisitador : string) (item : Json)
      (record : ExpedienteInsert.t) :
  parseRecord env fallbackVisitador item = Some record ->
  (exists raw,
      ExpedienteInsert.folio record = slice0 FIELD_LIMITS_folio (normalizeFolio raw)
      /\ truthy (ExpedienteInsert.folio record) = true
      /\ isValidFolio (ExpedienteInsert.folio record) = true)
  /\ (exists raw,
         ExpedienteInsert.tipo_derecho record
         = slice0 FIELD_LIMITS_tipoDerecho (normalizeWhitespace raw)
         /\ truthy (ExpedienteInsert.tipo_derecho record) = true)
  /\ (exists raw,
         ExpedienteInsert.autoridad_responsable record
         = slice0 FIELD_LIMITS_autoridad (normalizeWhitespace raw)
         /\ truthy (ExpedienteInsert.autoridad_responsable record) = true)
  /\ (exists raw,
         ExpedienteInsert.visitador_asignado record
         = slice0 FIELD_LIMITS_visitador (normalizeWhitespace raw)
         /\ truthy (ExpedienteInsert.visitador_asignado record) = true)
  /\ (exists value, ExpedienteInsert.estado record = Some (sanitizeEstado value)).
Proof.
  unfold parseRecord.
  destruct (as_record item) as [members|]; [|discriminate].
  cbv zeta.
  destruct (truthy (slice0 FIELD_LIMITS_folio _)) eqn:H1; cbn [negb orb];
    [|discriminate].
  destruct (isValidFolio (slice0 FIELD_LIMITS_folio _)) eqn:H2; cbn [negb orb];
    [|discriminate].
  destruct (truthy (slice0 FIELD_LIMITS_tipoDerecho _)) eqn:H3; cbn [negb orb];
    [|discriminate].
  destruct (truthy (slice0 FIELD_LIMITS_autoridad _)) eqn:H4; cbn [negb orb];
    [|discriminate].
  destruct (truthy (slice0 FIELD_LIMITS_visitador _)) eqn:H5; cbn [negb orb];
    [|discriminate].
  intros [= <-]. cbn [ExpedienteInsert.folio ExpedienteInsert.tipo_derecho
                      ExpedienteInsert.autoridad_responsable
                      ExpedienteInsert.visitador_asignado ExpedienteInsert.estado].
  split; [eexists; split; [reflexivity|split; assumption]|].
  split; [eexists; split; [reflexivity|assumption]|].
  split; [eexists; split; [reflexivity|assumption]|].
  split; [eexists; split; [reflexivity|assumption]|].
  eexists. reflexivity.
Qed.

End Parsed.

(** X15.  The status the parser of a backup gives a record is always one
    of the five of the enumeration, and a status of the enumeration is
    kept (white space around it apart).  A record the parser keeps has
    passed the checks of the create validator on the folio, the three
    required texts and the status: the validator can refuse it only for
    one of its five reasons about the two dates. *)
Theorem parsed_record_fails_only_on_dates :
  (forall value, In (Configuracion.sanitizeEstado value) ESTADOS)
  /\ (forall estado,
         In estado ESTADOS ->
         Configuracion.sanitizeEstado (Configuracion.JString (" " ++ estado ++ " "))
         = estado)
  /\ (forall env fallbackVisitador item record,
         Configuracion.parseRecord env fallbackVisitador item = Some record ->
         Validated.payload (normalizeCreatePayload env record) = None ->
         exists reason,
           Validated.error (normalizeCreatePayload env record) = Some reason
           /\ In reason DATE_REASONS)
  /\ (forall env fallbackVisitador item record p,
         Configuracion.parseRecord env fallbackVisitador item = Some record ->
         Validated.payload (normalizeCreatePayload env record) = Some p ->
         InsertRow.folio p = ExpedienteInsert.folio record
         /\ Some (InsertRow.estado p) = ExpedienteInsert.estado record).
Proof.
  split; [|split; [|split]].
  - intros value. pose proof (sanitizeEstado_in value) as H.
    unfold ESTADOS_includes in H. apply existsb_exists in H.
    destruct H as (e & Hin & Heq). apply String.eqb_eq in Heq. now subst e.
  - intros estado Hin. cbn in Hin.
    repeat (destruct Hin as [<- | Hin]; [vm_compute; reflexivity|]).
    contradiction.
  - intros env fallbackVisitador item record Hparse.
    destruct (parseRecord_kept env fallbackVisitador item record Hparse)
      as ((rf & Ef & Tf & Vf) & (rt & Et & Tt) & (ra & Ea & Ta) & (rv & Ev & Tv)
          & (ve & Ee)).
    unfold normalizeCreatePayload. cbv zeta.
    rewrite Ef in Tf, Vf. rewrite Et in Tt. rewrite Ea in Ta. rewrite Ev in Tv.
    rewrite Ef, (valid_folio_fixed rf Vf), Tf, Vf. reduce_validated.
    rewrite Et, Ea, Ev, Ee.
    unfold FIELD_LIMITS_tipoDerecho, FIELD_LIMITS_autoridad, FIELD_LIMITS_visitador
      in *.
    rewrite (kept_text_accepted _ rt Tt), (kept_text_accepted _ ra Ta),
      (kept_text_accepted _ rv Tv).
    cbn [nullish]. rewrite sanitizeEstado_in. reduce_validated.
    unfold DATE_REASONS.
    repeat match goal with
           | |- context [if ?c then Validated.fail _ else _] =>
               destruct c; [intros _; eexists; split; [reflexivity|cbn; tauto]|]
           | |- context [match ?c with Some _ => _ | None => Validated.fail _ end] =>
               destruct c; [|intros _; eexists; split; [reflexivity|cbn; tauto]]
           end.
    discriminate.
  - intros env fallbackVisitador item record p Hparse Hp.
    destruct (parseRecord_kept env fallbackVisitador item record Hparse)
      as ((rf & Ef & Tf & Vf) & _ & _ & _ & (ve & Ee)).
    pose proof (normalizeCreatePayload_ok env record p Hp) as (_ & Hfolio & _).
    pose proof (normalizeCreatePayload_texts env record p Hp)
      as (_ & _ & _ & _ & _ & _ & Hestado & _).
    split.
    + rewrite Hfolio. rewrite Ef in Vf |- *. now apply valid_folio_fixed.
    + rewrite Hestado, Ee. reflexivity.
Qed.

Lemma parsed_record_fails_only_on_dates_witness :
  Configuracion.sanitizeEstado (Configuracion.JString " Resuelta ") = "Resuelta"
  /\ (exists reason,
         Validated.error
           (normalizeCreatePayload Sample.env
              (Sample.inputOf "CEDHBC-2026-004" "2026-01-15" (Some "2026-01-10")))
         = Some reason
         /\ In reason DATE_REASONS)
  /\ InsertRow.folio Sample.firstRow = "CEDHBC-2026-001".
Proof.
  split; [|split].
  - refine (proj1 (proj2 parsed_record_fails_only_on_dates) "Resuelta" _).
    cbn. tauto.
  - assert (E : Configuracion.parseRecord Sample.env "Visitador General I"
                  (Sample.backupItemDated "CEDHBC-2026-004" "2026-01-15" "2026-01-10")
                = Some (ExpedienteInsert.mk "CEDHBC-2026-004" "2026-01-15"
                          "Derecho a la Salud" "Secretaria de Salud"
                          "Visitador General I" (Some "Admitida") (Some "2026-01-10")
                          (Some "") (Some "enero de 2026")))
      by (vm_compute; reflexivity).
    destruct (proj1 (proj2 (proj2 parsed_record_fails_only_on_dates)) _ _ _ _ E)
      as (reason & Hr & Hin); [vm_compute; reflexivity|].
    exists reason. split; [|exact Hin].
    rewrite <- Hr. vm_compute. reflexivity.
  - assert (E : Configuracion.parseRecord Sample.env "Visitador General I"
                  (Sample.backupItem "CEDHBC-2026-001")
                = Some (ExpedienteInsert.mk "CEDHBC-2026-001" "2026-01-15"
                          "Derecho a la Salud" "Secretaria de Salud"
                          "Visitador General I" (Some "Admitida") (Some "2026-01-15")
                          (Some "") (Some "enero de 2026")))
      by (vm_compute; reflexivity).
    apply (proj2 (proj2 (proj2 parsed_record_fails_only_on_dates)) _ _ _ _
             Sample.firstRow E).
    vm_compute. reflexivity.
Defined.

(** ** The catalogue of handlers *)

Section Catalogue.

Import Arrays Catalogo.

Variable clean : string.
Variable index : nat.

Local Abbreviation rename :=
  (fun (itemIndex : nat) (item : string) =>
     if (itemIndex =? index)%nat then clean else item).

Local Abbreviation clash :=
  (fun (itemIndex : nat) (item : string) =>
     negb (itemIndex =? index)%nat && same_name item clean).

Lemma in_renamed (l : list string) :
  forall idx y, In y (mapi_from idx rename l) -> y = clean \/ In y l.
Proof.
  induction l as [|x l IH]; intros idx y; cbn; [tauto|].
  intros [<- | H].
  - destruct (idx =? index)%nat; auto.
  - destruct (IH _ _ H); auto.
Qed.

Lemma renamed_past (l : list string) :
  forall idx, index < idx -> mapi_from idx rename l = l.
Proof.
  induction l as [|x l IH]; intros idx Hlt; cbn; [reflexivity|].
  destruct (idx =? index)%nat eqn:E; [apply Nat.eqb_eq in E; lia|].
  rewrite IH by lia. reflexivity.
Qed.

Lemma no_clash (l : list string) :
  forall idx, somei_from idx clash l = false ->
              forall k x, nth_error l k = Some x -> idx + k <> index ->
                          toLowerCase x <> toLowerCase clean.
Proof.
  induction l as [|y l IH]; intros idx H k x Hk Hne; [now destruct k|].
  cbn in H. apply orb_false_elim in H as [Hy Hl].
  destruct k as [|k]; cbn in Hk.
  - injection Hk as ->.
    destruct (idx =? index)%nat eqn:E; [apply Nat.eqb_eq in E; lia|].
    cbn in Hy. unfold same_name in Hy. now apply String.eqb_neq in Hy.
  - apply (IH (S idx) Hl k x Hk). lia.
Qed.

Lemma renamed_distinct (l : list string) :
  forall idx,
    distinct_names l ->
    somei_from idx clash l = false ->
    distinct_names (mapi_from idx rename l).
Proof.
  unfold distinct_names.
  induction l as [|x l IH]; intros idx Hnd Hclash; cbn [mapi_from map];
    [constructor|].
  cbn [map] in Hnd. inversion Hnd as [|? ? Hout Hrest]; subst.
  pose proof Hclash as Hall.
  cbn in Hclash. apply orb_false_elim in Hclash as [Hx Hl].
  destruct (idx =? index)%nat eqn:E.
  - apply Nat.eqb_eq in E. subst idx.
    rewrite renamed_past by lia.
    constructor; [|exact Hrest].
    intros Hin. apply in_map_iff in Hin as (y & Hy & Hin).
    apply In_nth_error in Hin as [k Hk].
    apply (no_clash _ _ Hall (S k) y); [exact Hk | lia | exact Hy].
  - constructor; [|now apply IH].
    intros Hin. apply in_map_iff in Hin as (y & Hy & Hin).
    apply in_renamed in Hin as [-> | Hin].
    + cbn in Hx. unfold same_name in Hx. apply String.eqb_neq in Hx.
      now apply Hx.
    + apply Hout. apply in_map_iff. now exists y.
Qed.

End Catalogue.

Section Indexed.

Import Arrays.

Lemma length_mapi_from {A B : Type} (f : nat -> A -> B) (l : list A) :
  forall idx, List.length (mapi_from idx f l) = List.length l.
Proof.
  induction l as [|x l IH]; intros idx; cbn; [reflexivity|]. now rewrite IH.
Qed.

Lemma in_filteri (p : nat -> string -> bool) (l : list string) :
  forall idx y, In y (filteri_from idx p l) -> In y l.
Proof.
  induction l as [|x l IH]; intros idx y; cbn; [tauto|].
  destruct (p idx x); cbn; intros H.
  - destruct H as [<- | H]; [now left | right; now apply (IH (S idx))].
  - right. now apply (IH (S idx)).
Qed.

Lemma filteri_distinct (p : nat -> string -> bool) (l : list string) :
  forall idx, distinct_names l -> distinct_names (filteri_from idx p l).
Proof.
  unfold distinct_names.
  induction l as [|x l IH]; intros idx Hnd; cbn [filteri_from map];
    [constructor|].
  cbn [map] in Hnd. inversion Hnd as [|? ? Hout Hrest]; subst.
  destruct (p idx x); [|now apply IH].
  cbn [map]. constructor; [|now apply IH].
  intros Hin. apply Hout. apply in_map_iff in Hin as (y & Hy & Hin).
  apply in_map_iff. exists y. split; [exact Hy|]. now apply in_filteri in Hin.
Qed.

End Indexed.



(** ** The sign-in form *)

Section SignInForm.

Import Login.

Lemma handleSubmit_locked clock signIn email password st :
  isLocked st = true ->
  let out := handleSubmit clock signIn email password st in
  sent out = [] /\ navigated out = false
  /\ failedAttempts (state out) = failedAttempts st
  /\ lockUntil (state out) = lockUntil st
  /\ now (state out) = now st.
Proof.
  intros Hlocked. unfold handleSubmit. rewrite Hlocked. cbn. tauto.
Qed.

(** A run that never lets the timer tick sends at most as many
    credentials as attempts are left before the lock. *)
Lemma submitAll_bound (attempts : list (Z * SignIn * string * string)) :
  Forall (fun attempt => snd (fst (fst attempt)) = SignInError) attempts ->
  forall st,
    (isLocked st = true -> snd (submitAll attempts st) = [])
    /\ (isLocked st = false ->
        (0 <= failedAttempts st < MAX_FAILED_ATTEMPTS)%Z ->
        (Z.of_nat (List.length (snd (submitAll attempts st)))
         <= MAX_FAILED_ATTEMPTS - failedAttempts st)%Z).
Proof.
  induction 1 as [|[[[clock answer] email] password] attempts Hanswer _ IH];
    intros st.
  - cbn [submitAll snd List.length]. split; [reflexivity|].
    intros _ Hrange. unfold MAX_FAILED_ATTEMPTS in *. lia.
  - cbn in Hanswer. subst answer. cbn [submitAll].
    set (out := handleSubmit clock (fun _ _ => SignInError) email password st).
    destruct (submitAll attempts (state out)) as [final later] eqn:Hrest.
    cbn [snd].
    assert (Hlater : later = snd (submitAll attempts (state out)))
      by now rewrite Hrest.
    destruct (IH (state out)) as [IHlocked IHopen].
    split.
    + intros Hlocked.
      destruct (handleSubmit_locked clock (fun _ _ => SignInError) email password
                  st Hlocked) as (Hsent & _ & _ & Huntil & Hnow).
      fold out in Hsent, Huntil, Hnow. rewrite Hsent. cbn [app].
      rewrite Hlater. apply IHlocked.
      unfold isLocked in *. now rewrite Huntil, Hnow.
    + intros Hopen Hrange.
      assert (Hcases :
        sent out = [] /\ failedAttempts (state out) = failedAttempts st
          /\ isLocked (state out) = false
        \/ List.length (sent out) = 1%nat
           /\ (failedAttempts (state out) = failedAttempts st + 1)%Z
           /\ (failedAttempts st + 1 < MAX_FAILED_ATTEMPTS)%Z
           /\ isLocked (state out) = false
        \/ List.length (sent out) = 1%nat /\ isLocked (state out) = true).
      { subst out. unfold handleSubmit. rewrite Hopen.
        destruct (negb _ || negb _); [left; cbn; auto|].
        destruct ((_ <? 8)%nat || _); [left; cbn; auto|].
        right.
        destruct (failedAttempts st + 1 >=? MAX_FAILED_ATTEMPTS)%Z eqn:E;
          cbn [sent state failedAttempts lockUntil now List.length].
        - right. split; [reflexivity|]. unfold isLocked.
          cbn [state lockUntil now]. unfold LOCK_TIME_MS. apply Z.gtb_lt. lia.
        - left. split; [reflexivity|]. split; [reflexivity|].
          rewrite Z.geb_leb in E. apply Z.leb_gt in E. split; [exact E|].
          exact Hopen. }
      rewrite length_app, Hlater.
      destruct Hcases as [(Hsent & Hcount & Hstill)
                         | [(Hsent & Hcount & Hleft & Hstill) | (Hsent & Hnow)]].
      * rewrite Hsent. cbn [List.length Nat.add].
        rewrite <- Hcount. apply IHopen; [exact Hstill | now rewrite Hcount].
      * rewrite Hsent.
        assert (Hle := IHopen Hstill). rewrite Hcount in Hle. lia.
      * rewrite Hsent, (IHlocked Hnow). unfold MAX_FAILED_ATTEMPTS in *.
        cbn [List.length Nat.add]. lia.
Qed.

End SignInForm.

(** X17.  The sign-in form stops asking the backend after repeated
    refusals.  While it is locked a submission sends nothing and changes
    no counter.  A refusal that brings the count to five sets the lock to
    sixty seconds after the clock, takes the count back to zero, and the
    form then shows sixty seconds to wait; the lock holds at every tick of
    the timer before that moment and is lifted by the first one after it.
    So a run of refused submissions in which the timer never ticks sends
    at most as many credentials as attempts were left. *)
Theorem sign_in_lockout :
  (forall clock signIn email password st,
      Login.isLocked st = true ->
      let out := Login.handleSubmit clock signIn email password st in
      Login.sent out = [] /\ Login.navigated out = false
      /\ Login.failedAttempts (Login.state out) = Login.failedAttempts st
      /\ Login.lockUntil (Login.state out) = Login.lockUntil st)
  /\ (forall clock signIn email password st credentials,
         Login.sent (Login.handleSubmit clock signIn email password st)
         = [credentials] ->
         signIn (fst credentials) (snd credentials) = Login.SignInError ->
         (Login.failedAttempts st = 4)%Z ->
         let after := Login.state (Login.handleSubmit clock signIn email password st) in
         Login.failedAttempts after = 0%Z
         /\ Login.lockUntil after = (clock + 60000)%Z
         /\ Login.isLocked after = true
         /\ Login.lockSeconds after = 60%Z
         /\ (forall later, (later < clock + 60000)%Z ->
                           Login.isLocked (Login.tick later after) = true)
         /\ (forall later, (clock + 60000 <= later)%Z ->
                           Login.isLocked (Login.tick later after) = false
                           /\ Login.lockUntil
                                (Login.clearLock (Login.tick later after)) = 0%Z))
  /\ (forall attempts st,
         Forall (fun attempt => snd (fst (fst attempt)) = Login.SignInError) attempts ->
         Login.isLocked st = false ->
         (0 <= Login.failedAttempts st < 5)%Z ->
         (Z.of_nat (List.length (snd (Login.submitAll attempts st)))
          <= 5 - Login.failedAttempts st)%Z).
Proof.
  split; [|split].
  - intros clock signIn email password st Hlocked out.
    destruct (handleSubmit_locked clock signIn email password st Hlocked)
      as (H1 & H2 & H3 & H4 & _).
    fold out in H1, H2, H3, H4. tauto.
  - intros clock signIn email password st credentials.
    unfold Login.handleSubmit.
    destruct (Login.isLocked st); [discriminate|].
    destruct (negb _ || negb _); [discriminate|].
    destruct ((_ <? 8)%nat || _); [discriminate|].
    destruct (signIn _ _) eqn:Hanswer.
    + cbn. intros [= <-]. cbn. congruence.
    + intros _ _ Hcount. rewrite Hcount. cbn.
      unfold Login.isLocked, Login.lockSeconds, Login.tick, Login.clearLock,
        Login.isLocked, Login.LOCK_TIME_MS. cbn.
      replace (clock + 60000 >? clock)%Z with true by (symmetry; apply Z.gtb_lt; lia).
      cbn.
      replace (- (clock + 60000 - clock))%Z with (-60000)%Z by lia.
      repeat split.
      * intros later Hlater. apply Z.gtb_lt. exact Hlater.
      * rewrite Z.gtb_ltb. apply Z.ltb_ge. exact H.
      * assert (E : (clock + 60000 >? later)%Z = false)
          by (rewrite Z.gtb_ltb; apply Z.ltb_ge; exact H).
        rewrite E. cbn.
        destruct (clock + 60000 =? 0)%Z eqn:Z0; cbn; [|reflexivity].
        apply Z.eqb_eq in Z0. exact Z0.
    + cbn. intros [= <-]. cbn. congruence.
  - intros attempts st Hall Hopen Hrange.
    apply (proj2 (submitAll_bound attempts Hall st) Hopen Hrange).
Qed.

Lemma sign_in_lockout_witness :
  (Login.sent
     (Login.handleSubmit 1000 (fun _ _ => Login.SignedIn) "a@b.mx" "contrasena"
        (Login.mkState 0 5000 1000 None)) = [])
  /\ Login.lockUntil
       (Login.state
          (Login.handleSubmit 1000 (fun _ _ => Login.SignInError)
             " Ana@Cedhbc.mx " "contrasena" (Login.mkState 4 0 0 None)))
     = 61000%Z
  /\ (Z.of_nat
        (List.length
           (snd (Login.submitAll
                   [(1000%Z, Login.SignInError, "a@b.mx", "contrasena");
                    (2000%Z, Login.SignInError, "a@b.mx", "contrasena");
                    (3000%Z, Login.SignInError, "a@b.mx", "contrasena")]
                   (Login.mkState 3 0 0 None))))
      <= 5 - 3)%Z.
Proof.
  split; [|split].
  - apply (proj1 sign_in_lockout 1000%Z (fun _ _ => Login.SignedIn)
             "a@b.mx" "contrasena" (Login.mkState 0 5000 1000 None)).
    reflexivity.
  - apply (proj1 (proj2 sign_in_lockout) 1000%Z (fun _ _ => Login.SignInError)
             " Ana@Cedhbc.mx " "contrasena" (Login.mkState 4 0 0 None)
             ("ana@cedhbc.mx", "contrasena")).
    + vm_compute. reflexivity.
    + reflexivity.
    + reflexivity.
  - apply (proj2 (proj2 sign_in_lockout)).
    + repeat constructor.
    + reflexivity.
    + cbn. lia.
Defined.

(** ** The next actions of the cases *)

Section Records.

Import Productivity.

Context {V : Type}.

Lemma get_assign_same (key : string) (value : V) (record : list (string * V)) :
  get key (assign key value record) = Some value.
Proof.
  induction record as [|[k v] record IH]; cbn.
  - now rewrite String.eqb_refl.
  - destruct (k =? key) eqn:E; cbn; rewrite E; [reflexivity | exact IH].
Qed.

Lemma get_assign_other (key other : string) (value : V)
      (record : list (string * V)) :
  other <> key -> get other (assign key value record) = get other record.
Proof.
  intros Hne. induction record as [|[k v] record IH]; cbn.
  - destruct (key =? other) eqn:E; [|reflexivity].
    apply String.eqb_eq in E. congruence.
  - destruct (k =? key) eqn:E; cbn.
    + apply String.eqb_eq in E. subst k.
      destruct (key =? other) eqn:E'; [|reflexivity].
      apply String.eqb_eq in E'. congruence.
    + now rewrite IH.
Qed.

Lemma get_filter (keep : string -> bool) (other : string)
      (record : list (string * V)) :
  get other (filter (fun entry => keep (fst entry)) record)
  = if keep other then get other record else None.
Proof.
  induction record as [|[k v] record IH]; cbn.
  - now destruct (keep other).
  - destruct (keep k) eqn:Hk; cbn.
    + destruct (k =? other) eqn:E.
      * apply String.eqb_eq in E. subst k. now rewrite Hk.
      * exact IH.
    + rewrite IH. destruct (k =? other) eqn:E; [|reflexivity].
      apply String.eqb_eq in E. subst k. now rewrite Hk.
Qed.

Lemma keys_assign (key : string) (value : V) (record : list (string * V)) :
  NoDup (map fst record) -> NoDup (map fst (assign key value record)).
Proof.
  assert (Hin : forall record k,
             In k (map fst (assign key value record)) ->
             k = key \/ In k (map fst record)).
  { clear. induction record as [|[k' v] record IH]; intros k; cbn.
    - intros [<- | []]. now left.
    - destruct (k' =? key) eqn:E; cbn.
      + tauto.
      + intros [<- | H]; [tauto|]. destruct (IH _ H); tauto. }
  induction record as [|[k v] record IH]; cbn.
  - intros _. repeat constructor. intros [].
  - intros Hnd. inversion Hnd as [|? ? Hout Hrest]; subst.
    destruct (k =? key) eqn:E; cbn.
    + constructor; assumption.
    + constructor; [|now apply IH].
      intros H. apply Hin in H as [-> | H]; [|contradiction].
      now rewrite String.eqb_refl in E.
Qed.

Lemma keys_filter (keep : string * V -> bool) (record : list (string * V)) :
  NoDup (map fst record) -> NoDup (map fst (filter keep record)).
Proof.
  induction record as [|[k v] record IH]; cbn; [constructor|].
  intros Hnd. inversion Hnd as [|? ? Hout Hrest]; subst.
  destruct (keep (k, v)); cbn; [|now apply IH].
  constructor; [|now apply IH].
  intros H. apply Hout. apply in_map_iff in H as (entry & <- & Hin).
  apply filter_In in Hin as [Hin _]. now apply in_map.
Qed.

Lemma filter_all {A : Type} (keep : A -> bool) (l : list A) :
  List.length (filter keep l) = List.length l -> filter keep l = l.
Proof.
  induction l as [|x l IH]; cbn; [reflexivity|].
  destruct (keep x); cbn; intros H.
  - f_equal. apply IH. lia.
  - pose proof (filter_length_le keep l). lia.
Qed.

End Records.

(** X18.  The record of next actions holds one action for a case.  Saving
    one for a signed-in user stores it under the case, with the text
    normalised and cut to 220 characters and a completion stamp exactly
    when it is completed; marking it keeps its text and its date; removing
    it leaves none; and none of the three touches the action of another
    case.  When the snapshot changes, the actions of the cases still in it
    are kept and all others forgotten.  The keys stay distinct throughout,
    and nothing changes without a session or for a text that is blank. *)
Theorem next_actions_record :
  (forall env nowIso id payload prev,
      truthy (normalizeWhitespace (Productivity.ActionInput.text payload)) = true ->
      let next := Productivity.setNextAction env true nowIso id payload prev in
      (exists action,
          Productivity.getNextAction next id = Some action
          /\ Productivity.NextAction.text action
             = truncateText (Productivity.ActionInput.text payload) 220
          /\ String.length (Productivity.NextAction.text action) <= 220
          /\ truthy (Productivity.NextAction.text action) = true
          /\ stamped action)
      /\ (forall other, other <> id ->
                        Productivity.getNextAction next other
                        = Productivity.getNextAction prev other))
  /\ (forall nowIso id completed prev current,
         Productivity.getNextAction prev id = Some current ->
         let next := Productivity.toggleNextActionCompleted true nowIso id completed prev in
         (exists action,
             Productivity.getNextAction next id = Some action
             /\ Productivity.NextAction.text action = Productivity.NextAction.text current
             /\ Productivity.NextAction.dueDate action
                = Productivity.NextAction.dueDate current
             /\ Productivity.NextAction.completed action = completed
             /\ stamped action)
         /\ (forall other, other <> id ->
                           Productivity.getNextAction next other
                           = Productivity.getNextAction prev other))
  /\ (forall session id prev,
         let next := Productivity.removeNextAction session id prev in
         (session = true -> Productivity.getNextAction next id = None)
         /\ (forall other, other <> id ->
                           Productivity.getNextAction next other
                           = Productivity.getNextAction prev other))
  /\ (forall expedientes prev id,
         Productivity.getNextAction (Productivity.prune expedientes prev) id
         = if existsb (String.eqb id) (map Expediente.id expedientes)
           then Productivity.getNextAction prev id else None)
  /\ (forall env session nowIso id payload completed expedientes prev,
         NoDup (map fst prev) ->
         NoDup (map fst (Productivity.setNextAction env session nowIso id payload prev))
         /\ NoDup (map fst (Productivity.toggleNextActionCompleted
                              session nowIso id completed prev))
         /\ NoDup (map fst (Productivity.removeNextAction session id prev))
         /\ NoDup (map fst (Productivity.prune expedientes prev)))
  /\ (forall env session nowIso id payload completed prev,
         session = false
         \/ truthy (normalizeWhitespace (Productivity.ActionInput.text payload)) = false ->
         Productivity.setNextAction env session nowIso id payload prev = prev
         /\ (session = false ->
             Productivity.toggleNextActionCompleted session nowIso id completed prev = prev
             /\ Productivity.removeNextAction session id prev = prev)).
Proof.
  split; [|split; [|split; [|split; [|split]]]].
  - intros env nowIso id payload prev Htext next. subst next.
    unfold Productivity.setNextAction, Productivity.getNextAction. cbn [negb].
    rewrite (truthy_slice0 219), Htext. cbn [negb].
    split.
    + eexists. split; [apply get_assign_same|].
      cbn [Productivity.NextAction.text Productivity.NextAction.dueDate
           Productivity.NextAction.completed Productivity.NextAction.completedAt].
      split; [reflexivity|]. split; [rewrite length_slice0; apply Nat.le_min_l|].
      split; [rewrite (truthy_slice0 219); exact Htext|].
      unfold stamped.
      cbn [Productivity.NextAction.text Productivity.NextAction.dueDate
           Productivity.NextAction.completed Productivity.NextAction.completedAt].
      destruct (nullish (Productivity.ActionInput.completed payload) false);
        split; congruence.
    + intros other Hne. now apply get_assign_other.
  - intros nowIso id completed prev current Hcurrent next. subst next.
    unfold Productivity.toggleNextActionCompleted, Productivity.getNextAction in *.
    cbn [negb]. rewrite Hcurrent. split.
    + eexists. split; [apply get_assign_same|]. unfold stamped. cbn.
      split; [reflexivity|]. split; [reflexivity|]. split; [reflexivity|].
      destruct completed; split; congruence.
    + intros other Hne. now apply get_assign_other.
  - intros session id prev next. subst next.
    unfold Productivity.removeNextAction, Productivity.getNextAction.
    assert (Hdel : forall other,
               Productivity.get other (Productivity.delete id prev)
               = if negb (id =? other) then Productivity.get other prev else None).
    { intros other. unfold Productivity.delete.
      rewrite <- (get_filter (fun k => negb (id =? k))).
      f_equal. apply filter_ext. intros [k v]. cbn. now rewrite String.eqb_sym. }
    split.
    + intros ->. cbn [negb].
      destruct (Productivity.get id prev) eqn:E; [|exact E].
      rewrite Hdel, String.eqb_refl. reflexivity.
    + intros other Hne. destruct session; cbn [negb]; [|reflexivity].
      destruct (Productivity.get id prev); [|reflexivity].
      rewrite Hdel. destruct (id =? other) eqn:E; [|reflexivity].
      apply String.eqb_eq in E. congruence.
  - intros expedientes prev id. unfold Productivity.prune, Productivity.getNextAction.
    set (keep := fun key : string => existsb (String.eqb key) (map Expediente.id expedientes)).
    change (filter _ prev)
      with (filter (fun entry : string * Productivity.NextAction.t => keep (fst entry)) prev).
    destruct (_ =? _)%nat eqn:E.
    + apply Nat.eqb_eq in E. apply filter_all in E.
      rewrite <- E at 1. apply get_filter.
    + apply get_filter.
  - intros env session nowIso id payload completed expedientes prev Hnd.
    split; [|split; [|split]].
    + unfold Productivity.setNextAction.
      destruct (negb session); [exact Hnd|].
      destruct (negb (truthy _)); [exact Hnd|]. now apply keys_assign.
    + unfold Productivity.toggleNextActionCompleted.
      destruct (negb session); [exact Hnd|].
      destruct (Productivity.get id prev); [|exact Hnd]. now apply keys_assign.
    + unfold Productivity.removeNextAction.
      destruct (negb session); [exact Hnd|].
      destruct (Productivity.get id prev); [|exact Hnd].
      unfold Productivity.delete. now apply keys_filter.
    + unfold Productivity.prune.
      destruct (_ =? _)%nat; [exact Hnd|]. now apply keys_filter.
  - intros env session nowIso id payload completed prev Hwhy. split.
    + unfold Productivity.setNextAction.
      destruct session; cbn [negb]; [|reflexivity].
      destruct Hwhy as [Hs | Htext]; [discriminate|].
      rewrite (truthy_slice0 219), Htext. reflexivity.
    + intros ->. split; reflexivity.
Qed.
Lemma next_actions_record_witness :
  (forall other,
      other <> "c1" ->
      Productivity.getNextAction
        (Productivity.setNextAction Sample.env true "2026-11-02T20:00:00.000Z" "c1"
           (Productivity.ActionInput.mk " Llamar  al quejoso " "2026-11-05" None) [])
        other
      = Productivity.getNextAction [] other)
  /\ (forall other,
         other <> "c1" ->
         Productivity.getNextAction
           (Productivity.toggleNextActionCompleted true "2026-11-02T20:00:00.000Z" "c1"
              true
              [("c1", Productivity.NextAction.mk "c1" "Llamar al quejoso" "2026-11-05"
                        false "2026-11-01T10:00:00.000Z" None)])
           other
         = Productivity.getNextAction
             [("c1", Productivity.NextAction.mk "c1" "Llamar al quejoso" "2026-11-05"
                       false "2026-11-01T10:00:00.000Z" None)]
             other)
  /\ Productivity.getNextAction
       (Productivity.removeNextAction true "c1"
          [("c1", Productivity.NextAction.mk "c1" "Llamar al quejoso" "2026-11-05"
                    false "2026-11-01T10:00:00.000Z" None)])
       "c1"
     = None
  /\ NoDup
       (map fst
          (Productivity.prune [Sample.firstCase]
             [("c1", Productivity.NextAction.mk "c1" "Llamar al quejoso" "2026-11-05"
                       false "2026-11-01T10:00:00.000Z" None)]))
  /\ Productivity.setNextAction Sample.env true "2026-11-02T20:00:00.000Z" "c1"
       (Productivity.ActionInput.mk "   " "2026-11-05" None) []
     = [].
Proof.
  split; [|split; [|split; [|split]]].
  - apply (proj1 next_actions_record Sample.env "2026-11-02T20:00:00.000Z" "c1"
             (Productivity.ActionInput.mk " Llamar  al quejoso " "2026-11-05" None) []).
    vm_compute. reflexivity.
  - apply (proj1 (proj2 next_actions_record) "2026-11-02T20:00:00.000Z" "c1" true
             [("c1", Productivity.NextAction.mk "c1" "Llamar al quejoso" "2026-11-05"
                       false "2026-11-01T10:00:00.000Z" None)]
             (Productivity.NextAction.mk "c1" "Llamar al quejoso" "2026-11-05"
                false "2026-11-01T10:00:00.000Z" None)).
    reflexivity.
  - apply (proj1 (proj2 (proj2 next_actions_record)) true "c1"). reflexivity.
  - apply (proj1 (proj2 (proj2 (proj2 (proj2 next_actions_record)))) Sample.env true
             "" "c1" (Productivity.ActionInput.mk "" "" None) false [Sample.firstCase]).
    repeat constructor. intros [].
  - refine (proj1 (proj2 (proj2 (proj2 (proj2 (proj2 next_actions_record))))
                     Sample.env true "2026-11-02T20:00:00.000Z" "c1"
                     (Productivity.ActionInput.mk "   " "2026-11-05" None) false []
                     (or_intror _))).
    vm_compute. reflexivity.
Defined.

(** ** Templates and saved filters *)

Section Stored.

Import Arrays.

Context {A : Type}.
Variable ident : A -> string.
Variable item : A.

Lemma findIndex_none (p : A -> bool) (l : list A) :
  findIndex p l = None -> forall x, In x l -> p x = false.
Proof.
  induction l as [|y l IH]; cbn; [intros _ x []|].
  destruct (p y) eqn:Hy; [discriminate|].
  destruct (findIndex p l); [discriminate|].
  intros _ x [<- | Hin]; [exact Hy | now apply IH].
Qed.

Lemma findIndex_some (p : A -> bool) (l : list A) :
  forall index, findIndex p l = Some index ->
                exists x, nth_error l index = Some x /\ p x = true.
Proof.
  induction l as [|y l IH]; cbn; [discriminate|].
  destruct (p y) eqn:Hy.
  - intros index [= <-]. now exists y.
  - destruct (findIndex p l) as [i|]; [|discriminate].
    intros index [= <-]. cbn. now apply IH.
Qed.

Lemma replaced_ids (l : list A) :
  forall from index x,
    nth_error l index = Some x ->
    ident x = ident item ->
    map ident (mapi_from from
                 (fun idx y => if (idx =? from + index)%nat then item else y) l)
    = map ident l.
Proof.
  induction l as [|y l IH]; intros from index x Hx Hid; [reflexivity|].
  cbn [mapi_from map]. destruct index as [|index]; cbn in Hx.
  - injection Hx as ->. rewrite Nat.add_0_r, Nat.eqb_refl. f_equal; [now symmetry|].
    clear IH. generalize (Nat.lt_succ_diag_r from). generalize (S from) as k.
    induction l as [|z l IH]; intros k Hk; [reflexivity|].
    cbn [mapi_from map].
    destruct (k =? from)%nat eqn:E; [apply Nat.eqb_eq in E; lia|].
    f_equal. apply IH. lia.
  - destruct (from =? from + S index)%nat eqn:E; [apply Nat.eqb_eq in E; lia|].
    f_equal. replace (from + S index)%nat with (S from + index)%nat by lia.
    now apply (IH (S from) index x).
Qed.

Lemma replaced_in (l : list A) :
  forall from index x,
    nth_error l index = Some x ->
    In item (mapi_from from
               (fun idx y => if (idx =? from + index)%nat then item else y) l).
Proof.
  induction l as [|y l IH]; intros from index x Hx; [now destruct index|].
  cbn [mapi_from]. destruct index as [|index]; cbn in Hx.
  - left. now rewrite Nat.add_0_r, Nat.eqb_refl.
  - right. replace (from + S index)%nat with (S from + index)%nat by lia.
    now apply (IH (S from) index x).
Qed.

Lemma replaced_from (l : list A) :
  forall from index y,
    In y (mapi_from from (fun idx z => if (idx =? index)%nat then item else z) l) ->
    y = item \/ In y l.
Proof.
  induction l as [|z l IH]; intros from index y; cbn; [tauto|].
  intros [<- | H].
  - destruct (from =? index)%nat; auto.
  - destruct (IH _ _ _ H); auto.
Qed.

Lemma firstn_distinct {B : Type} (n : nat) (l : list B) :
  NoDup l -> NoDup (firstn n l).
Proof.
  intros H. rewrite <- (firstn_skipn n l) in H.
  now apply NoDup_app_remove_r in H.
Qed.

(** Storing an item in a list that keeps one item per identifier and at
    most [cap] of them. *)
Lemma stored (cap : nat) (l : list A) :
  let next :=
    match findIndex (fun x => ident x =? ident item) l with
    | None => firstn cap (item :: l)
    | Some index => mapi (fun idx x => if (idx =? index)%nat then item else x) l
    end in
  (List.length l <= cap -> List.length next <= cap)
  /\ (0 < cap -> In item next)
  /\ (NoDup (map ident l) -> NoDup (map ident next))
  /\ (forall x, In x next -> x = item \/ In x l).
Proof.
  destruct (findIndex _ l) as [index|] eqn:Hfind; cbv zeta.
  - apply findIndex_some in Hfind as (x & Hx & Hid). apply String.eqb_eq in Hid.
    unfold mapi. split; [|split; [|split]].
    + now rewrite length_mapi_from.
    + intros _. apply (replaced_in l 0 index x Hx).
    + pose proof (replaced_ids l 0 index x Hx Hid) as E.
      cbn [Nat.add] in E. now rewrite E.
    + intros y. apply replaced_from.
  - pose proof (findIndex_none _ _ Hfind) as Hnew.
    split; [|split; [|split]].
    + intros _. apply firstn_le_length.
    + intros Hcap. destruct cap; [lia|]. now left.
    + intros Hnd. rewrite <- firstn_map. apply firstn_distinct.
      cbn [map]. constructor; [|exact Hnd].
      intros Hin. apply in_map_iff in Hin as (x & Hid & Hin).
      apply Hnew in Hin. apply String.eqb_neq in Hin. contradiction.
    + intros x Hin.
      assert (H : In x (item :: l)).
      { rewrite <- (firstn_skipn cap (item :: l)). apply in_or_app. now left. }
      destruct H as [<- | H]; auto.
Qed.

End Stored.

(** X19.  The lists of templates and of saved filters keep one entry per
    identifier and never grow past their caps of 24 and 20.  A template
    is stored only with its four names filled in, a filter only with a
    name; what is stored is the normalised entry, in the list afterwards,
    and every other entry of the list was there before.  A stored template
    has an offset between 0 and 180 days, one of the five statuses, a name
    of at most 80 characters and notes of at most 2500.  Deleting by
    identifier removes exactly the entries that carry it. *)
Theorem templates_and_filters_stored :
  (forall uuid payload templates,
      let template := Productivity.templateOf uuid payload in
      let next := Productivity.saveTemplate uuid payload templates in
      (template_complete payload = false -> next = templates)
      /\ (template_complete payload = true -> In template next)
      /\ (List.length templates <= 24 -> List.length next <= 24)
      /\ (NoDup (map Productivity.ExpedienteTemplate.id templates) ->
          NoDup (map Productivity.ExpedienteTemplate.id next))
      /\ (forall other, In other next -> other = template \/ In other templates)
      /\ (0 <= Productivity.ExpedienteTemplate.next_action_offset_days template <= 180)%Z
      /\ ESTADOS_includes (Productivity.ExpedienteTemplate.estado template) = true
      /\ String.length (Productivity.ExpedienteTemplate.name template) <= 80
      /\ String.length (Productivity.ExpedienteTemplate.notas_seguimiento template)
         <= 2500)
  /\ (forall env uuid payload savedFilters,
         let saved := Productivity.filterOf env uuid payload in
         let next := Productivity.saveFilter env uuid payload savedFilters in
         (blank (Productivity.FilterInput.name payload) = true -> next = savedFilters)
         /\ (blank (Productivity.FilterInput.name payload) = false -> In saved next)
         /\ (List.length savedFilters <= 20 -> List.length next <= 20)
         /\ (NoDup (map Productivity.SavedExpedienteFilter.id savedFilters) ->
             NoDup (map Productivity.SavedExpedienteFilter.id next))
         /\ (forall other, In other next -> other = saved \/ In other savedFilters))
  /\ (forall id templates savedFilters,
         (forall template,
             In template (Productivity.deleteTemplate id templates)
             <-> In template templates
                 /\ Productivity.ExpedienteTemplate.id template <> id)
         /\ (forall saved,
                In saved (Productivity.deleteFilter id savedFilters)
                <-> In saved savedFilters
                    /\ Productivity.SavedExpedienteFilter.id saved <> id)).
Proof.
  split; [|split].
  - intros uuid payload templates template next.
    pose proof (stored Productivity.ExpedienteTemplate.id template 24 templates)
      as (Hlen & Hin & Hnd & Hsub).
    assert (Hgate :
      negb (truthy (Productivity.ExpedienteTemplate.name template))
      || negb (truthy (Productivity.ExpedienteTemplate.tipo_derecho template))
      || negb (truthy (Productivity.ExpedienteTemplate.autoridad_responsable template))
      || negb (truthy (Productivity.ExpedienteTemplate.visitador_asignado template))
      = negb (template_complete payload)).
    { unfold template, Productivity.templateOf, template_complete, blank.
      cbn [Productivity.ExpedienteTemplate.name
             Productivity.ExpedienteTemplate.tipo_derecho
             Productivity.ExpedienteTemplate.autoridad_responsable
             Productivity.ExpedienteTemplate.visitador_asignado].
      rewrite (truthy_slice0 79), (truthy_slice0 119), (truthy_slice0 159),
        (truthy_slice0 119), !truthy_normalizeWhitespace.
      rewrite !negb_andb. reflexivity. }
    subst next. unfold Productivity.saveTemplate. fold template. rewrite Hgate.
    split; [intros ->; reflexivity|].
    split; [intros ->; cbn [negb]; apply Hin; lia|].
    destruct (template_complete payload); cbn [negb].
    + split; [exact Hlen|]. split; [exact Hnd|]. split; [exact Hsub|].
      unfold template, Productivity.templateOf.
      cbn [Productivity.ExpedienteTemplate.next_action_offset_days
             Productivity.ExpedienteTemplate.estado
             Productivity.ExpedienteTemplate.name
             Productivity.ExpedienteTemplate.notas_seguimiento].
      split; [lia|]. split.
      * destruct (ESTADOS_includes (Productivity.TemplateInput.estado payload)) eqn:E;
          [exact E | reflexivity].
      * split; rewrite length_slice0; apply Nat.le_min_l.
    + split; [tauto|]. split; [tauto|]. split; [tauto|].
      unfold template, Productivity.templateOf.
      cbn [Productivity.ExpedienteTemplate.next_action_offset_days
             Productivity.ExpedienteTemplate.estado
             Productivity.ExpedienteTemplate.name
             Productivity.ExpedienteTemplate.notas_seguimiento].
      split; [lia|]. split.
      * destruct (ESTADOS_includes (Productivity.TemplateInput.estado payload)) eqn:E;
          [exact E | reflexivity].
      * split; rewrite length_slice0; apply Nat.le_min_l.
  - intros env uuid payload savedFilters saved next.
    pose proof (stored Productivity.SavedExpedienteFilter.id saved 20 savedFilters)
      as (Hlen & Hin & Hnd & Hsub).
    assert (Hgate : truthy (Productivity.SavedExpedienteFilter.name saved)
                    = negb (blank (Productivity.FilterInput.name payload))).
    { unfold saved, Productivity.filterOf, blank.
      cbn [Productivity.SavedExpedienteFilter.name].
      now rewrite (truthy_slice0 79), truthy_normalizeWhitespace. }
    subst next. unfold Productivity.saveFilter. fold saved. rewrite Hgate.
    destruct (blank _); cbn [negb].
    + split; [reflexivity|]. split; [discriminate|]. tauto.
    + split; [discriminate|]. split; [intros _; apply Hin; lia|]. tauto.
  - intros id templates savedFilters. split.
    + intros template. unfold Productivity.deleteTemplate.
      rewrite filter_In, negb_true_iff, String.eqb_neq. reflexivity.
    + intros saved. unfold Productivity.deleteFilter.
      rewrite filter_In, negb_true_iff, String.eqb_neq. reflexivity.
Qed.
Lemma templates_and_filters_stored_witness :
  In (Productivity.templateOf "t-1"
        (Productivity.TemplateInput.mk None " Queja  laboral " "Derecho al trabajo"
           "Secretaria del Trabajo" "Visitador General I" "Abierta" "" "Llamar" 400))
     (Productivity.saveTemplate "t-1"
        (Productivity.TemplateInput.mk None " Queja  laboral " "Derecho al trabajo"
           "Secretaria del Trabajo" "Visitador General I" "Abierta" "" "Llamar" 400)
        [])
  /\ Productivity.saveTemplate "t-2"
       (Productivity.TemplateInput.mk None "Queja" "  " "Secretaria del Trabajo"
          "Visitador General I" "Admitida" "" "" 0)
       []
     = []
  /\ Productivity.saveFilter Sample.env "f-1"
       (Productivity.FilterInput.mk None "   " "" "" "" Productivity.todos "" ""
          false false)
       []
     = []
  /\ List.length
       (Productivity.saveFilter Sample.env "f-1"
          (Productivity.FilterInput.mk None "Resueltas" "" "Resuelta" ""
             Productivity.este_mes "" "" false false)
          [])
     <= 20.
Proof.
  split; [|split; [|split]].
  - refine (proj1 (proj2 (proj1 templates_and_filters_stored "t-1"
                            (Productivity.TemplateInput.mk None " Queja  laboral "
                               "Derecho al trabajo" "Secretaria del Trabajo"
                               "Visitador General I" "Abierta" "" "Llamar" 400)
                            [])) _).
    vm_compute. reflexivity.
  - refine (proj1 (proj1 templates_and_filters_stored "t-2"
                     (Productivity.TemplateInput.mk None "Queja" "  "
                        "Secretaria del Trabajo" "Visitador General I" "Admitida"
                        "" "" 0)
                     []) _).
    vm_compute. reflexivity.
  - refine (proj1 (proj1 (proj2 templates_and_filters_stored) Sample.env "f-1"
                     (Productivity.FilterInput.mk None "   " "" "" ""
                        Productivity.todos "" "" false false)
                     []) _).
    vm_compute. reflexivity.
  - refine (proj1 (proj2 (proj2 (proj1 (proj2 templates_and_filters_stored)
                                   Sample.env "f-1"
                                   (Productivity.FilterInput.mk None "Resueltas" ""
                                      "Resuelta" "" Productivity.este_mes "" ""
                                      false false)
                                   []))) _).
    cbn. lia.
Defined.

(** ** The form of a case *)

Section Form.

Import Formulario.

Lemma existsb_same {A : Type} (f g : A -> bool) (l : list A) :
  (forall x, f x = g x) -> existsb f l = existsb g l.
Proof.
  intros H. induction l as [|x l IH]; cbn; [reflexivity|]. now rewrite H, IH.
Qed.

(** What the form has checked when it finds nothing to report. *)
Lemma validate_accepted (env : Env) (expedientes : list Expediente.t)
      (editingExp : option Expediente.t) (form : FormState) :
  validate env expedientes editingExp form = None ->
  truthy (normalizeFolio (folio form)) = true
  /\ isValidFolio (normalizeFolio (folio form)) = true
  /\ (exists filed,
         normalizeDateOnly env (fecha_presentacion form) = Some filed
         /\ isFutureDate env filed = false)
  /\ truthy (normalizeWhitespace (tipo_derecho form)) = true
  /\ truthy (normalizeWhitespace (autoridad_responsable form)) = true
  /\ truthy (normalizeWhitespace (visitador_asignado form)) = true
  /\ (editingExp = None ->
      existsb (fun item => toUpperCase (Expediente.folio item)
                           =? normalizeFolio (folio form)) expedientes = false).
Proof.
  unfold validate. cbv zeta.
  destruct (truthy (normalizeFolio (folio form))); cbn [negb]; [|discriminate].
  destruct (isValidFolio (normalizeFolio (folio form))); cbn [negb]; [|discriminate].
  destruct (normalizeDateOnly env (fecha_presentacion form)) as [filed|];
    [|discriminate].
  destruct (isFutureDate env filed) eqn:Hpast; [discriminate|].
  destruct (truthy (normalizeWhitespace (tipo_derecho form))); cbn [negb];
    [|discriminate].
  destruct (truthy (normalizeWhitespace (autoridad_responsable form))); cbn [negb];
    [|discriminate].
  destruct (truthy (normalizeWhitespace (visitador_asignado form))); cbn [negb];
    [|discriminate].
  destruct (truthy (normalizeWhitespace (next_action_text form))); cbn [negb];
    [|discriminate].
  destruct (normalizeDateOnly env (next_action_due_date form)) as [due|];
    [|discriminate].
  destruct (due <? filed); [discriminate|].
  destruct (existsb _ expedientes) eqn:Hdup; [discriminate|].
  intros _. repeat (split; [reflexivity|]).
  split; [exists filed; split; [reflexivity | exact Hpast]|].
  repeat (split; [reflexivity|]).
  intros ->. rewrite <- Hdup. apply existsb_same.
  intros item. now rewrite andb_true_r.
Qed.

(** A folio of the required form is its own normal form, and short
    enough to pass the cut. *)
Lemma valid_folio_kept (raw : string) :
  isValidFolio (normalizeFolio raw) = true ->
  slice0 FIELD_LIMITS_folio (normalizeFolio raw) = normalizeFolio raw
  /\ normalizeFolio (normalizeFolio raw) = normalizeFolio raw
  /\ toUpperCase (normalizeFolio raw) = normalizeFolio raw.
Proof.
  intros Hvalid.
  assert (Hlen : String.length (normalizeFolio raw) <= max_len FOLIO_RE).
  { apply match_atoms_length. unfold isValidFolio in Hvalid.
    rewrite normalizeWhitespace_none in Hvalid; [exact Hvalid|].
    apply folio_char_no_space, normalizeFolio_chars. }
  change (max_len FOLIO_RE) with 18 in Hlen.
  split; [apply slice0_all; unfold FIELD_LIMITS_folio; lia|].
  split; [apply normalizeFolio_fixed, normalizeFolio_chars|].
  unfold toUpperCase at 1. apply map_str_fixed.
  generalize (normalizeFolio_chars raw). apply forall_str_impl.
  intros c Hc. unfold folio_char in Hc. now apply andb_true_iff in Hc as [_ Hc].
Qed.

Lemma payload_folio (env : Env) (form : FormState) :
  isValidFolio (normalizeFolio (folio form)) = true ->
  slice0 FIELD_LIMITS_folio
         (normalizeFolio (ExpedienteInsert.folio (payload env form)))
  = normalizeFolio (folio form).
Proof.
  intros Hvalid. destruct (valid_folio_kept _ Hvalid) as (Hcut & Hfixed & _).
  unfold payload. cbn [ExpedienteInsert.folio].
  now rewrite Hcut, Hfixed, Hcut.
Qed.

End Form.


